(** * libweave: connectivity manager, secure transport stream, stream copier

    A shallow embedding of

    - [examples/ubuntu/network_manager.cc]: [SSLStream] and [NetworkImpl];
    - [src/streams.cc]: [MemoryStream] and [StreamCopier].

    The code is callback driven.  Closures built with [base::Bind] are
    defunctionalised into first-order data, the task runner is an explicit
    queue, and everything the operating system or OpenSSL answers is read
    from an environment of oracles indexed by the number of queries made so
    far, so that every theorem holds for every behaviour of the outside
    world. *)

From Stdlib Require Import ZArith List String Lia Bool Arith DecimalString.
From stdpp Require Import base list.
Import ListNotations.
Open Scope Z_scope.

(** ** base::TimeDelta / base::Time, in microseconds *)

Module TimeDelta.
Definition FromSeconds (s : Z) : Z := s * 1000000.
Definition FromMinutes (m : Z) : Z := m * 60000000.
(** [{}], the default-constructed delta. *)
Definition Zero : Z := 0.
End TimeDelta.

(** ** The task runner *)

Module TaskRunner.
Section Queue.
Context {Task : Type}.

(** Modelled from the spec: the task runner ([weave/task_runner.h]) is an
  external collaborator.  "Single-threaded run loop; accepts (delay,
  callback), executes callbacks strictly after their delay elapses, in
  scheduling order"; "FIFO-by-deadline execution on one thread". *)
Record t := mk { clock : Z; pending : list (Z * Task) }.

(** Insertion keeps the queue ordered by due time; a new task goes behind
  every task that is due no later than itself. *)
Fixpoint enqueue (due : Z) (task : Task) (q : list (Z * Task))
: list (Z * Task) :=
match q with
| [] => [(due, task)]
| (d, x) :: q' =>
    if d <=? due then (d, x) :: enqueue due task q'
    else (due, task) :: (d, x) :: q'
end.

Definition PostDelayedTask (task : Task) (delay : Z) (r : t) : t :=
mk (clock r) (enqueue (clock r + delay) task (pending r)).

(** Dispatch of the head task: the clock is at least the task's due time;
  [late] is how much later than that the loop got round to it. *)
Definition dispatch (late : Z) (r : t) : option (Task * t) :=
match pending r with
| [] => None
| (due, task) :: q => Some (task, mk (Z.max (clock r) due + Z.max 0 late) q)
end.

(** [sleep(n)] on the single thread. *)
Definition sleep (seconds : Z) (r : t) : t :=
mk (clock r + TimeDelta.FromSeconds seconds) (pending r).
End Queue.
Arguments t : clear implicits.
End TaskRunner.

(** ** Errors *)

(** Modelled from the spec: [weave/error.h] is not part of these sources.
    An [ErrorPtr] owns a chain of errors (newest first, empty when null);
    [Error::AddTo] pushes onto the chain behind a non-null [ErrorPtr*]. *)
Record Error := mkError { domain : string; code : string; message : string }.
Definition ErrorPtr := list Error.

Module ErrorM.
Definition AddTo (error : option ErrorPtr) (dom c msg : string)
  : option ErrorPtr :=
  match error with
  | Some chain => Some (mkError dom c msg :: chain)
  | None => None
  end.
End ErrorM.

(** ** Closures *)

(** A callback handed in by the client is opaque; it is identified by a
    number, and running it is an observable event. *)
Definition Callback := nat.

(** [base::WeakPtr<T>]: the flag it shares with its factory, and the object
    it points to ([ptr] is the index of an [SSLStream]; unused for the one
    [NetworkImpl]). *)
Record WeakPtr := mkWeakPtr { flag : nat; ptr : nat }.

(** Argument-bound client callbacks, ready to [Run()]. *)
Inductive Closure :=
| BindSize (cb : Callback) (res : Z)          (* base::Bind(success_callback, res) *)
| BindError (cb : Callback) (err : ErrorPtr)   (* base::Bind(error_callback, base::Owned(...)) *)
| BindStream (cb : Callback) (stream : nat)    (* base::Bind(success_callback, base::Passed(&tls_stream)) *)
| Plain (cb : Callback).                       (* a base::Closure of the client *)

(** What the task runner holds. *)
Inductive Task :=
| Stream_RunDelayedTask (wp : WeakPtr) (c : Closure)
| Stream_ReadAsync (wp : WeakPtr) (buffer size_to_read : Z)
    (success_callback error_callback : Callback) (error : option ErrorPtr)
| Stream_WriteAllAsync (wp : WeakPtr) (buffer size_to_write : Z)
    (success_callback error_callback : Callback) (error : option ErrorPtr)
| Net_NotifyNetworkChanged (wp : WeakPtr)
| Net_TryToConnect (wp : WeakPtr) (ssid passphrase : string) (pid : Z)
    (until : Z) (on_success : Closure)
| Run (c : Closure).

(** ** Observable events *)

Inductive SSLOp :=
| OpRead (buffer : Z) (num : Z)
| OpWrite (buffer : Z) (num : Z)
| OpGetError (res : Z)
| OpConnect (end_point : string)
| OpHandshake.

Inductive Event :=
| EvStream (stream : nat) (c : Closure)   (* SSLStream::RunDelayedTask ran [c] *)
| EvSSL (stream : nat) (op : SSLOp)       (* a call into OpenSSL for this stream *)
| EvRun (c : Closure)                     (* a closure posted as a task ran *)
| EvListener (cb : Callback) (online : bool)
| EvFork (path : string) (args : list string)
| EvSystem (cmd : string)
| EvFile (path : string) (lines : list string)
| EvSleep (seconds : Z).

(** The stream an event is tied to. *)
Definition event_stream (e : Event) : option nat :=
  match e with
  | EvStream s _ | EvSSL s _ => Some s
  | _ => None
  end.

(** ** The outside world *)

(** One oracle per primitive; the argument is the number of queries made
    before this one. *)
Record Env := mkEnv {
  SSL_read : nat -> Z;
  SSL_write : nat -> Z;
  SSL_get_error : nat -> Z;
  SSL_CTX_new : nat -> Z;
  SSL_new : nat -> Z;
  BIO_new_connect : nat -> Z;
  BIO_do_connect : nat -> Z;
  BIO_should_retry : nat -> Z;
  SSL_do_handshake : nat -> Z;
  fork : nat -> Z;
  waitpid : nat -> Z;
  socket : nat -> Z;
  ioctl : nat -> Z * string;    (* SIOCGIWESSID: status, reported essid *)
  system : nat -> Z;
  lateness : nat -> Z;           (* of the run loop, per dispatch *)
}.

Definition SSL_ERROR_WANT_READ : Z := 2.
Definition SSL_ERROR_WANT_WRITE : Z := 3.

(** ** The monad of the program: state, fatal [CHECK]s, and fuel for its
    unbounded loops *)

Inductive Outcome (W A : Type) :=
| Ok (a : A) (w : W)
| Crash (w : W)         (* a CHECK failed: the process aborted *)
| OutOfFuel (w : W)     (* a loop was still running when fuel ran out *)
| Undefined (w : W).    (* from here on the behaviour of the program is undefined *)
Arguments Ok {W A}. Arguments Crash {W A}. Arguments OutOfFuel {W A}.
Arguments Undefined {W A}.

Definition M (W A : Type) : Type := W -> Outcome W A.

Section Monad.
Context {W : Type}.

Definition ret {A} (a : A) : M W A := fun w => Ok a w.
Definition bind {A B} (m : M W A) (k : A -> M W B) : M W B :=
  fun w => match m w with
           | Ok a w' => k a w'
           | Crash w' => Crash w'
           | OutOfFuel w' => OutOfFuel w'
           | Undefined w' => Undefined w'
           end.

(** The world in which a computation stopped, however it stopped. *)
Definition final {A} (o : Outcome W A) : W :=
  match o with Ok _ w | Crash w | OutOfFuel w | Undefined w => w end.

Definition get {A} (f : W -> A) : M W A := fun w => Ok (f w) w.
Definition modify (f : W -> W) : M W unit := fun w => Ok tt (f w).
Definition abort {A} : M W A := fun w => Crash w.
Definition diverge {A} : M W A := fun w => OutOfFuel w.
(** Control flows off the end of a function that returns a value: there is
    no value, and nothing more to say about the program. *)
Definition fall_off {A} : M W A := fun w => Undefined w.
Definition CHECK (c : bool) : M W unit := if c then ret tt else abort.

(** A task bound to a weak pointer is dropped once the pointer is invalid. *)
Definition when_valid (valid : W -> bool) (m : M W unit) : M W unit :=
  bind (get valid) (fun v => if v then m else ret tt).
End Monad.

Notation "x <- m ;; k" := (bind m (fun x => k))
  (at level 100, m at next level, right associativity).
Notation "m ;; k" := (bind m (fun _ => k))
  (at level 100, right associativity).

(** ** Program state *)

Module SSLStreamState.
Record t := mk {
  ctx_ : Z;
  ssl_ : Z;
  weak_ptr_factory_ : option nat;   (* the flag handed to live weak pointers *)
}.
End SSLStreamState.

Module NetworkImplState.
Record t := mk {
  hostapd_started_ : bool;
  callbacks_ : list Callback;
  weak_ptr_factory_ : option nat;
}.
End NetworkImplState.

Record World := mkWorld {
  env : Env;                                 (* never written *)
  runner : TaskRunner.t Task;                (* task_runner_ *)
  queries : nat;                             (* oracle queries so far *)
  trace : list Event;                        (* oldest first *)
  flags : list bool;                         (* WeakReference::Flag objects *)
  net : NetworkImplState.t;
  streams : list (option SSLStreamState.t);  (* None: destroyed *)
}.

Definition set_runner (r : TaskRunner.t Task) (w : World) : World :=
  mkWorld (env w) r (queries w) (trace w) (flags w) (net w) (streams w).
Definition set_queries (n : nat) (w : World) : World :=
  mkWorld (env w) (runner w) n (trace w) (flags w) (net w) (streams w).
Definition set_trace (tr : list Event) (w : World) : World :=
  mkWorld (env w) (runner w) (queries w) tr (flags w) (net w) (streams w).
Definition set_flags (fl : list bool) (w : World) : World :=
  mkWorld (env w) (runner w) (queries w) (trace w) fl (net w) (streams w).
Definition set_net (n : NetworkImplState.t) (w : World) : World :=
  mkWorld (env w) (runner w) (queries w) (trace w) (flags w) n (streams w).
Definition set_streams (ss : list (option SSLStreamState.t)) (w : World) : World :=
  mkWorld (env w) (runner w) (queries w) (trace w) (flags w) (net w) ss.

(** Programs over the world of the connectivity manager and its streams. *)
Abbreviation Prog := (M World).

Definition emit (e : Event) : Prog unit :=
  modify (fun w => set_trace (trace w ++ [e]) w).

(** ** C integer conversions *)

(** [size_t] arithmetic wraps modulo 2^64. *)
Definition size_t (z : Z) : Z := z mod 2 ^ 64.

(** Conversion of a [size_t] to the [int] parameter of [SSL_read] and
    [SSL_write]: reduction into [-2^31, 2^31). *)
Definition to_int (z : Z) : Z := (z + 2 ^ 31) mod 2 ^ 32 - 2 ^ 31.

(** [snprintf(buf, n, ...)]: at most [n - 1] characters are kept. *)
Definition snprintf (n : nat) (s : string) : string :=
  String.substring 0 (n - 1) s.

(** [%u] *)
Definition decimal (z : Z) : string :=
  NilZero.string_of_uint (N.to_uint (Z.to_N z)).

(** A query of the outside world. *)
Definition extern {A} (oracle : Env -> nat -> A) : Prog A :=
  fun w => Ok (oracle (env w) (queries w)) (set_queries (S (queries w)) w).

Definition Now : Prog Z := get (fun w => TaskRunner.clock (runner w)).

Definition PostDelayedTask (task : Task) (delay : Z) : Prog unit :=
  modify (fun w => set_runner (TaskRunner.PostDelayedTask task delay (runner w)) w).

Definition sleep (seconds : Z) : Prog unit :=
  emit (EvSleep seconds) ;;
  modify (fun w => set_runner (TaskRunner.sleep seconds (runner w)) w).

Definition std_system (cmd : string) : Prog Z :=
  emit (EvSystem cmd) ;; extern system.

(** *** base::WeakPtrFactory *)

(** Modelled from the spec: [base/memory/weak_ptr.h] is not part of these
    sources.  "Cancellation invalidates a weak binding to the owning
    object; already-scheduled callbacks referencing an invalidated binding
    are silently dropped."  A factory shares one flag with all the weak
    pointers it has handed out since the last invalidation;
    [InvalidateWeakPtrs] clears that flag and forgets it, so weak pointers
    made afterwards get a fresh one. *)
Definition new_flag : Prog nat :=
  fun w => Ok (length (flags w)) (set_flags (flags w ++ [true]) w).

Definition invalidate_flag (f : nat) : Prog unit :=
  modify (fun w => set_flags (<[f := false]> (flags w)) w).

Definition IsValid (wp : WeakPtr) (w : World) : bool :=
  match flags w !! flag wp with
  | Some b => b
  | None => false
  end.

(** *** SSLStream *)

Module SSLStream.
Import SSLStreamState.

(** [this->]: a destroyed or never constructed stream has no members to
    reach; the model stops there as it does for a failed [CHECK]. *)
Definition this_ (this : nat) : Prog SSLStreamState.t :=
  fun w => match streams w !! this with
           | Some (Some s) => Ok s w
           | _ => Crash w
           end.

Definition store (this : nat) (s : SSLStreamState.t) : Prog unit :=
  modify (fun w => set_streams (<[this := Some s]> (streams w)) w).

(** [weak_ptr_factory_.GetWeakPtr()] *)
Definition GetWeakPtr (this : nat) : Prog WeakPtr :=
  s <- this_ this ;;
  match weak_ptr_factory_ s with
  | Some f => ret (mkWeakPtr f this)
  | None =>
      f <- new_flag ;;
      store this (mk (ctx_ s) (ssl_ s) (Some f)) ;;
      ret (mkWeakPtr f this)
  end.

(** [weak_ptr_factory_.InvalidateWeakPtrs()] *)
Definition InvalidateWeakPtrs (this : nat) : Prog unit :=
  s <- this_ this ;;
  match weak_ptr_factory_ s with
  | Some f =>
      invalidate_flag f ;;
      store this (mk (ctx_ s) (ssl_ s) None)
  | None => ret tt
  end.

Definition RunDelayedTask (this : nat) (success_callback : Closure) : Prog unit :=
  emit (EvStream this success_callback).

Definition ReadAsync (this : nat) (buffer size_to_read : Z)
    (success_callback error_callback : Callback) (error : option ErrorPtr)
  : Prog (bool * option ErrorPtr) :=
  emit (EvSSL this (OpRead buffer (to_int size_to_read))) ;;
  res <- extern SSL_read ;;
  if 0 <? res then
    wp <- GetWeakPtr this ;;
    PostDelayedTask
      (Stream_RunDelayedTask wp (BindSize success_callback res))
      TimeDelta.Zero ;;
    ret (true, error)
  else
    emit (EvSSL this (OpGetError res)) ;;
    err <- extern SSL_get_error ;;
    if (err =? SSL_ERROR_WANT_READ) || (err =? SSL_ERROR_WANT_WRITE) then
      wp <- GetWeakPtr this ;;
      PostDelayedTask
        (Stream_ReadAsync wp buffer size_to_read
           success_callback error_callback None)
        (TimeDelta.FromSeconds 1) ;;
      ret (true, error)
    else
      let weave_error :=
        ErrorM.AddTo (Some []) "ssl" "socket_read_failed" "SSL error" in
      wp <- GetWeakPtr this ;;
      PostDelayedTask
        (Stream_RunDelayedTask wp
           (BindError error_callback (default [] weave_error)))
        TimeDelta.Zero ;;
      ret (true, error).

Definition WriteAllAsync (this : nat) (buffer size_to_write : Z)
    (success_callback error_callback : Callback) (error : option ErrorPtr)
  : Prog (bool * option ErrorPtr) :=
  emit (EvSSL this (OpWrite buffer (to_int size_to_write))) ;;
  res <- extern SSL_write ;;
  if 0 <? res then
    let buffer := buffer + res in
    let size_to_write := size_t (size_to_write - res) in
    if size_to_write =? 0 then
      wp <- GetWeakPtr this ;;
      PostDelayedTask
        (Stream_RunDelayedTask wp (Plain success_callback))
        TimeDelta.Zero ;;
      ret (true, error)
    else
      wp <- GetWeakPtr this ;;
      PostDelayedTask
        (Stream_WriteAllAsync wp buffer size_to_write
           success_callback error_callback None)
        (TimeDelta.FromSeconds 1) ;;
      ret (true, error)
  else
    emit (EvSSL this (OpGetError res)) ;;
    err <- extern SSL_get_error ;;
    if (err =? SSL_ERROR_WANT_READ) || (err =? SSL_ERROR_WANT_WRITE) then
      wp <- GetWeakPtr this ;;
      PostDelayedTask
        (Stream_WriteAllAsync wp buffer size_to_write
           success_callback error_callback None)
        (TimeDelta.FromSeconds 1) ;;
      ret (true, error)
    else
      let weave_error :=
        ErrorM.AddTo (Some []) "ssl" "socket_write_failed" "SSL error" in
      wp <- GetWeakPtr this ;;
      PostDelayedTask
        (Stream_RunDelayedTask wp
           (BindError error_callback (default [] weave_error)))
        TimeDelta.Zero ;;
      ret (true, error).

Definition CancelPendingAsyncOperations (this : nat) : Prog unit :=
  InvalidateWeakPtrs this.

(** [~SSLStream()]: the body, then the members go (the factory's own
    destructor invalidates once more), then the object. *)
Definition destroy (this : nat) : Prog unit :=
  CancelPendingAsyncOperations this ;;
  InvalidateWeakPtrs this ;;
  modify (fun w => set_streams (<[this := None]> (streams w)) w).

(** [while (BIO_do_connect(stream_bio) != 1) { CHECK(...); sleep(1); }] *)
Fixpoint connect_loop (fuel : nat) (this : nat) (end_point : string)
  : Prog unit :=
  match fuel with
  | O => diverge
  | S fuel' =>
      emit (EvSSL this (OpConnect end_point)) ;;
      r <- extern BIO_do_connect ;;
      if negb (r =? 1) then
        retry <- extern BIO_should_retry ;;
        CHECK (negb (retry =? 0)) ;;
        sleep 1 ;;
        connect_loop fuel' this end_point
      else ret tt
  end.

(** [for (;;) { ... }] around [SSL_do_handshake]. *)
Fixpoint handshake_loop (fuel : nat) (this : nat) : Prog bool :=
  match fuel with
  | O => diverge
  | S fuel' =>
      emit (EvSSL this OpHandshake) ;;
      res <- extern SSL_do_handshake ;;
      if negb (res =? 0) then ret true
      else
        emit (EvSSL this (OpGetError res)) ;;
        res <- extern SSL_get_error ;;
        if negb (res =? SSL_ERROR_WANT_READ)
           || negb (res =? SSL_ERROR_WANT_WRITE)
        then ret false
        else
          sleep 1 ;;
          handshake_loop fuel' this
  end.

Definition Init (fuel : nat) (this : nat) (host : string) (port : Z)
  : Prog bool :=
  s <- this_ this ;;
  ctx <- extern SSL_CTX_new ;;
  store this (mk ctx (ssl_ s) (weak_ptr_factory_ s)) ;;
  CHECK (negb (ctx =? 0)) ;;
  ssl <- extern SSL_new ;;
  store this (mk ctx ssl (weak_ptr_factory_ s)) ;;
  let end_point :=
    snprintf 255 (host ++ ":" ++ decimal (port mod 2 ^ 16))%string in
  stream_bio <- extern BIO_new_connect ;;
  CHECK (negb (stream_bio =? 0)) ;;
  (* BIO_set_nbio(stream_bio, 1): the oracles answer as a non-blocking BIO *)
  connect_loop fuel this end_point ;;
  (* SSL_set_bio, SSL_set_connect_state: no answer to act on *)
  handshake_loop fuel this.

(** [new SSLStream{task_runner_}] *)
Definition new : Prog nat :=
  fun w => Ok (length (streams w))
              (set_streams (streams w ++ [Some (mk 0 0 None)]) w).
End SSLStream.

(** *** ForkCmd *)

(** The parent gets the child's pid back.  The child ([fork() == 0]) execs
    [path] and is no longer this program: for the model it ends there. *)
Definition ForkCmd (path : string) (args : list string) : Prog Z :=
  emit (EvFork path args) ;;
  pid <- extern fork ;;
  if negb (pid =? 0) then ret pid else abort.

(** *** NetworkImpl *)

Inductive NetworkState := kOffline | kFailure | kConnecting | kConnected.

Definition NetworkState_eqb (a b : NetworkState) : bool :=
  match a, b with
  | kOffline, kOffline | kFailure, kFailure
  | kConnecting, kConnecting | kConnected, kConnected => true
  | _, _ => false
  end.

(** A function body as a sequence of statements, each of which either
    returns a value ([Some]) or falls through to the next ([None]). *)
Fixpoint body {R} (stmts : list (Prog (option R))) (last : Prog R) : Prog R :=
  match stmts with
  | [] => last
  | s :: rest =>
      r <- s ;;
      match r with
      | Some v => ret v
      | None => body rest last
      end
  end.

Definition return_ {R} (v : R) : Prog (option R) := ret (Some v).
Definition return_if {R} (c : Prog bool) (v : R) : Prog (option R) :=
  b <- c ;; ret (if b then Some v else None).

Module NetworkImpl.
Import NetworkImplState.

Definition GetWeakPtr : Prog WeakPtr :=
  n <- get net ;;
  match weak_ptr_factory_ n with
  | Some f => ret (mkWeakPtr f 0)
  | None =>
      f <- new_flag ;;
      modify (set_net (mk (hostapd_started_ n) (callbacks_ n) (Some f))) ;;
      ret (mkWeakPtr f 0)
  end.

Definition set_hostapd_started_ (b : bool) : Prog unit :=
  modify (fun w =>
    set_net (mk b (callbacks_ (net w)) (weak_ptr_factory_ (net w))) w).

Definition AddOnConnectionChangedCallback (listener : Callback) : Prog unit :=
  modify (fun w =>
    set_net (mk (hostapd_started_ (net w)) (callbacks_ (net w) ++ [listener])
                (weak_ptr_factory_ (net w))) w).

Definition GetConnectionState : Prog NetworkState :=
  body
    [ (* Forced soft AP. *)
      return_ kOffline;
      return_if (r <- std_system "ping talk.google.com -c 1" ;; ret (r =? 0))
                kConnected;
      return_if (r <- std_system "nmcli dev" ;; ret (negb (r =? 0)))
                kFailure;
      return_if (r <- std_system "nmcli dev | grep connecting" ;; ret (r =? 0))
                kConnecting ]
    (ret kOffline).

Fixpoint run_callbacks (cbs : list Callback) (online : bool) : Prog unit :=
  match cbs with
  | [] => ret tt
  | i :: rest => emit (EvListener i online) ;; run_callbacks rest online
  end.

Definition NotifyNetworkChanged : Prog unit :=
  st <- GetConnectionState ;;
  let online := NetworkState_eqb st kConnected in
  cbs <- get (fun w => callbacks_ (net w)) ;;
  run_callbacks cbs online.

Definition post_NotifyNetworkChanged : Prog unit :=
  wp <- GetWeakPtr ;;
  PostDelayedTask (Net_NotifyNetworkChanged wp) TimeDelta.Zero.

(** The first [if (pid)] block of [TryToConnect]: [None] when it returned
    from the function, otherwise the value [pid] has after it. *)
Definition poll_join (ssid : string) (pid : Z) (on_success : Closure)
  : Prog (option Z) :=
  if negb (pid =? 0) then
    r <- extern waitpid ;;
    if pid =? r then
      sockf_d <- extern socket ;;
      CHECK (0 <=? sockf_d) ;;
      wreq <- extern ioctl ;;
      CHECK (0 <=? fst wreq) ;;
      let essid := snd wreq in
      if String.eqb ssid essid then
        post_NotifyNetworkChanged ;;
        PostDelayedTask (Run on_success) TimeDelta.Zero ;;
        ret None
      else ret (Some 0)   (* Try again. *)
    else ret (Some pid)
  else ret (Some pid).

(** [if (pid == 0) pid = ForkCmd("nmcli", ...);] *)
Definition join (ssid passphrase : string) (pid : Z) : Prog Z :=
  if pid =? 0
  then ForkCmd "nmcli"
         ["dev"; "wifi"; "connect"; ssid; "password"; passphrase]%string
  else ret pid.

(** The end of [TryToConnect]: past the deadline the listeners are
    notified and the attempt ends; before it, the attempt is posted again
    for one second later. *)
Definition expire_or_retry (ssid passphrase : string) (pid : Z) (until : Z)
    (on_success : Closure) : Prog unit :=
  now <- Now ;;
  if until <=? now then
    post_NotifyNetworkChanged
  else
    wp <- GetWeakPtr ;;
    PostDelayedTask
      (Net_TryToConnect wp ssid passphrase pid until on_success)
      (TimeDelta.FromSeconds 1).

Definition TryToConnect (ssid passphrase : string) (pid : Z) (until : Z)
    (on_success : Closure) : Prog unit :=
  polled <- poll_join ssid pid on_success ;;
  match polled with
  | None => ret tt
  | Some pid =>
      pid <- join ssid passphrase pid ;;
      expire_or_retry ssid passphrase pid until on_success
  end.

(** [ConnectToService] has no [return] behind the call of [TryToConnect]:
    control flows off the end of a function that returns [bool]. *)
Definition ConnectToService (ssid passphrase : string) (on_success : Closure)
    (error : option ErrorPtr) : Prog (bool * option ErrorPtr) :=
  started <- get (fun w => hostapd_started_ (net w)) ;;
  CHECK (negb started) ;;
  if started then
    ret (false, ErrorM.AddTo error "wifi" "busy" "Running Access Point.")
  else
    now <- Now ;;
    TryToConnect ssid passphrase 0 (now + TimeDelta.FromMinutes 1) on_success ;;
    fall_off.

Definition write_file (path : string) (lines : list string) : Prog unit :=
  emit (EvFile path lines).

(** [for (size_t i = 0; i < 10; ++i) { if (0 == system(...)) break; sleep(1); }] *)
Fixpoint configure_interface (attempts : nat) : Prog unit :=
  match attempts with
  | O => ret tt
  | S n =>
      r <- std_system "ifconfig wlan0 192.168.76.1/24" ;;
      if 0 =? r then ret tt else sleep 1 ;; configure_interface n
  end.

Definition EnableAccessPoint (ssid : string) : Prog unit :=
  started <- get (fun w => hostapd_started_ (net w)) ;;
  if started then ret tt
  else
    (* Release wlan0 interface. *)
    r <- std_system "nmcli nm wifi off" ;; CHECK (0 =? r) ;;
    r <- std_system "rfkill unblock wlan" ;; CHECK (0 =? r) ;;
    sleep 1 ;;
    let hostapd_conf := "/tmp/weave_hostapd.conf"%string in
    write_file hostapd_conf
      ["interface=wlan0"; "channel=1"; "ssid=" ++ ssid]%string ;;
    r <- std_system ("hostapd -B -K " ++ hostapd_conf)%string ;; CHECK (0 =? r) ;;
    set_hostapd_started_ true ;;
    configure_interface 10 ;;
    let dnsmasq_conf := "/tmp/weave_dnsmasq.conf"%string in
    write_file dnsmasq_conf
      ["port=0"; "bind-interfaces"; "log-dhcp";
       "dhcp-range=192.168.76.10,192.168.76.100"; "interface=wlan0";
       "dhcp-leasefile=" ++ dnsmasq_conf ++ ".leases"]%string ;;
    r <- std_system ("dnsmasq --conf-file=" ++ dnsmasq_conf)%string ;;
    CHECK (0 =? r) ;;
    post_NotifyNetworkChanged.

Definition DisableAccessPoint : Prog unit :=
  std_system "pkill -f dnsmasq.*/tmp/weave" ;;
  std_system "pkill -f hostapd.*/tmp/weave" ;;
  r <- std_system "nmcli nm wifi on" ;; CHECK (0 =? r) ;;
  set_hostapd_started_ false ;;
  post_NotifyNetworkChanged.

Definition OpenSslSocket (fuel : nat) (host : string) (port : Z)
    (success_callback error_callback : Callback) : Prog unit :=
  (* Connect to SSL port instead of upgrading to TLS. *)
  tls_stream <- SSLStream.new ;;
  ok <- SSLStream.Init fuel tls_stream host port ;;
  if ok then
    PostDelayedTask (Run (BindStream success_callback tls_stream))
      TimeDelta.Zero
  else
    let error :=
      ErrorM.AddTo (Some []) "tls" "tls_init_failed"
        "Failed to initialize TLS stream." in
    (* [tls_stream] still owns the stream when the scope ends. *)
    SSLStream.destroy tls_stream.

(** [NetworkImpl::NetworkImpl]: fresh members, then the constructor body. *)
Definition fresh : NetworkImplState.t := mk false [] None.
Definition constructor : Prog unit := DisableAccessPoint.
End NetworkImpl.

(** ** The run loop *)

(** [base::IgnoreResult] *)
Definition IgnoreResult {A} (m : Prog A) : Prog unit := m ;; ret tt.

Definition run_task (task : Task) : Prog unit :=
  match task with
  | Stream_RunDelayedTask wp c =>
      when_valid (IsValid wp) (SSLStream.RunDelayedTask (ptr wp) c)
  | Stream_ReadAsync wp buffer size sc ec error =>
      when_valid (IsValid wp)
        (IgnoreResult (SSLStream.ReadAsync (ptr wp) buffer size sc ec error))
  | Stream_WriteAllAsync wp buffer size sc ec error =>
      when_valid (IsValid wp)
        (IgnoreResult (SSLStream.WriteAllAsync (ptr wp) buffer size sc ec error))
  | Net_NotifyNetworkChanged wp =>
      when_valid (IsValid wp) NetworkImpl.NotifyNetworkChanged
  | Net_TryToConnect wp ssid passphrase pid until on_success =>
      when_valid (IsValid wp) (NetworkImpl.TryToConnect ssid passphrase pid until on_success)
  | Run c => emit (EvRun c)
  end.

(** One turn of the loop: [None] when nothing is pending. *)
Definition step (w : World) : option (Outcome World unit) :=
  match TaskRunner.dispatch (lateness (env w) (queries w)) (runner w) with
  | None => None
  | Some (task, r) =>
      Some (run_task task (set_queries (S (queries w)) (set_runner r w)))
  end.

(** The loop, for at most [fuel] tasks; it stops early when the queue is
    empty or the process has aborted. *)
Fixpoint run (fuel : nat) (w : World) : Outcome World unit :=
  match fuel with
  | O => Ok tt w
  | S fuel' =>
      match step w with
      | None => Ok tt w
      | Some (Ok _ w') => run fuel' w'
      | Some o => o
      end
  end.

Definition idle (w : World) : Prop := TaskRunner.pending (runner w) = [].

(** ** src/streams.cc: MemoryStream and StreamCopier *)

Module Streams.

(** Closures.  [InputStream::ReadSuccessCallback] takes the number of
    bytes read, [SuccessCallback] takes nothing; a client's own callback is
    opaque and identified by a number. *)
Inductive ErrorCallback :=
| ClientError (cb : Callback).

Inductive ReadSuccessCallback :=
| ClientRead (cb : Callback)
| Bind_OnSuccessRead (wp : nat)              (* &StreamCopier::OnSuccessRead *)
    (success_callback : ReadSuccessCallback) (error_callback : ErrorCallback).

Inductive SuccessCallback :=
| ClientSuccess (cb : Callback)
| Bind_Copy (wp : nat)                       (* &StreamCopier::Copy *)
    (success_callback : ReadSuccessCallback) (error_callback : ErrorCallback).

Inductive Task :=
| RunRead (cb : ReadSuccessCallback) (size : Z)   (* base::Bind(success_callback, size_read) *)
| RunSuccess (cb : SuccessCallback).

Inductive Event :=
| EvRead (stream : nat) (bytes : list Byte.byte)    (* bytes a Read took from a stream *)
| EvWrite (stream : nat) (bytes : list Byte.byte)   (* bytes a Write added to a stream *)
| EvReadSuccess (cb : Callback) (size : Z)          (* the client's callback ran *)
| EvSuccess (cb : Callback).

Module MemoryStreamState.
Record t := mk { data_ : list Byte.byte; read_position_ : Z }.
End MemoryStreamState.

Module StreamCopierState.
Record t := mk {
  source_ : nat;                  (* InputStream*: index of the stream *)
  destination_ : nat;             (* OutputStream* *)
  buffer_ : list Byte.byte;
  size_done_ : Z;
  weak_ptr_factory_ : option nat;
}.
End StreamCopierState.

Record World := mkWorld {
  runner : TaskRunner.t Task;
  trace : list Event;
  flags : list bool;
  streams : list MemoryStreamState.t;
  copier : StreamCopierState.t;
}.

Abbreviation Prog := (M World).

Definition set_runner (r : TaskRunner.t Task) (w : World) : World :=
  mkWorld r (trace w) (flags w) (streams w) (copier w).
Definition set_trace (tr : list Event) (w : World) : World :=
  mkWorld (runner w) tr (flags w) (streams w) (copier w).
Definition set_flags (fl : list bool) (w : World) : World :=
  mkWorld (runner w) (trace w) fl (streams w) (copier w).
Definition set_streams (ss : list MemoryStreamState.t) (w : World) : World :=
  mkWorld (runner w) (trace w) (flags w) ss (copier w).
Definition set_copier (c : StreamCopierState.t) (w : World) : World :=
  mkWorld (runner w) (trace w) (flags w) (streams w) c.

Definition emit (e : Event) : Prog unit :=
  modify (fun w => set_trace (trace w ++ [e]) w).

Definition PostDelayedTask (task : Task) (delay : Z) : Prog unit :=
  modify (fun w => set_runner (TaskRunner.PostDelayedTask task delay (runner w)) w).

Definition IsValid (wp : nat) (w : World) : bool :=
  match flags w !! wp with
  | Some b => b
  | None => false
  end.

(** [data[pos, pos + n)] *)
Definition slice (data : list Byte.byte) (pos n : Z) : list Byte.byte :=
  take (Z.to_nat n) (drop (Z.to_nat pos) data).

(** [memcpy(buffer, src, n)] where [buffer] points [offset] bytes into the
    copier's scratch buffer, the only memory a stream is given here. *)
Definition memcpy (offset : Z) (src : list Byte.byte) : Prog unit :=
  modify (fun w =>
    let c := copier w in
    let o := Z.to_nat offset in
    set_copier
      (StreamCopierState.mk
         (StreamCopierState.source_ c) (StreamCopierState.destination_ c)
         (take o (StreamCopierState.buffer_ c) ++ src
            ++ drop (o + length src) (StreamCopierState.buffer_ c))
         (StreamCopierState.size_done_ c)
         (StreamCopierState.weak_ptr_factory_ c)) w).

Module MemoryStream.
Import MemoryStreamState.

Definition this_ (this : nat) : Prog MemoryStreamState.t :=
  fun w => match streams w !! this with
           | Some s => Ok s w
           | None => Crash w
           end.

Definition store (this : nat) (s : MemoryStreamState.t) : Prog unit :=
  modify (fun w => set_streams (<[this := s]> (streams w)) w).

Definition Read (this : nat) (buffer size_to_read : Z)
    (success_callback : ReadSuccessCallback) (error_callback : ErrorCallback)
  : Prog unit :=
  s <- this_ this ;;
  let size := Z.of_nat (length (data_ s)) in
  CHECK (read_position_ s <=? size) ;;
  let size_read := Z.min size_to_read (size_t (size - read_position_ s)) in
  let bytes := slice (data_ s) (read_position_ s) size_read in
  (if 0 <? size_read then memcpy buffer bytes else ret tt) ;;
  store this (mk (data_ s) (size_t (read_position_ s + size_read))) ;;
  emit (EvRead this bytes) ;;
  PostDelayedTask (RunRead success_callback size_read) TimeDelta.Zero.

Definition Write (this : nat) (buffer size_to_write : Z)
    (success_callback : SuccessCallback) (error_callback : ErrorCallback)
  : Prog unit :=
  s <- this_ this ;;
  mem <- get (fun w => StreamCopierState.buffer_ (copier w)) ;;
  let bytes := slice mem buffer size_to_write in
  store this (mk (data_ s ++ bytes) (read_position_ s)) ;;
  emit (EvWrite this bytes) ;;
  PostDelayedTask (RunSuccess success_callback) TimeDelta.Zero.

(** [MemoryStream::MemoryStream(data, task_runner)] *)
Definition constructor (data : list Byte.byte) : MemoryStreamState.t :=
  mk data 0.
End MemoryStream.

Module StreamCopier.
Import StreamCopierState.

(** [StreamCopier::StreamCopier]: [buffer_(4096)]. *)
Definition constructor (source destination : nat) : StreamCopierState.t :=
  mk source destination (replicate 4096 Byte.x00) 0 None.

Definition GetWeakPtr : Prog nat :=
  c <- get copier ;;
  match weak_ptr_factory_ c with
  | Some f => ret f
  | None =>
      fun w =>
        let f := length (flags w) in
        Ok f (set_copier
                (mk (source_ c) (destination_ c) (buffer_ c) (size_done_ c)
                    (Some f))
                (set_flags (flags w ++ [true]) w))
  end.

Definition Copy (success_callback : ReadSuccessCallback)
    (error_callback : ErrorCallback) : Prog unit :=
  c <- get copier ;;
  wp <- GetWeakPtr ;;
  MemoryStream.Read (source_ c)
    0 (size_t (Z.of_nat (length (buffer_ c))))
    (Bind_OnSuccessRead wp success_callback error_callback)
    error_callback.

(** [run_success_callback] is [success_callback.Run]. *)
Definition OnSuccessRead (run_success_callback : Z -> Prog unit)
    (success_callback : ReadSuccessCallback)
    (error_callback : ErrorCallback) (size : Z) : Prog unit :=
  modify (fun w =>
    let c := copier w in
    set_copier (mk (source_ c) (destination_ c) (buffer_ c)
                   (size_t (size_done_ c + size)) (weak_ptr_factory_ c)) w) ;;
  if negb (size =? 0) then
    c <- get copier ;;
    wp <- GetWeakPtr ;;
    MemoryStream.Write (destination_ c) 0 size
      (Bind_Copy wp success_callback error_callback)
      error_callback
  else
    done <- get (fun w => size_done_ (copier w)) ;;
    run_success_callback done.
End StreamCopier.

(** [callback.Run(size)] *)
Fixpoint Run_read (cb : ReadSuccessCallback) (size : Z) : Prog unit :=
  match cb with
  | ClientRead id => emit (EvReadSuccess id size)
  | Bind_OnSuccessRead wp success_callback error_callback =>
      when_valid (IsValid wp)
        (StreamCopier.OnSuccessRead (Run_read success_callback)
           success_callback error_callback size)
  end.

(** [callback.Run()] *)
Definition Run_success (cb : SuccessCallback) : Prog unit :=
  match cb with
  | ClientSuccess id => emit (EvSuccess id)
  | Bind_Copy wp success_callback error_callback =>
      when_valid (IsValid wp)
        (StreamCopier.Copy success_callback error_callback)
  end.

Definition run_task (task : Task) : Prog unit :=
  match task with
  | RunRead cb size => Run_read cb size
  | RunSuccess cb => Run_success cb
  end.

Definition step (w : World) : option (Outcome World unit) :=
  match TaskRunner.dispatch 0 (runner w) with
  | None => None
  | Some (task, r) => Some (run_task task (set_runner r w))
  end.

Fixpoint run (fuel : nat) (w : World) : Outcome World unit :=
  match fuel with
  | O => Ok tt w
  | S fuel' =>
      match step w with
      | None => Ok tt w
      | Some (Ok _ w') => run fuel' w'
      | Some o => o
      end
  end.

Definition idle (w : World) : Prop := TaskRunner.pending (runner w) = [].

(** The pieces a source is read in through a buffer of [B] bytes. *)
Fixpoint chunks_upto (n : nat) (B : nat) (data : list Byte.byte)
  : list (list Byte.byte) :=
  match n, data with
  | S n', _ :: _ => take B data :: chunks_upto n' B (drop B data)
  | _, _ => []
  end.
Definition chunks (B : nat) (data : list Byte.byte) : list (list Byte.byte) :=
  chunks_upto (length data) B data.
End Streams.

(** * The vocabulary of the properties *)

(** ** Tasks, events and what a program may do to them *)

(** The weak pointer a task of a stream is bound to. *)
Definition task_stream (t : Task) : option WeakPtr :=
  match t with
  | Stream_RunDelayedTask wp _
  | Stream_ReadAsync wp _ _ _ _ _
  | Stream_WriteAllAsync wp _ _ _ _ _ => Some wp
  | _ => None
  end.

(** A listener, if that is what the event is, was told [false]. *)
Definition listener_false (e : Event) : Prop :=
  match e with
  | EvListener _ online => online = false
  | _ => True
  end.

(** [grows I P Q m]: the program [m] keeps the invariant [I], adds to the
    trace only events that satisfy [P], and returns only values that satisfy
    [Q]. *)
Definition grows_at (I : World -> Prop) (P : Event -> Prop) {A}
    (Q : A -> Prop) (m : Prog A) (w : World) : Prop :=
  I w ->
  I (final (m w))
  /\ (exists evs, trace (final (m w)) = trace w ++ evs /\ Forall P evs)
  /\ (forall a w', m w = Ok a w' -> Q a).

Definition grows (I : World -> Prop) (P : Event -> Prop) {A}
    (Q : A -> Prop) (m : Prog A) : Prop :=
  forall w, grows_at I P Q m w.

Definition any {A} : A -> Prop := fun _ => True.

(** What an invariant and a set of events must allow for the manager's own
    code to respect them: the invariant looks at the queue, the flags and
    the streams only, survives a new flag, a new task that is not a
    stream's, and the removal of the head of the queue; the events include
    all those of the manager, as long as listeners are told [false]. *)
Record respected (I : World -> Prop) (P : Event -> Prop) : Prop := {
  inv_frame : forall w w',
    TaskRunner.pending (runner w') = TaskRunner.pending (runner w) ->
    flags w' = flags w -> streams w' = streams w -> I w -> I w';
  inv_new_flag : forall w, I w -> I (set_flags (flags w ++ [true]) w);
  inv_post : forall t d w,
    task_stream t = None -> I w ->
    I (set_runner (TaskRunner.PostDelayedTask t d (runner w)) w);
  inv_pop : forall w w' x,
    TaskRunner.pending (runner w) = x :: TaskRunner.pending (runner w') ->
    flags w' = flags w -> streams w' = streams w -> I w -> I w';
  inv_other : forall e, event_stream e = None -> listener_false e -> P e;
}.

(** What the tasks of streams must do on top of that: started as the head
    of the queue of a world in which the invariant holds, a stream's task
    respects it too. *)
Definition stream_tasks_respect (I : World -> Prop) (P : Event -> Prop) : Prop :=
  forall w w' due t wp,
    TaskRunner.pending (runner w) = (due, t) :: TaskRunner.pending (runner w') ->
    flags w' = flags w -> streams w' = streams w -> I w ->
    task_stream t = Some wp ->
    grows_at I P any (run_task t) w'.

(** ** Weak bindings *)

(** The flag of the weak pointer has been invalidated. *)
Definition dead (w : World) (wp : WeakPtr) : Prop :=
  flags w !! flag wp = Some false.

(** Every pending task of a stream outside [S] is bound to a flag that has
    been invalidated. *)
Definition quiet (S : nat -> Prop) (w : World) : Prop :=
  forall due t wp,
    In (due, t) (TaskRunner.pending (runner w)) ->
    task_stream t = Some wp -> S (ptr wp) \/ dead w wp.

(** [dead], decided. *)
Definition deadb (w : World) (wp : WeakPtr) : bool :=
  match flags w !! flag wp with
  | Some false => true
  | _ => false
  end.

(** The weak pointer is the one the factory of its stream hands out now. *)
Definition boundb (w : World) (wp : WeakPtr) : bool :=
  match streams w !! ptr wp with
  | Some (Some s) =>
      match SSLStreamState.weak_ptr_factory_ s with
      | Some f => Nat.eqb f (flag wp)
      | None => false
      end
  | _ => false
  end.

Definition task_ok (w : World) (t : Task) : bool :=
  match task_stream t with
  | Some wp => deadb w wp || boundb w wp
  | None => true
  end.

Definition factory_ok (w : World) (s : option SSLStreamState.t) : bool :=
  match s with
  | Some s =>
      match SSLStreamState.weak_ptr_factory_ s with
      | Some f => Nat.ltb f (length (flags w))
      | None => true
      end
  | None => true
  end.

(** Well-formedness of the weak bindings: the flag of every live factory
    exists, and every pending task of a stream holds either a flag that was
    invalidated or the flag its stream's factory hands out now. *)
Definition well_bound (w : World) : bool :=
  forallb (fun dt => task_ok w (snd dt)) (TaskRunner.pending (runner w))
  && forallb (factory_ok w) (streams w).

Definition bound (w : World) : Prop := well_bound w = true.

(** No restriction on events. *)
Definition anything (e : Event) : Prop := True.

(** The invariant while [Init] works on a stream: the bindings are well
    formed and the stream is there, with the factory it had. *)
Definition owns (this : nat) (fac : option nat) (w : World) : Prop :=
  bound w
  /\ exists s, streams w !! this = Some (Some s)
               /\ SSLStreamState.weak_ptr_factory_ s = fac.

(** ** The worlds the program can be in *)

(** What the client of the two classes can call. *)
Inductive Call :=
| CallReadAsync (this : nat) (buffer size_to_read : Z)
    (success_callback error_callback : Callback) (error : option ErrorPtr)
| CallWriteAllAsync (this : nat) (buffer size_to_write : Z)
    (success_callback error_callback : Callback) (error : option ErrorPtr)
| CallCancelPendingAsyncOperations (this : nat)
| CallDestroy (this : nat)
| CallAddOnConnectionChangedCallback (listener : Callback)
| CallConnectToService (ssid passphrase : string) (on_success : Closure)
    (error : option ErrorPtr)
| CallEnableAccessPoint (ssid : string)
| CallDisableAccessPoint
| CallOpenSslSocket (fuel : nat) (host : string) (port : Z)
    (success_callback error_callback : Callback).

Definition perform (c : Call) : Prog unit :=
  match c with
  | CallReadAsync this buffer size sc ec error =>
      IgnoreResult (SSLStream.ReadAsync this buffer size sc ec error)
  | CallWriteAllAsync this buffer size sc ec error =>
      IgnoreResult (SSLStream.WriteAllAsync this buffer size sc ec error)
  | CallCancelPendingAsyncOperations this =>
      SSLStream.CancelPendingAsyncOperations this
  | CallDestroy this => SSLStream.destroy this
  | CallAddOnConnectionChangedCallback listener =>
      NetworkImpl.AddOnConnectionChangedCallback listener
  | CallConnectToService ssid passphrase on_success error =>
      IgnoreResult (NetworkImpl.ConnectToService ssid passphrase on_success error)
  | CallEnableAccessPoint ssid => NetworkImpl.EnableAccessPoint ssid
  | CallDisableAccessPoint => NetworkImpl.DisableAccessPoint
  | CallOpenSslSocket fuel host port sc ec =>
      NetworkImpl.OpenSslSocket fuel host port sc ec
  end.

(** A freshly constructed manager, before the constructor's body, in an
    outside world [e]. *)
Definition boot (e : Env) : World :=
  mkWorld e (TaskRunner.mk 0 []) 0 [] [] NetworkImpl.fresh [].

(** The worlds the program can be in: calls of the client and turns of the
    run loop, in any order, from the start. *)
Inductive reachable : World -> Prop :=
| reachable_boot e : reachable (boot e)
| reachable_call w c : reachable w -> reachable (final (perform c w))
| reachable_turn w o : reachable w -> step w = Some o -> reachable (final o).

(** ** Worlds along the way *)

(** What [SSL_get_error] answers when the operation should be retried. *)
Definition would_block (err : Z) : Prop :=
  err = SSL_ERROR_WANT_READ \/ err = SSL_ERROR_WANT_WRITE.

(** The world after [n] more queries of the outside world and the events
    [evs]. *)
Definition asked (n : nat) (evs : list Event) (w : World) : World :=
  set_queries (n + queries w) (set_trace (trace w ++ evs) w).

(** A call into OpenSSL or a sleep. *)
Definition ssl_or_sleep (e : Event) : Prop :=
  match e with
  | EvSSL _ _ | EvSleep _ => True
  | _ => False
  end.

(** The world after [k] rounds of the connect loop that asked for a retry. *)
Definition retried (k : nat) (this : nat) (end_point : string) (w : World)
  : World :=
  set_runner
    (TaskRunner.mk
       (TaskRunner.clock (runner w) + TimeDelta.FromSeconds (Z.of_nat k))
       (TaskRunner.pending (runner w)))
    (asked (2 * k)
       (concat (repeat [EvSSL this (OpConnect end_point); EvSleep 1] k)) w).

(** The world in which [Init] enters its connect loop. *)
Definition prepared (this : nat) (s : SSLStreamState.t) (w : World) : World :=
  let ctx := SSL_CTX_new (env w) (queries w) in
  let ssl := SSL_new (env w) (S (queries w)) in
  let f := SSLStreamState.weak_ptr_factory_ s in
  set_streams
    (<[this := Some (SSLStreamState.mk ctx ssl f)]>
       (<[this := Some (SSLStreamState.mk ctx (SSLStreamState.ssl_ s) f)]>
          (streams w)))
    (set_queries (3 + queries w) w).

(** [end_point] as [Init] formats it. *)
Definition end_point_of (host : string) (port : Z) : string :=
  snprintf 255 (host ++ ":" ++ decimal (port mod 2 ^ 16))%string.

(** From [w] to [w'] nothing was posted and no stream changed; what was
    added to the trace is calls into OpenSSL and sleeps. *)
Definition untouched (w w' : World) : Prop :=
  TaskRunner.pending (runner w') = TaskRunner.pending (runner w)
  /\ streams w' = streams w
  /\ exists evs, trace w' = trace w ++ evs /\ Forall ssl_or_sleep evs.

(** The factory of the connectivity manager, if it has a flag out, has a
    valid one. *)
Definition net_bound (w : World) : bool :=
  match NetworkImplState.weak_ptr_factory_ (net w) with
  | Some f => IsValid (mkWeakPtr f 0) w
  | None => true
  end.

(** The outside world of an attempt that never matches: whenever the
    manager asks, the join command is started, an essid is reported, and it
    is not the one asked for. *)
Definition never_matches (e : Env) (ssid : string) : Prop :=
  forall n,
    fork e n <> 0 /\ 0 <= socket e n /\ 0 <= fst (ioctl e n)
    /\ snd (ioctl e n) <> ssid.

(** The start of an external command. *)
Definition is_fork (e : Event) : Prop :=
  match e with
  | EvFork _ _ => True
  | _ => False
  end.

(** From [w] to [w'] only the trace, the count of queries and the streams
    may have changed. *)
Definition frame (w w' : World) : Prop :=
  env w' = env w /\ runner w' = runner w /\ flags w' = flags w /\ net w' = net w.

(** The world in which the only pending task, due at [due], starts. *)
Definition dispatched (due : Z) (w : World) : World :=
  set_queries (S (queries w))
    (set_runner
       (TaskRunner.mk
          (Z.max (TaskRunner.clock (runner w)) due
           + Z.max 0 (lateness (env w) (queries w))) [])
       w).

(** ** Copies in progress *)

Module CopierSpec.
Import Streams.
Import StreamCopierState.

(** A copy in progress from [src] to [dst]: [done] has been copied, [rest]
    is still to be read, and nothing is pending. *)
Record copying (src dst : nat) (done rest : list Byte.byte) (w : World)
  : Prop := {
  c_idle : idle w;
  c_source : source_ (copier w) = src;
  c_destination : destination_ (copier w) = dst;
  c_distinct : src <> dst;
  c_src : streams w !! src
          = Some (MemoryStreamState.mk (done ++ rest) (Z.of_nat (length done)));
  c_dst : is_Some (streams w !! dst);
  c_buffer : (0 < length (buffer_ (copier w)))%nat
             /\ Z.of_nat (length (buffer_ (copier w))) < 2 ^ 64;
  c_size : Z.of_nat (length (done ++ rest)) < 2 ^ 64;
  c_done : 0 <= size_done_ (copier w)
           /\ size_done_ (copier w) + Z.of_nat (length rest) < 2 ^ 64;
  c_factory : match weak_ptr_factory_ (copier w) with
              | Some f => IsValid f w = true
              | None => True
              end;
}.

(** The fields of the copier other than its factory, and the rest of the
    world other than the flags. *)
Definition same_copy (w w' : World) : Prop :=
  runner w' = runner w /\ trace w' = trace w /\ streams w' = streams w
  /\ source_ (copier w') = source_ (copier w)
  /\ destination_ (copier w') = destination_ (copier w)
  /\ buffer_ (copier w') = buffer_ (copier w)
  /\ size_done_ (copier w') = size_done_ (copier w).

(** The world in which the only pending task, due at [due], starts. *)
Definition popped (due : Z) (w : World) : World :=
  set_runner
    (TaskRunner.mk (Z.max (TaskRunner.clock (runner w)) due + Z.max 0 0) []) w.
End CopierSpec.

(** ** Concrete worlds *)

Module Scenario.
(** An outside world in which reads and writes would block, every join
    command starts, and the radio reports [essid]. *)
Definition outside (connect retry handshake : nat -> Z) (essid : string)
  : Env :=
  {| SSL_read := fun _ => -1;
     SSL_write := fun _ => -1;
     SSL_get_error := fun _ => SSL_ERROR_WANT_READ;
     SSL_CTX_new := fun _ => 1;
     SSL_new := fun _ => 1;
     BIO_new_connect := fun _ => 1;
     BIO_do_connect := connect;
     BIO_should_retry := retry;
     SSL_do_handshake := handshake;
     fork := fun _ => 1234;
     waitpid := fun _ => 1234;
     socket := fun _ => 3;
     ioctl := fun _ => (0, essid);
     system := fun _ => 0;
     lateness := fun _ => 0 |}.

(** The server answers at once and the session is established. *)
Definition established : Env :=
  outside (fun _ => 1) (fun _ => 1) (fun _ => 1) "guest".
(** The first two connect steps (queries 3 and 5) ask to be retried. *)
Definition slow : Env :=
  outside (fun n => if (n <? 7)%nat then -1 else 1) (fun _ => 1) (fun _ => 1)
    "guest".
(** The connect step fails and may not be retried. *)
Definition refused : Env :=
  outside (fun _ => -1) (fun _ => 0) (fun _ => 1) "guest".
(** The handshake step would block ([-1], then [SSL_ERROR_WANT_READ]). *)
Definition handshaking : Env :=
  outside (fun _ => 1) (fun _ => 1) (fun _ => -1) "guest".
(** The handshake step fails with [0]. *)
Definition rejected : Env :=
  outside (fun _ => 1) (fun _ => 1) (fun _ => 0) "guest".

(** A freshly constructed manager with one stream constructed, *)
Definition with_stream (e : Env) : World := final (SSLStream.new (boot e)).

(** on which a read is waiting to be retried; *)
Definition reading : World :=
  final (SSLStream.ReadAsync 0 0 16 1%nat 2%nat None (with_stream established)).

(** a freshly constructed manager with two listeners registered, *)
Definition listening : World :=
  final (NetworkImpl.AddOnConnectionChangedCallback 6%nat
           (final (NetworkImpl.AddOnConnectionChangedCallback 5%nat
                     (boot established)))).

(** and one hosting the access point. *)
Definition hosting : World :=
  final (NetworkImpl.EnableAccessPoint "weave" (boot established)).

(** A source of 5000 bytes, an empty destination, and a copier from the
    one to the other. *)
Definition source : list Byte.byte := replicate 5000 Byte.x2a.
Definition copy_job : Streams.World :=
  Streams.mkWorld (TaskRunner.mk 0 []) [] []
    [Streams.MemoryStream.constructor source;
     Streams.MemoryStream.constructor []]
    (Streams.StreamCopier.constructor 0 1).
End Scenario.

(** ** The connectivity manager along the way *)

(** The flag the factory of the manager hands out in [w]: the one it has,
    or a new one. *)
Definition net_flag (w : World) : nat :=
  match NetworkImplState.weak_ptr_factory_ (net w) with
  | Some f => f
  | None => length (flags w)
  end.

Definition net_ptr (w : World) : WeakPtr := mkWeakPtr (net_flag w) 0.

(** The world once the factory has handed it out. *)
Definition with_net_flag (w : World) : World :=
  set_net
    (NetworkImplState.mk
       (NetworkImplState.hostapd_started_ (net w))
       (NetworkImplState.callbacks_ (net w))
       (Some (net_flag w)))
    (set_flags
       (match NetworkImplState.weak_ptr_factory_ (net w) with
        | Some _ => flags w
        | None => flags w ++ [true]
        end) w).

(** The world after [task] was posted through the manager's weak pointer. *)
Definition net_posted (task : WeakPtr -> Task) (delay : Z) (w : World) : World :=
  set_runner (TaskRunner.PostDelayedTask (task (net_ptr w)) delay (runner w))
    (with_net_flag w).

(** The join command. *)
Definition nmcli_connect (ssid passphrase : string) : Event :=
  EvFork "nmcli" ["dev"; "wifi"; "connect"; ssid; "password"; passphrase]%string.

(** The listeners of [w] being told, in the order of registration. *)
Definition told (w : World) : list Event :=
  map (fun cb => EvListener cb false) (NetworkImplState.callbacks_ (net w)).

(** *** The access point *)

Definition ifconfig : Event := EvSystem "ifconfig wlan0 192.168.76.1/24".

(** The number of attempts to configure the interface, among at most [n]
    that start with query [q], that fail before one succeeds. *)
Fixpoint ifconfig_failures (e : Env) (q n : nat) : nat :=
  match n with
  | O => O
  | S n' => if 0 =? system e q then O else S (ifconfig_failures e (S q) n')
  end.

(** What [j] failed attempts out of [n] leave in the trace, and the number
    of commands they are: each failure is followed by a sleep, and if
    attempts are left, the next one succeeds. *)
Definition ifconfig_events (j n : nat) : list Event :=
  concat (repeat [ifconfig; EvSleep 1] j)
  ++ (if (j <? n)%nat then [ifconfig] else []).
Definition ifconfig_commands (j n : nat) : nat :=
  if (j <? n)%nat then S j else j.

(** The commands that release the interface and start [hostapd], and those
    that start [dnsmasq]. *)
Definition hostapd_events (ssid : string) : list Event :=
  [EvSystem "nmcli nm wifi off"; EvSystem "rfkill unblock wlan"; EvSleep 1;
   EvFile "/tmp/weave_hostapd.conf"
     ["interface=wlan0"; "channel=1"; "ssid=" ++ ssid]%string;
   EvSystem "hostapd -B -K /tmp/weave_hostapd.conf"].
Definition dnsmasq_events : list Event :=
  [EvFile "/tmp/weave_dnsmasq.conf"
     ["port=0"; "bind-interfaces"; "log-dhcp";
      "dhcp-range=192.168.76.10,192.168.76.100"; "interface=wlan0";
      "dhcp-leasefile=/tmp/weave_dnsmasq.conf.leases"]%string;
   EvSystem "dnsmasq --conf-file=/tmp/weave_dnsmasq.conf"].
Definition teardown_events : list Event :=
  [EvSystem "pkill -f dnsmasq.*/tmp/weave";
   EvSystem "pkill -f hostapd.*/tmp/weave";
   EvSystem "nmcli nm wifi on"].

(** The world [seconds] later. *)
Definition later (seconds : Z) (w : World) : World :=
  set_runner (TaskRunner.sleep seconds (runner w)) w.

(** The world in which the manager has [hostapd_started_ = b]. *)
Definition started (b : bool) (w : World) : World :=
  set_net (NetworkImplState.mk b (NetworkImplState.callbacks_ (net w))
             (NetworkImplState.weak_ptr_factory_ (net w))) w.

(** The world after the listeners [ls] were registered, in this order. *)
Definition registered (ls : list Callback) (w : World) : World :=
  fold_left
    (fun w cb => final (NetworkImpl.AddOnConnectionChangedCallback cb w)) ls w.

(** The stream is alive and its factory, if it has a flag out, has a valid
    one. *)
Definition live (this : nat) (w : World) : bool :=
  match streams w !! this with
  | Some (Some s) =>
      match SSLStreamState.weak_ptr_factory_ s with
      | Some f => IsValid (mkWeakPtr f this) w
      | None => true
      end
  | _ => false
  end.

(** What [k] attempts to read that would block leave in the trace; the
    first of them asks the outside world its query [q]. *)
Fixpoint read_waits (e : Env) (this : nat) (buffer size : Z) (q k : nat)
  : list Event :=
  match k with
  | O => []
  | S k' =>
      EvSSL this (OpRead buffer (to_int size))
      :: EvSSL this (OpGetError (SSL_read e q))
      :: read_waits e this buffer size (3 + q) k'
  end.

(** [SSL_write] accepts [accepted] bytes, some each time, in successive
    attempts of which the first asks the outside world its query [q]. *)
Fixpoint accepts (e : Env) (q : nat) (accepted : list Z) : Prop :=
  match accepted with
  | [] => True
  | r :: rest => SSL_write e q = r /\ 0 < r /\ accepts e (2 + q) rest
  end.

(** The calls of [SSL_write] that go with it: each one starts where the one
    before stopped. *)
Fixpoint writes (this : nat) (buffer size : Z) (accepted : list Z)
  : list Event :=
  match accepted with
  | [] => []
  | r :: rest =>
      EvSSL this (OpWrite buffer (to_int size))
      :: writes this (buffer + r) (size - r) rest
  end.

Definition total (accepted : list Z) : Z := fold_right Z.add 0 accepted.

(** ** Scratch memory *)

Module MemorySpec.
Import Streams.
Import StreamCopierState.

(** The world after [memcpy(buffer_, src, n)] into the scratch buffer. *)
Definition copied_in (src : list Byte.byte) (w : World) : World :=
  set_copier
    (StreamCopierState.mk (source_ (copier w)) (destination_ (copier w))
       (src ++ drop (length src) (buffer_ (copier w)))
       (size_done_ (copier w)) (weak_ptr_factory_ (copier w))) w.
End MemorySpec.

(** ** More concrete worlds *)

Module Traffic.
(** An outside world in which the stream primitives answer as given. *)
Definition answering (reads writes errors : nat -> Z) : Env :=
  {| SSL_read := reads;
     SSL_write := writes;
     SSL_get_error := errors;
     SSL_CTX_new := fun _ => 1;
     SSL_new := fun _ => 1;
     BIO_new_connect := fun _ => 1;
     BIO_do_connect := fun _ => 1;
     BIO_should_retry := fun _ => 1;
     SSL_do_handshake := fun _ => 1;
     fork := fun _ => 1234;
     waitpid := fun _ => 1234;
     socket := fun _ => 3;
     ioctl := fun _ => (0, "guest"%string);
     system := fun _ => 0;
     lateness := fun _ => 0 |}.

(** The connection is broken: nothing is read or written, and the error is
    [SSL_ERROR_SSL] (1). *)
Definition broken : Env := answering (fun _ => -1) (fun _ => -1) (fun _ => 1).
(** Two reads would block (queries 0 and 3), the third (query 6) gets 7
    bytes. *)
Definition trickle : Env :=
  answering (fun n => if (n <? 6)%nat then -1 else 7) (fun _ => -1)
    (fun _ => SSL_ERROR_WANT_READ).
(** Writes are accepted 10 bytes at a time. *)
Definition narrow : Env :=
  answering (fun _ => -1) (fun _ => 10) (fun _ => SSL_ERROR_WANT_WRITE).
(** OpenSSL cannot allocate a context. *)
Definition exhausted : Env :=
  {| SSL_read := fun _ => -1;
     SSL_write := fun _ => -1;
     SSL_get_error := fun _ => 1;
     SSL_CTX_new := fun _ => 0;
     SSL_new := fun _ => 0;
     BIO_new_connect := fun _ => 0;
     BIO_do_connect := fun _ => -1;
     BIO_should_retry := fun _ => 0;
     SSL_do_handshake := fun _ => 0;
     fork := fun _ => 1234;
     waitpid := fun _ => 1234;
     socket := fun _ => 3;
     ioctl := fun _ => (0, "guest"%string);
     system := fun _ => 0;
     lateness := fun _ => 0 |}.
End Traffic.

(** * Properties *)

(** ** GetConnectionState and the listeners *)

(** C7: every call to [GetConnectionState] returns [kOffline] and leaves the
    world as it was: the forced return comes first, so no probe is run, no
    oracle is consulted, and none of the classifying branches is reached. *)
Theorem GetConnectionState_forced_offline (w : World) :
  NetworkImpl.GetConnectionState w = Ok kOffline w.
Proof.
  unfold NetworkImpl.GetConnectionState. cbn [body].
  unfold bind at 1, return_, ret. reflexivity.
Qed.

Lemma GetConnectionState_eq (w : World) :
  NetworkImpl.GetConnectionState w = Ok kOffline w.
Proof. reflexivity. Qed.

Lemma run_callbacks_trace (cbs : list Callback) (online : bool) (w : World) :
  NetworkImpl.run_callbacks cbs online w
  = Ok tt (set_trace (trace w ++ map (fun cb => EvListener cb online) cbs) w).
Proof.
  revert w. induction cbs as [|cb cbs IH]; intros w.
  - destruct w; cbn. unfold ret, set_trace; cbn. now rewrite app_nil_r.
  - cbn [NetworkImpl.run_callbacks map]. unfold bind at 1. cbn [emit modify].
    rewrite IH. f_equal. unfold set_trace; cbn. now rewrite <- app_assoc.
Qed.

Lemma NotifyNetworkChanged_spec (w : World) :
  NetworkImpl.NotifyNetworkChanged w
  = Ok tt (set_trace
             (trace w ++ map (fun cb => EvListener cb false)
                             (NetworkImplState.callbacks_ (net w))) w).
Proof.
  unfold NetworkImpl.NotifyNetworkChanged, bind.
  rewrite GetConnectionState_eq. cbn [get NetworkState_eqb].
  apply run_callbacks_trace.
Qed.

(** ** What a running program may add to the trace *)

Lemma In_enqueue {T} (x : Z * T) due (t : T) q :
  In x (TaskRunner.enqueue due t q) <-> x = (due, t) \/ In x q.
Proof.
  induction q as [|[d y] q IH]; cbn.
  - intuition.
  - destruct (d <=? due); cbn; rewrite ?IH; intuition.
Qed.

Section Invariant.
Variable I : World -> Prop.
Variable P : Event -> Prop.
Hypothesis HI : respected I P.

Lemma grows_weaken_any {A} (Q : A -> Prop) (m : Prog A) :
  grows I P Q m -> grows I P any m.
Proof.
  intros H w Hq. destruct (H w Hq) as (? & ? & ?). repeat split; auto.
Qed.

Lemma grows_ret {A} (Q : A -> Prop) (a : A) : Q a -> grows I P Q (ret a).
Proof.
  intros HQ w Hq. cbn. repeat split; auto.
  - exists []. now rewrite app_nil_r.
  - intros ? ? [= <- _]. exact HQ.
Qed.

Lemma grows_bind {A B} (Q : A -> Prop) (Q' : B -> Prop)
    (m : Prog A) (k : A -> Prog B) :
  grows I P Q m -> (forall a, Q a -> grows I P Q' (k a)) ->
  grows I P Q' (bind m k).
Proof.
  intros Hm Hk w Hq. destruct (Hm w Hq) as (Hq1 & (evs & Ht & Hp) & HQ).
  unfold bind. destruct (m w) as [a w1|w1|w1|w1] eqn:E; cbn in *.
  - destruct (Hk a (HQ _ _ eq_refl) w1 Hq1) as (Hq2 & (evs' & Ht' & Hp') & HQ').
    repeat split; auto.
    exists (evs ++ evs'). rewrite Ht', Ht, app_assoc. split; auto.
    apply Forall_app; auto.
  - repeat split; eauto. discriminate.
  - repeat split; eauto. discriminate.
  - repeat split; eauto. discriminate.
Qed.

(** A program that touches neither the queue, the flags, the streams nor
    the trace. *)
Lemma grows_frame {A} (m : Prog A) :
  (forall w, TaskRunner.pending (runner (final (m w))) = TaskRunner.pending (runner w)
             /\ flags (final (m w)) = flags w
             /\ streams (final (m w)) = streams w
             /\ trace (final (m w)) = trace w) ->
  grows I P any m.
Proof.
  intros H w Hq. destruct (H w) as (Hp & Hf & Hs & Ht). repeat split.
  - now apply (inv_frame I P HI w).
  - exists []. now rewrite app_nil_r.
Qed.

Lemma grows_get {A} (f : World -> A) : grows I P any (get f).
Proof. apply grows_frame. intros w; cbn; auto. Qed.

Lemma grows_abort {A} (Q : A -> Prop) : grows I P Q (@abort World A).
Proof.
  intros w Hq. cbn. repeat split; auto; try discriminate.
  exists []. now rewrite app_nil_r.
Qed.

Lemma grows_diverge {A} (Q : A -> Prop) : grows I P Q (@diverge World A).
Proof.
  intros w Hq. cbn. repeat split; auto; try discriminate.
  exists []. now rewrite app_nil_r.
Qed.

Lemma grows_fall_off {A} (Q : A -> Prop) : grows I P Q (@fall_off World A).
Proof.
  intros w Hq. cbn. repeat split; auto; try discriminate.
  exists []. now rewrite app_nil_r.
Qed.

Lemma grows_CHECK (c : bool) : grows I P any (CHECK c).
Proof. destruct c; [now apply grows_ret | apply grows_abort]. Qed.

Lemma grows_extern {A} (oracle : Env -> nat -> A) : grows I P any (extern oracle).
Proof. apply grows_frame. intros w; cbn; auto. Qed.

Lemma grows_emit (e : Event) : P e -> grows I P any (emit e).
Proof.
  intros HP w Hq. cbn. repeat split; auto.
  - now apply (inv_frame I P HI w).
  - exists [e]. split; auto.
Qed.

Lemma grows_sleep (n : Z) : grows I P any (sleep n).
Proof.
  eapply grows_bind;
    [apply grows_emit; now apply (inv_other I P HI)|intros _ _].
  apply grows_frame. intros w; cbn; auto.
Qed.

Lemma grows_std_system (cmd : string) : grows I P any (std_system cmd).
Proof.
  eapply grows_bind;
    [apply grows_emit; now apply (inv_other I P HI)|intros _ _].
  apply grows_extern.
Qed.

Lemma grows_new_flag : grows I P any new_flag.
Proof.
  intros w Hq. cbn. repeat split; auto.
  - now apply (inv_new_flag I P HI).
  - exists []. now rewrite app_nil_r.
Qed.

Lemma grows_post (t : Task) (delay : Z) :
  task_stream t = None -> grows I P any (PostDelayedTask t delay).
Proof.
  intros Ht w Hq. cbn. repeat split; auto.
  - now apply (inv_post I P HI).
  - exists []. now rewrite app_nil_r.
Qed.

Lemma grows_IgnoreResult {A} (m : Prog A) :
  grows I P any m -> grows I P any (IgnoreResult m).
Proof.
  intros H. eapply grows_bind; [exact H|intros _ _; now apply grows_ret].
Qed.

Lemma grows_net_GetWeakPtr : grows I P any NetworkImpl.GetWeakPtr.
Proof.
  unfold NetworkImpl.GetWeakPtr.
  eapply grows_bind; [apply grows_get|intros n _].
  destruct (NetworkImplState.weak_ptr_factory_ n) as [f|].
  - now apply grows_ret.
  - eapply grows_bind; [apply grows_new_flag|intros f _].
    eapply grows_bind; [|intros _ _; now apply grows_ret].
    apply grows_frame. intros w; cbn; auto.
Qed.

Lemma grows_post_NotifyNetworkChanged :
  grows I P any NetworkImpl.post_NotifyNetworkChanged.
Proof.
  eapply grows_bind; [apply grows_net_GetWeakPtr|intros wp _].
  now apply grows_post.
Qed.

Lemma grows_NotifyNetworkChanged : grows I P any NetworkImpl.NotifyNetworkChanged.
Proof.
  intros w Hq. rewrite NotifyNetworkChanged_spec. cbn. repeat split; auto.
  - now apply (inv_frame I P HI w).
  - eexists; split; [reflexivity|].
    apply List.Forall_forall. intros e [cb [<- _]]%in_map_iff.
    now apply (inv_other I P HI).
Qed.

Lemma grows_ForkCmd path args : grows I P any (ForkCmd path args).
Proof.
  eapply grows_bind;
    [apply grows_emit; now apply (inv_other I P HI)|intros _ _].
  eapply grows_bind; [apply grows_extern|intros pid _].
  destruct (negb _); [now apply grows_ret|apply grows_abort].
Qed.

Lemma grows_poll_join ssid pid on_success :
  grows I P any (NetworkImpl.poll_join ssid pid on_success).
Proof.
  unfold NetworkImpl.poll_join.
  destruct (negb _); [|now apply grows_ret].
  eapply grows_bind; [apply grows_extern|intros r _].
  destruct (pid =? r); [|now apply grows_ret].
  eapply grows_bind; [apply grows_extern|intros fd _].
  eapply grows_bind; [apply grows_CHECK|intros _ _].
  eapply grows_bind; [apply grows_extern|intros wreq _].
  eapply grows_bind; [apply grows_CHECK|intros _ _].
  cbv zeta. destruct (String.eqb _ _); [|now apply grows_ret].
  eapply grows_bind; [apply grows_post_NotifyNetworkChanged|intros _ _].
  eapply grows_bind; [now apply grows_post|intros _ _].
  now apply grows_ret.
Qed.

Lemma grows_TryToConnect ssid passphrase pid until on_success :
  grows I P any (NetworkImpl.TryToConnect ssid passphrase pid until on_success).
Proof.
  unfold NetworkImpl.TryToConnect.
  eapply grows_bind; [apply grows_poll_join|intros [pid'|] _];
    [|now apply grows_ret].
  eapply grows_bind with (Q := any).
  { unfold NetworkImpl.join.
    destruct (pid' =? 0); [apply grows_ForkCmd|now apply grows_ret]. }
  intros pid'' _. unfold NetworkImpl.expire_or_retry.
  eapply grows_bind; [apply grows_get|intros now _].
  destruct (until <=? now); [apply grows_post_NotifyNetworkChanged|].
  eapply grows_bind; [apply grows_net_GetWeakPtr|intros wp _].
  now apply grows_post.
Qed.

Lemma grows_ConnectToService ssid passphrase on_success error :
  grows I P any (NetworkImpl.ConnectToService ssid passphrase on_success error).
Proof.
  unfold NetworkImpl.ConnectToService.
  eapply grows_bind; [apply grows_get|intros started _].
  eapply grows_bind; [apply grows_CHECK|intros _ _].
  destruct started; [now apply grows_ret|].
  eapply grows_bind; [apply grows_get|intros now _].
  eapply grows_bind; [apply grows_TryToConnect|intros _ _].
  apply grows_fall_off.
Qed.

Lemma grows_configure_interface n :
  grows I P any (NetworkImpl.configure_interface n).
Proof.
  induction n as [|n IH]; cbn [NetworkImpl.configure_interface];
    [now apply grows_ret|].
  eapply grows_bind; [apply grows_std_system|intros r _].
  destruct (0 =? r); [now apply grows_ret|].
  eapply grows_bind; [apply grows_sleep|intros _ _]. exact IH.
Qed.

Lemma grows_set_hostapd_started_ b :
  grows I P any (NetworkImpl.set_hostapd_started_ b).
Proof. apply grows_frame. intros w; cbn; auto. Qed.

Lemma grows_write_file path lines :
  grows I P any (NetworkImpl.write_file path lines).
Proof. apply grows_emit. now apply (inv_other I P HI). Qed.

Lemma grows_EnableAccessPoint ssid :
  grows I P any (NetworkImpl.EnableAccessPoint ssid).
Proof.
  unfold NetworkImpl.EnableAccessPoint.
  eapply grows_bind; [apply grows_get|intros started _].
  destruct started; [now apply grows_ret|].
  eapply grows_bind; [apply grows_std_system|intros r1 _].
  eapply grows_bind; [apply grows_CHECK|intros _ _].
  eapply grows_bind; [apply grows_std_system|intros r2 _].
  eapply grows_bind; [apply grows_CHECK|intros _ _].
  eapply grows_bind; [apply grows_sleep|intros _ _].
  cbv zeta.
  eapply grows_bind; [apply grows_write_file|intros _ _].
  eapply grows_bind; [apply grows_std_system|intros r3 _].
  eapply grows_bind; [apply grows_CHECK|intros _ _].
  eapply grows_bind; [apply grows_set_hostapd_started_|intros _ _].
  eapply grows_bind; [apply grows_configure_interface|intros _ _].
  eapply grows_bind; [apply grows_write_file|intros _ _].
  eapply grows_bind; [apply grows_std_system|intros r4 _].
  eapply grows_bind; [apply grows_CHECK|intros _ _].
  apply grows_post_NotifyNetworkChanged.
Qed.

Lemma grows_DisableAccessPoint : grows I P any NetworkImpl.DisableAccessPoint.
Proof.
  unfold NetworkImpl.DisableAccessPoint.
  eapply grows_bind; [apply grows_std_system|intros _ _].
  eapply grows_bind; [apply grows_std_system|intros _ _].
  eapply grows_bind; [apply grows_std_system|intros r _].
  eapply grows_bind; [apply grows_CHECK|intros _ _].
  eapply grows_bind; [apply grows_set_hostapd_started_|intros _ _].
  apply grows_post_NotifyNetworkChanged.
Qed.

Lemma grows_when_valid_net wp (m : Prog unit) :
  grows I P any m -> grows I P any (when_valid (IsValid wp) m).
Proof.
  intros Hm. unfold when_valid.
  eapply grows_bind; [apply grows_get|intros [] _]; [exact Hm|now apply grows_ret].
Qed.

Hypothesis HS : stream_tasks_respect I P.

(** One turn of the loop, and any number of turns, keep the invariant and
    add allowed events only. *)
Lemma step_grows (w : World) (o : Outcome World unit) :
  I w -> step w = Some o ->
  I (final o)
  /\ exists evs, trace (final o) = trace w ++ evs /\ Forall P evs.
Proof.
  intros Hq. unfold step, TaskRunner.dispatch.
  destruct (TaskRunner.pending (runner w)) as [|[due t] q] eqn:Hp; [discriminate|].
  intros [= <-].
  set (w1 := set_queries _ _).
  assert (Hq1 : I w1) by (apply (inv_pop I P HI w w1 (due, t)); auto).
  destruct (task_stream t) as [wp|] eqn:Ht.
  - destruct (HS w w1 due t wp) as (? & ? & _); auto.
  - assert (Hg : grows_at I P any (run_task t) w1).
    { destruct t; try discriminate; cbn [run_task].
      + apply grows_when_valid_net, grows_NotifyNetworkChanged.
      + apply grows_when_valid_net, grows_TryToConnect.
      + apply grows_emit. now apply (inv_other I P HI). }
    destruct (Hg Hq1) as (? & ? & _). auto.
Qed.

Lemma run_grows (fuel : nat) (w : World) :
  I w ->
  I (final (run fuel w))
  /\ exists evs, trace (final (run fuel w)) = trace w ++ evs /\ Forall P evs.
Proof.
  revert w. induction fuel as [|fuel IH]; intros w Hq; cbn [run].
  - cbn. split; auto. exists []. now rewrite app_nil_r.
  - destruct (step w) as [o|] eqn:Hs.
    + destruct (step_grows w o Hq Hs) as (Hq1 & evs & Ht & Hp).
      destruct o as [[] w1|w1|w1|w1]; cbn in *; eauto.
      destruct (IH w1 Hq1) as (Hq2 & evs' & Ht' & Hp').
      split; auto. exists (evs ++ evs'). rewrite Ht', Ht, app_assoc.
      split; auto. apply Forall_app; auto.
    + cbn. split; auto. exists []. now rewrite app_nil_r.
Qed.
End Invariant.

(** *** Streams that have been silenced *)

Lemma quiet_ext S (w w' : World) :
  (forall x, In x (TaskRunner.pending (runner w')) ->
             In x (TaskRunner.pending (runner w))) ->
  flags w' = flags w ->
  quiet S w -> quiet S w'.
Proof.
  intros Hp Hf Hq due t wp Hin Hs.
  destruct (Hq due t wp (Hp _ Hin) Hs) as [?|Hd]; [now left|right].
  unfold dead in *. now rewrite Hf.
Qed.

Section Quiet.
(** [S]: the streams that are allowed to act; [P]: the events allowed. *)
Variable S : nat -> Prop.
Variable P : Event -> Prop.
Hypothesis P_stream : forall e s, event_stream e = Some s -> S s -> P e.
Hypothesis P_other : forall e, event_stream e = None -> listener_false e -> P e.

Lemma quiet_respected : respected (quiet S) P.
Proof.
  constructor.
  - intros w w' Hp Hf _. apply quiet_ext; auto. now rewrite Hp.
  - intros w Hq due t wp Hin Hs.
    destruct (Hq due t wp Hin Hs) as [?|Hd]; [now left|right].
    unfold dead in *; cbn. now apply lookup_app_l_Some.
  - intros t d w Ht Hq due t' wp Hin Hs. cbn in Hin. apply In_enqueue in Hin.
    destruct Hin as [[= -> ->]|Hin]; [congruence|].
    exact (Hq due t' wp Hin Hs).
  - intros w w' x Hp Hf _. apply quiet_ext; auto.
    intros y Hy. rewrite Hp. now right.
  - exact P_other.
Qed.

Lemma grows_store this s : grows (quiet S) P any (SSLStream.store this s).
Proof.
  intros w Hq. cbn. repeat split; auto.
  exists []. now rewrite app_nil_r.
Qed.

Lemma grows_stream_GetWeakPtr (this : nat) :
  grows (quiet S) P (fun wp => ptr wp = this) (SSLStream.GetWeakPtr this).
Proof.
  unfold SSLStream.GetWeakPtr.
  eapply grows_bind with (Q := any).
  { apply (grows_frame _ _ quiet_respected). intros w. unfold SSLStream.this_.
    destruct (streams w !! this) as [[s|]|]; cbn; auto. }
  intros s _. destruct (SSLStreamState.weak_ptr_factory_ s) as [f|].
  - now apply grows_ret.
  - eapply grows_bind; [apply (grows_new_flag _ _ quiet_respected)|intros f _].
    eapply grows_bind; [apply grows_store|intros _ _; now apply grows_ret].
Qed.

(** Posting a task of stream [this] bound to a weak pointer to it. *)
Lemma grows_stream_post {A} (this : nat) (mk_task : WeakPtr -> Task)
    (delay : Z) (a : A) :
  S this ->
  (forall wp, task_stream (mk_task wp) = Some wp) ->
  grows (quiet S) P any
    (wp <- SSLStream.GetWeakPtr this ;;
     PostDelayedTask (mk_task wp) delay ;; ret a).
Proof.
  intros HS Hmk.
  eapply grows_bind; [apply grows_stream_GetWeakPtr|intros wp Hwp].
  eapply grows_bind with (Q := any); [|intros _ _; now apply grows_ret].
  intros w Hq. cbn. split; [|split].
  - intros due t' wp' Hin Hs. cbn in Hin. apply In_enqueue in Hin.
    destruct Hin as [[= -> ->]|Hin]; [|exact (Hq due t' wp' Hin Hs)].
    rewrite Hmk in Hs. injection Hs as <-. left. now rewrite Hwp.
  - exists []. now rewrite app_nil_r.
  - intros. exact Logic.I.
Qed.

Lemma grows_ReadAsync this buffer size sc ec error :
  S this ->
  grows (quiet S) P any (SSLStream.ReadAsync this buffer size sc ec error).
Proof.
  intros HS. unfold SSLStream.ReadAsync.
  eapply grows_bind;
    [apply (grows_emit _ _ quiet_respected), (P_stream _ this); auto|intros _ _].
  eapply grows_bind; [apply (grows_extern _ _ quiet_respected)|intros res _].
  destruct (0 <? res).
  { now apply (grows_stream_post this (fun wp => Stream_RunDelayedTask wp _)). }
  eapply grows_bind;
    [apply (grows_emit _ _ quiet_respected), (P_stream _ this); auto|intros _ _].
  eapply grows_bind; [apply (grows_extern _ _ quiet_respected)|intros err _].
  destruct (_ || _).
  - now apply (grows_stream_post this
                 (fun wp => Stream_ReadAsync wp _ _ _ _ _)).
  - now apply (grows_stream_post this (fun wp => Stream_RunDelayedTask wp _)).
Qed.

Lemma grows_WriteAllAsync this buffer size sc ec error :
  S this ->
  grows (quiet S) P any (SSLStream.WriteAllAsync this buffer size sc ec error).
Proof.
  intros HS. unfold SSLStream.WriteAllAsync.
  eapply grows_bind;
    [apply (grows_emit _ _ quiet_respected), (P_stream _ this); auto|intros _ _].
  eapply grows_bind; [apply (grows_extern _ _ quiet_respected)|intros res _].
  destruct (0 <? res).
  { cbv zeta. destruct (_ =? 0).
    - now apply (grows_stream_post this (fun wp => Stream_RunDelayedTask wp _)).
    - now apply (grows_stream_post this
                   (fun wp => Stream_WriteAllAsync wp _ _ _ _ _)). }
  eapply grows_bind;
    [apply (grows_emit _ _ quiet_respected), (P_stream _ this); auto|intros _ _].
  eapply grows_bind; [apply (grows_extern _ _ quiet_respected)|intros err _].
  destruct (_ || _).
  - now apply (grows_stream_post this
                 (fun wp => Stream_WriteAllAsync wp _ _ _ _ _)).
  - now apply (grows_stream_post this (fun wp => Stream_RunDelayedTask wp _)).
Qed.

Lemma grows_when_valid wp (m : Prog unit) (w : World) :
  (S (ptr wp) -> grows (quiet S) P any m) ->
  S (ptr wp) \/ dead w wp ->
  grows_at (quiet S) P any (when_valid (IsValid wp) m) w.
Proof.
  intros Hm [HS|Hd] Hq.
  - unfold when_valid, bind, get. destruct (IsValid wp w).
    + now apply Hm.
    + cbn. repeat split; auto. exists []. now rewrite app_nil_r.
  - unfold when_valid, bind, get, IsValid. unfold dead in Hd. rewrite Hd.
    cbn. repeat split; auto. exists []. now rewrite app_nil_r.
Qed.

Lemma quiet_stream_tasks : stream_tasks_respect (quiet S) P.
Proof.
  intros w w' due t wp Hp Hf _ Hq Ht.
  assert (Hwp : S (ptr wp) \/ dead w' wp).
  { destruct (Hq due t wp) as [?|Hd]; auto.
    - rewrite Hp. now left.
    - right. unfold dead in *. now rewrite Hf. }
  destruct t; try discriminate; cbn in Ht; injection Ht as ->; cbn [run_task].
  - apply grows_when_valid; [|exact Hwp]. intros HS.
    apply (grows_emit _ _ quiet_respected), (P_stream _ (ptr wp)); auto.
  - apply grows_when_valid; [|exact Hwp]. intros HS.
    now apply grows_IgnoreResult, grows_ReadAsync.
  - apply grows_when_valid; [|exact Hwp]. intros HS.
    now apply grows_IgnoreResult, grows_WriteAllAsync.
Qed.

(** Whatever the loop runs, a quiet world stays quiet and the trace grows
    by allowed events only. *)
Lemma run_quiet (fuel : nat) (w : World) :
  quiet S w ->
  quiet S (final (run fuel w))
  /\ exists evs, trace (final (run fuel w)) = trace w ++ evs /\ Forall P evs.
Proof. apply run_grows; [exact quiet_respected|exact quiet_stream_tasks]. Qed.
End Quiet.

(** C9: every notification of the connectivity listeners delivers [false].
    [NotifyNetworkChanged] tells each registered listener, in order,
    [GetConnectionState() == kConnected], which is [false] since the state is
    always [kOffline]; and whatever the run loop executes, from any world and
    for any behaviour of the outside world (so also after a connect attempt
    that succeeded), every listener event it adds to the trace carries
    [false]. *)
Theorem listeners_always_told_unreachable :
  (forall w : World,
      NetworkImpl.NotifyNetworkChanged w
      = Ok tt (set_trace
                 (trace w ++ map (fun cb => EvListener cb false)
                                 (NetworkImplState.callbacks_ (net w))) w))
  /\ (forall (fuel : nat) (w : World),
         exists evs,
           trace (final (run fuel w)) = trace w ++ evs
           /\ forall cb online, In (EvListener cb online) evs -> online = false).
Proof.
  split; [exact NotifyNetworkChanged_spec|].
  intros fuel w.
  destruct (run_quiet (fun _ => True) listener_false) with (fuel := fuel) (w := w)
    as (_ & evs & Ht & Hp).
  - intros [] s; cbn; auto; discriminate.
  - auto.
  - intros due t wp _ _. now left.
  - exists evs. split; auto. intros cb online Hin.
    rewrite List.Forall_forall in Hp. exact (Hp _ Hin).
Qed.

(** ** Cancellation *)

Lemma well_bound_task (w : World) due t wp :
  well_bound w = true ->
  In (due, t) (TaskRunner.pending (runner w)) ->
  task_stream t = Some wp ->
  deadb w wp || boundb w wp = true.
Proof.
  intros [Hw _]%andb_prop Hin Hs.
  rewrite List.forallb_forall in Hw. specialize (Hw _ Hin).
  cbn in Hw. unfold task_ok in Hw. now rewrite Hs in Hw.
Qed.

Lemma well_bound_factory (w : World) sid s f :
  well_bound w = true ->
  streams w !! sid = Some (Some s) ->
  SSLStreamState.weak_ptr_factory_ s = Some f ->
  (f < length (flags w))%nat.
Proof.
  intros [_ Hw]%andb_prop Hl Hf.
  rewrite List.forallb_forall in Hw.
  apply list_elem_of_lookup_2, list_elem_of_In in Hl.
  specialize (Hw _ Hl). cbn in Hw. rewrite Hf in Hw.
  now apply Nat.ltb_lt.
Qed.

Lemma deadb_dead (w : World) wp : deadb w wp = true -> dead w wp.
Proof.
  unfold deadb, dead. destruct (flags w !! flag wp) as [[]|]; easy.
Qed.

Lemma InvalidateWeakPtrs_quiet (w : World) (sid : nat) :
  well_bound w = true ->
  quiet (fun s => s <> sid) (final (SSLStream.InvalidateWeakPtrs sid w))
  /\ trace (final (SSLStream.InvalidateWeakPtrs sid w)) = trace w
  /\ well_bound (final (SSLStream.InvalidateWeakPtrs sid w)) = true.
Proof.
  intros Hw. unfold SSLStream.InvalidateWeakPtrs, SSLStream.this_, bind.
  assert (Hnone : (forall s, streams w !! sid = Some (Some s) ->
                             SSLStreamState.weak_ptr_factory_ s = None) ->
                  quiet (fun s => s <> sid) w).
  { intros Hn due t wp Hin Hs.
    destruct (Nat.eq_dec (ptr wp) sid) as [Heq|]; [right|now left].
    pose proof (well_bound_task _ _ _ _ Hw Hin Hs) as Hok.
    apply orb_prop in Hok as [Hd|Hb]; [now apply deadb_dead|].
    unfold boundb in Hb. rewrite Heq in Hb.
    destruct (streams w !! sid) as [[s|]|] eqn:E; try discriminate.
    now rewrite (Hn s eq_refl) in Hb. }
  destruct (streams w !! sid) as [[s|]|] eqn:E; cbn;
    try (split; [apply Hnone; intros; discriminate|auto]).
  destruct (SSLStreamState.weak_ptr_factory_ s) as [f|] eqn:Hf; cbn;
    [|split; [apply Hnone; now intros ? [= <-]|auto]].
  pose proof (well_bound_factory _ _ _ _ Hw E Hf) as Hlt.
  assert (Hdead : forall wp, deadb w wp = true \/ flag wp = f ->
                    <[f:=false]> (flags w) !! flag wp = Some false).
  { intros wp [Hd|Hd].
    - apply deadb_dead in Hd. unfold dead in Hd.
      destruct (Nat.eq_dec f (flag wp)) as [<-|Hne].
      + now apply list_lookup_insert_eq.
      + now rewrite list_lookup_insert_ne.
    - subst f. now apply list_lookup_insert_eq. }
  split; [|split; [reflexivity|]].
  - intros due t wp Hin Hs. cbn in Hin.
    destruct (Nat.eq_dec (ptr wp) sid) as [Heq|]; [right|now left].
    pose proof (well_bound_task _ _ _ _ Hw Hin Hs) as Hok.
    unfold dead; cbn. apply Hdead.
    apply orb_prop in Hok as [Hd|Hb]; [now left|right].
    unfold boundb in Hb. rewrite Heq, E, Hf in Hb.
    symmetry. now apply Nat.eqb_eq.
  - unfold well_bound; cbn. apply andb_true_intro. split.
    + apply List.forallb_forall. intros [due t] Hin. cbn.
      unfold task_ok. destruct (task_stream t) as [wp|] eqn:Hs; [|reflexivity].
      pose proof (well_bound_task _ _ _ _ Hw Hin Hs) as Hok.
      apply orb_prop in Hok as [Hd|Hb].
      * unfold deadb at 1; cbn. rewrite Hdead; auto.
      * destruct (Nat.eq_dec (ptr wp) sid) as [Heq|Hne].
        -- unfold boundb in Hb. rewrite Heq, E, Hf in Hb.
           apply Nat.eqb_eq in Hb.
           unfold deadb at 1; cbn. rewrite Hdead; auto.
        -- apply orb_true_intro. right. unfold boundb in *; cbn.
           rewrite list_lookup_insert_ne; auto.
    + apply List.forallb_forall. intros o Hin.
      apply list_elem_of_In, list_elem_of_lookup_1 in Hin as [i Hi].
      destruct (Nat.eq_dec i sid) as [->|Hne].
      * rewrite list_lookup_insert_eq in Hi by (eapply lookup_lt_Some; eauto).
        injection Hi as <-. reflexivity.
      * rewrite list_lookup_insert_ne in Hi by auto.
        destruct o as [s'|]; [|reflexivity]. cbn.
        destruct (SSLStreamState.weak_ptr_factory_ s') as [f'|] eqn:Hf'; auto.
        rewrite length_insert. apply Nat.ltb_lt.
        eapply well_bound_factory; eauto.
Qed.

Lemma destroy_quiet (w : World) (sid : nat) :
  well_bound w = true ->
  quiet (fun s => s <> sid) (final (SSLStream.destroy sid w))
  /\ trace (final (SSLStream.destroy sid w)) = trace w.
Proof.
  intros Hw. unfold SSLStream.destroy, SSLStream.CancelPendingAsyncOperations.
  destruct (InvalidateWeakPtrs_quiet w sid Hw) as (Hq1 & Ht1 & Hw1).
  unfold bind.
  destruct (SSLStream.InvalidateWeakPtrs sid w) as [[] w1|w1|w1|w1]; cbn in *; auto.
  destruct (InvalidateWeakPtrs_quiet w1 sid Hw1) as (Hq2 & Ht2 & _).
  destruct (SSLStream.InvalidateWeakPtrs sid w1) as [[] w2|w2|w2|w2]; cbn in *;
    (split; [assumption|congruence]).
Qed.

Lemma InvalidateWeakPtrs_twice (w : World) (sid : nat) :
  (SSLStream.InvalidateWeakPtrs sid ;; SSLStream.InvalidateWeakPtrs sid) w
  = SSLStream.InvalidateWeakPtrs sid w.
Proof.
  unfold SSLStream.InvalidateWeakPtrs, SSLStream.this_, bind.
  destruct (streams w !! sid) as [[s|]|] eqn:E; cbn; try reflexivity.
  destruct (SSLStreamState.weak_ptr_factory_ s) as [f|] eqn:Hf; cbn.
  - rewrite list_lookup_insert_eq by (eapply lookup_lt_Some; eauto). cbn.
    reflexivity.
  - rewrite E. cbn. now rewrite Hf.
Qed.

(** ** Worlds the program can be in have well-formed weak bindings *)

Lemma bound_iff (w : World) :
  bound w <->
  (forall due t wp,
      In (due, t) (TaskRunner.pending (runner w)) -> task_stream t = Some wp ->
      deadb w wp = true \/ boundb w wp = true)
  /\ (forall i s f,
         streams w !! i = Some (Some s) ->
         SSLStreamState.weak_ptr_factory_ s = Some f ->
         (f < length (flags w))%nat).
Proof.
  split.
  - intros Hw. split.
    + intros due t wp Hin Hs. apply orb_prop. eapply well_bound_task; eauto.
    + intros i s f. now apply well_bound_factory.
  - intros [Ht Hf]. unfold bound, well_bound. apply andb_true_intro. split.
    + apply List.forallb_forall. intros [due t] Hin. cbn. unfold task_ok.
      destruct (task_stream t) as [wp|] eqn:Hs; [|reflexivity].
      apply orb_true_intro. eauto.
    + apply List.forallb_forall. intros [s|] Hin; [|reflexivity]. cbn.
      destruct (SSLStreamState.weak_ptr_factory_ s) as [f|] eqn:E; [|reflexivity].
      apply list_elem_of_In, list_elem_of_lookup_1 in Hin as [i Hi].
      apply Nat.ltb_lt. eauto.
Qed.

Lemma deadb_new_flag (w : World) wp :
  deadb w wp = true -> deadb (set_flags (flags w ++ [true]) w) wp = true.
Proof.
  unfold deadb; cbn. destruct (flags w !! flag wp) as [[]|] eqn:E; try discriminate.
  intros _. now rewrite (lookup_app_l_Some _ _ _ _ E).
Qed.

Lemma bound_respected : respected bound anything.
Proof.
  constructor.
  - intros w w' Hp Hf Hs [Ht Hfac]%bound_iff. apply bound_iff. split.
    + intros due t wp Hin Hts. rewrite Hp in Hin.
      unfold deadb, boundb. rewrite Hf, Hs. exact (Ht due t wp Hin Hts).
    + intros i s f. rewrite Hf, Hs. apply Hfac.
  - intros w [Ht Hfac]%bound_iff. apply bound_iff. split.
    + intros due t wp Hin Hts. destruct (Ht due t wp Hin Hts) as [Hd|Hb].
      * left. now apply deadb_new_flag.
      * right. exact Hb.
    + intros i s f Hi Hf. cbn. rewrite length_app. cbn.
      specialize (Hfac i s f Hi Hf). lia.
  - intros t d w Hnone [Ht Hfac]%bound_iff. apply bound_iff. split.
    + intros due t' wp Hin Hts. cbn in Hin. apply In_enqueue in Hin.
      destruct Hin as [[= -> ->]|Hin]; [congruence|].
      exact (Ht due t' wp Hin Hts).
    + exact Hfac.
  - intros w w' x Hp Hf Hs [Ht Hfac]%bound_iff. apply bound_iff. split.
    + intros due t wp Hin Hts.
      unfold deadb, boundb. rewrite Hf, Hs. apply (Ht due t wp); auto.
      rewrite Hp. now right.
    + intros i s f. rewrite Hf, Hs. apply Hfac.
  - intros. exact Logic.I.
Qed.

Lemma Forall_anything (evs : list Event) : Forall anything evs.
Proof. apply List.Forall_forall. intros. exact Logic.I. Qed.

(** Posting a task bound to the stream's own weak pointer. *)
Lemma bound_stream_post {A} (this : nat) (mk_task : WeakPtr -> Task)
    (delay : Z) (a : A) :
  (forall wp, task_stream (mk_task wp) = Some wp) ->
  grows bound anything any
    (wp <- SSLStream.GetWeakPtr this ;;
     PostDelayedTask (mk_task wp) delay ;; ret a).
Proof.
  intros Hmk w Hw.
  assert (Hgoal : bound (final ((wp <- SSLStream.GetWeakPtr this ;;
                                 PostDelayedTask (mk_task wp) delay ;; ret a) w))
                  /\ exists evs, trace (final ((wp <- SSLStream.GetWeakPtr this ;;
                                 PostDelayedTask (mk_task wp) delay ;; ret a) w))
                                 = trace w ++ evs).
  { pose proof Hw as [Ht Hfac]%bound_iff.
    unfold SSLStream.GetWeakPtr, SSLStream.this_, bind.
    destruct (streams w !! this) as [[s|]|] eqn:Hs; cbn;
      try (split; [exact Hw|exists []; now rewrite app_nil_r]).
    destruct (SSLStreamState.weak_ptr_factory_ s) as [f|] eqn:Hf; cbn.
    - split; [|exists []; now rewrite app_nil_r].
      apply bound_iff. split; [|exact Hfac].
      intros due t wp Hin Hts. cbn in Hin. apply In_enqueue in Hin.
      destruct Hin as [[= -> ->]|Hin]; [|exact (Ht due t wp Hin Hts)].
      rewrite Hmk in Hts. injection Hts as <-. right.
      unfold boundb; cbn. rewrite Hs, Hf. apply Nat.eqb_refl.
    - split; [|exists []; now rewrite app_nil_r].
      assert (Hlt : (this < length (streams w))%nat)
        by (eapply lookup_lt_Some; eauto).
      apply bound_iff. split.
      + intros due t wp Hin Hts. cbn in Hin. apply In_enqueue in Hin.
        destruct Hin as [[= -> ->]|Hin].
        * rewrite Hmk in Hts. injection Hts as <-. right.
          unfold boundb; cbn. rewrite list_lookup_insert_eq by assumption. cbn.
          apply Nat.eqb_refl.
        * destruct (Ht due t wp Hin Hts) as [Hd|Hb].
          -- left. now apply deadb_new_flag in Hd.
          -- right. unfold boundb in *; cbn.
             destruct (Nat.eq_dec (ptr wp) this) as [Heq|Hne].
             ++ rewrite Heq, Hs, Hf in Hb. discriminate.
             ++ now rewrite list_lookup_insert_ne by auto.
      + intros i s' f' Hi Hf'. cbn in *. rewrite length_app. cbn.
        destruct (Nat.eq_dec i this) as [->|Hne].
        * rewrite list_lookup_insert_eq in Hi by assumption.
          injection Hi as <-. cbn in Hf'. injection Hf' as <-. lia.
        * rewrite list_lookup_insert_ne in Hi by auto.
          specialize (Hfac i s' f' Hi Hf'). lia. }
  destruct Hgoal as (Hb & evs & Hevs). split; [exact Hb|]. split.
  - exists evs. split; [exact Hevs|apply Forall_anything].
  - intros. exact Logic.I.
Qed.

Lemma bound_ReadAsync this buffer size sc ec error :
  grows bound anything any (SSLStream.ReadAsync this buffer size sc ec error).
Proof.
  unfold SSLStream.ReadAsync.
  eapply grows_bind; [now apply (grows_emit _ _ bound_respected)|intros _ _].
  eapply grows_bind; [apply (grows_extern _ _ bound_respected)|intros res _].
  destruct (0 <? res).
  { now apply (bound_stream_post this (fun wp => Stream_RunDelayedTask wp _)). }
  eapply grows_bind; [now apply (grows_emit _ _ bound_respected)|intros _ _].
  eapply grows_bind; [apply (grows_extern _ _ bound_respected)|intros err _].
  destruct (_ || _).
  - now apply (bound_stream_post this (fun wp => Stream_ReadAsync wp _ _ _ _ _)).
  - now apply (bound_stream_post this (fun wp => Stream_RunDelayedTask wp _)).
Qed.

Lemma bound_WriteAllAsync this buffer size sc ec error :
  grows bound anything any (SSLStream.WriteAllAsync this buffer size sc ec error).
Proof.
  unfold SSLStream.WriteAllAsync.
  eapply grows_bind; [now apply (grows_emit _ _ bound_respected)|intros _ _].
  eapply grows_bind; [apply (grows_extern _ _ bound_respected)|intros res _].
  destruct (0 <? res).
  { cbv zeta. destruct (_ =? 0).
    - now apply (bound_stream_post this (fun wp => Stream_RunDelayedTask wp _)).
    - now apply (bound_stream_post this
                   (fun wp => Stream_WriteAllAsync wp _ _ _ _ _)). }
  eapply grows_bind; [now apply (grows_emit _ _ bound_respected)|intros _ _].
  eapply grows_bind; [apply (grows_extern _ _ bound_respected)|intros err _].
  destruct (_ || _).
  - now apply (bound_stream_post this
                 (fun wp => Stream_WriteAllAsync wp _ _ _ _ _)).
  - now apply (bound_stream_post this (fun wp => Stream_RunDelayedTask wp _)).
Qed.

Lemma bound_stream_tasks : stream_tasks_respect bound anything.
Proof.
  intros w w' due t wp Hp Hf Hs Hw Ht.
  destruct t; try discriminate; cbn [run_task]; unfold when_valid;
    (eapply grows_bind; [apply (grows_get _ _ bound_respected)|intros [] _];
     [|now apply grows_ret]).
  - now apply (grows_emit _ _ bound_respected).
  - apply grows_IgnoreResult, bound_ReadAsync.
  - apply grows_IgnoreResult, bound_WriteAllAsync.
Qed.

Lemma bound_InvalidateWeakPtrs (w : World) sid :
  bound w -> bound (final (SSLStream.InvalidateWeakPtrs sid w)).
Proof. intros H. now destruct (InvalidateWeakPtrs_quiet w sid H) as (_ & _ & ?). Qed.

Lemma bound_destroy (w : World) sid :
  bound w -> bound (final (SSLStream.destroy sid w)).
Proof.
  intros Hw. unfold SSLStream.destroy, SSLStream.CancelPendingAsyncOperations, bind.
  destruct (InvalidateWeakPtrs_quiet w sid Hw) as (_ & _ & Hw1).
  destruct (SSLStream.InvalidateWeakPtrs sid w) as [[] w1|w1|w1|w1]; cbn in *; auto.
  destruct (InvalidateWeakPtrs_quiet w1 sid Hw1) as (Hq2 & _ & Hw2).
  destruct (SSLStream.InvalidateWeakPtrs sid w1) as [[] w2|w2|w2|w2]; cbn in *; auto.
  apply bound_iff in Hw2 as [Ht Hfac]. apply bound_iff. split.
  - intros due t wp Hin Hts. cbn in Hin.
    destruct (Hq2 due t wp Hin Hts) as [Hne|Hd].
    + destruct (Ht due t wp Hin Hts) as [Hd|Hb]; [now left|right].
      unfold boundb in *; cbn. now rewrite list_lookup_insert_ne by auto.
    + left. unfold deadb, dead in *; cbn. now rewrite Hd.
  - intros i s f Hi Hf. cbn in *.
    destruct (Nat.eq_dec i sid) as [->|Hne].
    + destruct (Nat.lt_ge_cases sid (length (streams w2))) as [Hlt|Hge].
      * rewrite list_lookup_insert_eq in Hi by assumption. discriminate.
      * rewrite lookup_ge_None_2 in Hi by (now rewrite length_insert).
        discriminate.
    + rewrite list_lookup_insert_ne in Hi by auto. exact (Hfac i s f Hi Hf).
Qed.

Lemma owns_respected this fac : respected (owns this fac) anything.
Proof.
  constructor.
  - intros w w' Hp Hf Hs [Hb Ho]. split.
    + now apply (inv_frame _ _ bound_respected w).
    + now rewrite Hs.
  - intros w [Hb Ho]. split; [now apply (inv_new_flag _ _ bound_respected)|exact Ho].
  - intros t d w Ht [Hb Ho]. split; [now apply (inv_post _ _ bound_respected)|exact Ho].
  - intros w w' x Hp Hf Hs [Hb Ho]. split.
    + now apply (inv_pop _ _ bound_respected w w' x).
    + now rewrite Hs.
  - intros. exact Logic.I.
Qed.

Lemma owns_this_ this fac :
  grows (owns this fac) anything
    (fun s => SSLStreamState.weak_ptr_factory_ s = fac) (SSLStream.this_ this).
Proof.
  intros w [Hb (s & Hs & Hf)]. unfold SSLStream.this_. rewrite Hs. cbn.
  split; [split; eauto|]. split.
  - exists []. split; [now rewrite app_nil_r|constructor].
  - now intros ? ? [= <- _].
Qed.

Lemma owns_store this fac ctx ssl :
  grows (owns this fac) anything any
    (SSLStream.store this (SSLStreamState.mk ctx ssl fac)).
Proof.
  intros w [[Ht Hfac]%bound_iff (s & Hs & Hf)].
  assert (Hlt : (this < length (streams w))%nat) by (eapply lookup_lt_Some; eauto).
  cbn. split; [split|split].
  - apply bound_iff. split.
    + intros due t wp Hin Hts. destruct (Ht due t wp Hin Hts) as [Hd|Hb]; [now left|right].
      unfold boundb in *; cbn.
      destruct (Nat.eq_dec (ptr wp) this) as [Heq|Hne].
      * rewrite Heq in *. rewrite list_lookup_insert_eq by assumption. cbn.
        now rewrite Hs, Hf in Hb.
      * now rewrite list_lookup_insert_ne by auto.
    + intros i s' f Hi Hf'. cbn in *.
      destruct (Nat.eq_dec i this) as [->|Hne].
      * rewrite list_lookup_insert_eq in Hi by assumption.
        injection Hi as <-. cbn in Hf'. rewrite <- Hf in Hf'.
        exact (Hfac this s f Hs Hf').
      * rewrite list_lookup_insert_ne in Hi by auto. exact (Hfac i s' f Hi Hf').
  - cbn. rewrite list_lookup_insert_eq by assumption. eauto.
  - exists []. split; [now rewrite app_nil_r|constructor].
  - intros. exact Logic.I.
Qed.

Lemma owns_connect_loop this fac fuel end_point :
  grows (owns this fac) anything any (SSLStream.connect_loop fuel this end_point).
Proof.
  pose proof (owns_respected this fac) as HI.
  induction fuel as [|fuel IH]; cbn [SSLStream.connect_loop];
    [apply grows_diverge|].
  eapply grows_bind; [now apply (grows_emit _ _ HI)|intros _ _].
  eapply grows_bind; [apply (grows_extern _ _ HI)|intros r _].
  destruct (negb _); [|now apply grows_ret].
  eapply grows_bind; [apply (grows_extern _ _ HI)|intros retry _].
  eapply grows_bind; [apply grows_CHECK|intros _ _].
  eapply grows_bind; [apply (grows_sleep _ _ HI)|intros _ _]. exact IH.
Qed.

Lemma owns_handshake_loop this fac fuel :
  grows (owns this fac) anything any (SSLStream.handshake_loop fuel this).
Proof.
  pose proof (owns_respected this fac) as HI.
  induction fuel as [|fuel IH]; cbn [SSLStream.handshake_loop];
    [apply grows_diverge|].
  eapply grows_bind; [now apply (grows_emit _ _ HI)|intros _ _].
  eapply grows_bind; [apply (grows_extern _ _ HI)|intros res _].
  destruct (negb _); [now apply grows_ret|].
  eapply grows_bind; [now apply (grows_emit _ _ HI)|intros _ _].
  eapply grows_bind; [apply (grows_extern _ _ HI)|intros err _].
  destruct (_ || _); [now apply grows_ret|].
  eapply grows_bind; [apply (grows_sleep _ _ HI)|intros _ _]. exact IH.
Qed.

Lemma owns_Init this fac fuel host port :
  grows (owns this fac) anything any (SSLStream.Init fuel this host port).
Proof.
  pose proof (owns_respected this fac) as HI.
  unfold SSLStream.Init.
  eapply grows_bind; [apply owns_this_|intros s Hs]. rewrite Hs.
  eapply grows_bind; [apply (grows_extern _ _ HI)|intros ctx _].
  eapply grows_bind; [apply owns_store|intros _ _].
  eapply grows_bind; [apply grows_CHECK|intros _ _].
  eapply grows_bind; [apply (grows_extern _ _ HI)|intros ssl _].
  eapply grows_bind; [apply owns_store|intros _ _].
  cbv zeta.
  eapply grows_bind; [apply (grows_extern _ _ HI)|intros bio _].
  eapply grows_bind; [apply grows_CHECK|intros _ _].
  eapply grows_bind; [apply owns_connect_loop|intros _ _].
  eapply grows_weaken_any, owns_handshake_loop.
Qed.

Lemma bound_OpenSslSocket (w : World) fuel host port sc ec :
  bound w -> bound (final (NetworkImpl.OpenSslSocket fuel host port sc ec w)).
Proof.
  intros Hw. unfold NetworkImpl.OpenSslSocket. unfold bind at 1.
  cbn [SSLStream.new]. set (tls := length (streams w)).
  set (w0 := set_streams _ w).
  assert (Ho : owns tls None w0).
  { split; [|exists (SSLStreamState.mk 0 0 None); split; [|reflexivity]].
    - apply bound_iff in Hw as [Ht Hfac]. apply bound_iff. split.
      + intros due t wp Hin Hts. destruct (Ht due t wp Hin Hts) as [Hd|Hb];
          [now left|right].
        unfold boundb in *. subst w0; cbn.
        destruct (streams w !! ptr wp) as [o|] eqn:E; [|discriminate].
        now rewrite (lookup_app_l_Some _ _ _ _ E).
      + intros i s f Hi Hf. subst w0; cbn in *.
        apply lookup_app_Some in Hi as [Hi|[_ Hi]]; [exact (Hfac i s f Hi Hf)|].
        destruct (i - length (streams w))%nat; [|discriminate].
        injection Hi as <-. discriminate.
    - subst w0 tls. cbn. now apply list_lookup_middle. }
  destruct (owns_Init tls None fuel host port w0 Ho) as ([Hb1 _] & _ & _).
  unfold bind.
  destruct (SSLStream.Init fuel tls host port w0) as [[] w1|w1|w1|w1];
    cbn [final] in *; auto.
  - now apply (inv_post _ _ bound_respected).
  - now apply bound_destroy.
Qed.

Lemma perform_bound (c : Call) (w : World) :
  bound w -> bound (final (perform c w)).
Proof.
  intros Hw. pose proof bound_respected as HI.
  destruct c; cbn [perform].
  - now apply (grows_IgnoreResult _ _ _ (bound_ReadAsync _ _ _ _ _ _) w).
  - now apply (grows_IgnoreResult _ _ _ (bound_WriteAllAsync _ _ _ _ _ _) w).
  - now apply bound_InvalidateWeakPtrs.
  - now apply bound_destroy.
  - now apply (inv_frame _ _ HI w).
  - now apply (grows_IgnoreResult _ _ _
                 (grows_ConnectToService _ _ HI _ _ _ _) w).
  - now apply (grows_EnableAccessPoint _ _ HI _ w).
  - now apply (grows_DisableAccessPoint _ _ HI w).
  - now apply bound_OpenSslSocket.
Qed.

(** Every world the program can be in is well bound. *)
Lemma reachable_well_bound (w : World) : reachable w -> well_bound w = true.
Proof.
  induction 1 as [e|w c _ IH|w o _ IH Hs].
  - reflexivity.
  - now apply perform_bound.
  - now apply (step_grows _ _ bound_respected bound_stream_tasks w o).
Qed.

(** C2: once [CancelPendingAsyncOperations] has run on a stream, the run
    loop delivers nothing more that is tied to that stream, however long it
    runs and whatever was in flight: no success or error callback through
    [RunDelayedTask], and no retried [ReadAsync] or [WriteAllAsync] reaches
    OpenSSL.  Cancelling twice is the same as cancelling once, and the
    destructor gives the same guarantee.  The hypothesis holds in every
    world the program can be in ([reachable_well_bound]). *)
Theorem cancel_delivers_nothing_more (w : World) (sid : nat) :
  well_bound w = true ->
  (forall fuel, exists evs,
      trace (final (run fuel (final (SSLStream.CancelPendingAsyncOperations sid w))))
      = trace w ++ evs
      /\ Forall (fun e => event_stream e <> Some sid) evs)
  /\ (SSLStream.CancelPendingAsyncOperations sid ;;
      SSLStream.CancelPendingAsyncOperations sid) w
     = SSLStream.CancelPendingAsyncOperations sid w
  /\ (forall fuel, exists evs,
      trace (final (run fuel (final (SSLStream.destroy sid w)))) = trace w ++ evs
      /\ Forall (fun e => event_stream e <> Some sid) evs).
Proof.
  intros Hw.
  assert (Hrun : forall w1 fuel,
             quiet (fun s => s <> sid) w1 -> trace w1 = trace w ->
             exists evs, trace (final (run fuel w1)) = trace w ++ evs
                         /\ Forall (fun e => event_stream e <> Some sid) evs).
  { intros w1 fuel Hq Ht. rewrite <- Ht.
    apply (run_quiet (fun s => s <> sid)); auto.
    - intros e s He Hs. rewrite He. congruence.
    - intros e He _. rewrite He. discriminate. }
  split; [|split].
  - intros fuel. unfold SSLStream.CancelPendingAsyncOperations.
    destruct (InvalidateWeakPtrs_quiet w sid Hw) as (Hq & Ht & _). auto.
  - apply InvalidateWeakPtrs_twice.
  - intros fuel. destruct (destroy_quiet w sid Hw) as (Hq & Ht). auto.
Qed.

Lemma cancel_delivers_nothing_more_witness :
  well_bound Scenario.reading = true
  /\ length (TaskRunner.pending (runner Scenario.reading)) = 1%nat
  /\ forall fuel, exists evs,
       trace (final (run fuel
                (final (SSLStream.CancelPendingAsyncOperations 0 Scenario.reading))))
       = trace Scenario.reading ++ evs
       /\ Forall (fun e => event_stream e <> Some 0%nat) evs.
Proof.
  split; [reflexivity|]. split; [reflexivity|].
  exact (proj1 (cancel_delivers_nothing_more Scenario.reading 0 eq_refl)).
Defined.

(** ** ReadAsync and WriteAllAsync *)

(** What every path of the two functions ends with: a task bound to a weak
    pointer to the stream is posted, and the call returns. *)
Lemma stream_post_spec {A} (w : World) (this : nat) (s : SSLStreamState.t)
    (mk_task : WeakPtr -> Task) (delay : Z) (a : A) :
  streams w !! this = Some (Some s) ->
  exists f w',
    (wp <- SSLStream.GetWeakPtr this ;;
     PostDelayedTask (mk_task wp) delay ;; ret a) w = Ok a w'
    /\ TaskRunner.pending (runner w')
       = TaskRunner.enqueue (TaskRunner.clock (runner w) + delay)
           (mk_task (mkWeakPtr f this)) (TaskRunner.pending (runner w))
    /\ boundb w' (mkWeakPtr f this) = true
    /\ trace w' = trace w.
Proof.
  intros Hs. unfold SSLStream.GetWeakPtr, SSLStream.this_, bind. rewrite Hs.
  destruct (SSLStreamState.weak_ptr_factory_ s) as [f|] eqn:Hf; cbn.
  - exists f. eexists. split; [reflexivity|]. cbn. repeat split.
    unfold boundb; cbn. rewrite Hs, Hf. apply Nat.eqb_refl.
  - exists (length (flags w)). eexists. split; [reflexivity|]. cbn. repeat split.
    unfold boundb; cbn.
    rewrite list_lookup_insert_eq by (eapply lookup_lt_Some; eauto). cbn.
    apply Nat.eqb_refl.
Qed.

Lemma would_block_test (err : Z) :
  would_block err ->
  (err =? SSL_ERROR_WANT_READ) || (err =? SSL_ERROR_WANT_WRITE) = true.
Proof. intros [->| ->]; reflexivity. Qed.

Lemma ReadAsync_eq (w : World) this buffer size sc ec error :
  SSLStream.ReadAsync this buffer size sc ec error w
  = let res := SSL_read (env w) (queries w) in
    let err := SSL_get_error (env w) (S (queries w)) in
    let read := EvSSL this (OpRead buffer (to_int size)) in
    if 0 <? res then
      (wp <- SSLStream.GetWeakPtr this ;;
       PostDelayedTask (Stream_RunDelayedTask wp (BindSize sc res)) TimeDelta.Zero ;;
       ret (true, error)) (asked 1 [read] w)
    else if (err =? SSL_ERROR_WANT_READ) || (err =? SSL_ERROR_WANT_WRITE) then
      (wp <- SSLStream.GetWeakPtr this ;;
       PostDelayedTask (Stream_ReadAsync wp buffer size sc ec None)
         (TimeDelta.FromSeconds 1) ;;
       ret (true, error)) (asked 2 [read; EvSSL this (OpGetError res)] w)
    else
      (wp <- SSLStream.GetWeakPtr this ;;
       PostDelayedTask
         (Stream_RunDelayedTask wp
            (BindError ec [mkError "ssl" "socket_read_failed" "SSL error"]))
         TimeDelta.Zero ;;
       ret (true, error)) (asked 2 [read; EvSSL this (OpGetError res)] w).
Proof.
  unfold SSLStream.ReadAsync.
  unfold bind at 1. cbn [emit modify]. unfold bind at 1. cbn [extern].
  cbn [env queries set_trace set_queries]. cbv zeta.
  destruct (0 <? _); [reflexivity|].
  unfold bind at 1. cbn [emit modify]. unfold bind at 1. cbn [extern].
  cbn [env queries set_trace set_queries trace runner flags net streams].
  unfold asked. cbn [set_trace trace Nat.add]. rewrite <- app_assoc. cbn [app].
  destruct (_ || _); reflexivity.
Qed.

Lemma WriteAllAsync_eq (w : World) this buffer size sc ec error :
  SSLStream.WriteAllAsync this buffer size sc ec error w
  = let res := SSL_write (env w) (queries w) in
    let err := SSL_get_error (env w) (S (queries w)) in
    let write := EvSSL this (OpWrite buffer (to_int size)) in
    if 0 <? res then
      if size_t (size - res) =? 0 then
        (wp <- SSLStream.GetWeakPtr this ;;
         PostDelayedTask (Stream_RunDelayedTask wp (Plain sc)) TimeDelta.Zero ;;
         ret (true, error)) (asked 1 [write] w)
      else
        (wp <- SSLStream.GetWeakPtr this ;;
         PostDelayedTask
           (Stream_WriteAllAsync wp (buffer + res) (size_t (size - res)) sc ec None)
           (TimeDelta.FromSeconds 1) ;;
         ret (true, error)) (asked 1 [write] w)
    else if (err =? SSL_ERROR_WANT_READ) || (err =? SSL_ERROR_WANT_WRITE) then
      (wp <- SSLStream.GetWeakPtr this ;;
       PostDelayedTask (Stream_WriteAllAsync wp buffer size sc ec None)
         (TimeDelta.FromSeconds 1) ;;
       ret (true, error)) (asked 2 [write; EvSSL this (OpGetError res)] w)
    else
      (wp <- SSLStream.GetWeakPtr this ;;
       PostDelayedTask
         (Stream_RunDelayedTask wp
            (BindError ec [mkError "ssl" "socket_write_failed" "SSL error"]))
         TimeDelta.Zero ;;
       ret (true, error)) (asked 2 [write; EvSSL this (OpGetError res)] w).
Proof.
  unfold SSLStream.WriteAllAsync.
  unfold bind at 1. cbn [emit modify]. unfold bind at 1. cbn [extern].
  cbn [env queries set_trace set_queries]. cbv zeta.
  destruct (0 <? _); [destruct (_ =? 0); reflexivity|].
  unfold bind at 1. cbn [emit modify]. unfold bind at 1. cbn [extern].
  cbn [env queries set_trace set_queries trace runner flags net streams].
  unfold asked. cbn [set_trace trace Nat.add]. rewrite <- app_assoc. cbn [app].
  destruct (_ || _); reflexivity.
Qed.

Ltac stream_post Hs :=
  match goal with
  | |- context [bind (SSLStream.GetWeakPtr ?this)
                  (fun wp => bind (PostDelayedTask (@?mk wp) ?d) (fun _ => ret ?a)) ?w2] =>
      let f := fresh "f" in
      let w' := fresh "w'" in
      let Heq := fresh "Heq" in
      let Hp := fresh "Hp" in
      let Hb := fresh "Hb" in
      let Ht := fresh "Ht" in
      destruct (stream_post_spec w2 this _ mk d a Hs) as (f & w' & Heq & Hp & Hb & Ht);
      rewrite Heq
  end.

(** C10: on a live stream [ReadAsync] and [WriteAllAsync] return [true]
    whatever OpenSSL answers, leave the caller's [ErrorPtr] as it was, and
    post exactly one task: outcomes are reported through the task runner
    only. *)
Theorem async_calls_return_true (w : World) (this : nat) (s : SSLStreamState.t)
    (buffer size : Z) (success_callback error_callback : Callback)
    (error : option ErrorPtr) :
  streams w !! this = Some (Some s) ->
  (exists w' due task,
      SSLStream.ReadAsync this buffer size success_callback error_callback error w
      = Ok (true, error) w'
      /\ TaskRunner.pending (runner w')
         = TaskRunner.enqueue due task (TaskRunner.pending (runner w)))
  /\ (exists w' due task,
      SSLStream.WriteAllAsync this buffer size success_callback error_callback error w
      = Ok (true, error) w'
      /\ TaskRunner.pending (runner w')
         = TaskRunner.enqueue due task (TaskRunner.pending (runner w))).
Proof.
  intros Hs. split.
  - rewrite ReadAsync_eq. cbv zeta.
    destruct (0 <? _); [|destruct (_ || _)]; stream_post Hs; eauto.
  - rewrite WriteAllAsync_eq. cbv zeta.
    destruct (0 <? _); [destruct (_ =? 0)|destruct (_ || _)];
      stream_post Hs; eauto.
Qed.

Lemma async_calls_return_true_witness :
  (exists w',
      SSLStream.ReadAsync 0 0 16 1%nat 2%nat (Some [])
        (Scenario.with_stream Scenario.established)
      = Ok (true, Some []) w')
  /\ (exists w',
      SSLStream.WriteAllAsync 0 0 16 1%nat 2%nat (Some [])
        (Scenario.with_stream Scenario.established)
      = Ok (true, Some []) w').
Proof.
  destruct (async_calls_return_true (Scenario.with_stream Scenario.established)
              0 (SSLStreamState.mk 0 0 None) 0 16 1%nat 2%nat (Some []) eq_refl)
    as [(w1 & _ & _ & E1 & _) (w2 & _ & _ & E2 & _)].
  split; eauto.
Defined.

Lemma run_task_ReadAsync (wp : WeakPtr) buffer size sc ec error (w : World) :
  IsValid wp w = true ->
  run_task (Stream_ReadAsync wp buffer size sc ec error) w
  = IgnoreResult (SSLStream.ReadAsync (ptr wp) buffer size sc ec error) w.
Proof. intros Hv. cbn [run_task]. unfold when_valid, get. unfold bind at 1. now rewrite Hv. Qed.

Lemma run_task_WriteAllAsync (wp : WeakPtr) buffer size sc ec error (w : World) :
  IsValid wp w = true ->
  run_task (Stream_WriteAllAsync wp buffer size sc ec error) w
  = IgnoreResult (SSLStream.WriteAllAsync (ptr wp) buffer size sc ec error) w.
Proof. intros Hv. cbn [run_task]. unfold when_valid, get. unfold bind at 1. now rewrite Hv. Qed.

(** C5: when the read or write primitive does not make progress and OpenSSL
    classifies that as would-block, the attempt delivers nothing: its only
    trace is the two calls into OpenSSL, and the one task it posts, due one
    second later and bound to the stream's current weak pointer, is the same
    call with the same buffer and size, which is what the run loop makes of
    it while the pointer is valid. *)
Theorem would_block_is_retried (w : World) (this : nat) (s : SSLStreamState.t)
    (buffer size : Z) (success_callback error_callback : Callback)
    (error : option ErrorPtr) :
  streams w !! this = Some (Some s) ->
  would_block (SSL_get_error (env w) (S (queries w))) ->
  (SSL_read (env w) (queries w) <= 0 ->
   exists f w',
     let wp := mkWeakPtr f this in
     let retry :=
       Stream_ReadAsync wp buffer size success_callback error_callback None in
     SSLStream.ReadAsync this buffer size success_callback error_callback error w
     = Ok (true, error) w'
     /\ TaskRunner.pending (runner w')
        = TaskRunner.enqueue
            (TaskRunner.clock (runner w) + TimeDelta.FromSeconds 1) retry
            (TaskRunner.pending (runner w))
     /\ boundb w' wp = true
     /\ trace w'
        = trace w ++ [EvSSL this (OpRead buffer (to_int size));
                      EvSSL this (OpGetError (SSL_read (env w) (queries w)))]
     /\ forall w'', IsValid wp w'' = true ->
          run_task retry w''
          = IgnoreResult (SSLStream.ReadAsync this buffer size
                            success_callback error_callback None) w'')
  /\ (SSL_write (env w) (queries w) <= 0 ->
      exists f w',
        let wp := mkWeakPtr f this in
        let retry :=
          Stream_WriteAllAsync wp buffer size success_callback error_callback None in
        SSLStream.WriteAllAsync this buffer size success_callback error_callback error w
        = Ok (true, error) w'
        /\ TaskRunner.pending (runner w')
           = TaskRunner.enqueue
               (TaskRunner.clock (runner w) + TimeDelta.FromSeconds 1) retry
               (TaskRunner.pending (runner w))
        /\ boundb w' wp = true
        /\ trace w'
           = trace w ++ [EvSSL this (OpWrite buffer (to_int size));
                         EvSSL this (OpGetError (SSL_write (env w) (queries w)))]
        /\ forall w'', IsValid wp w'' = true ->
             run_task retry w''
             = IgnoreResult (SSLStream.WriteAllAsync this buffer size
                               success_callback error_callback None) w'').
Proof.
  intros Hs Hwb. apply would_block_test in Hwb. split; intros Hres.
  - rewrite ReadAsync_eq. cbv zeta.
    replace (0 <? _) with false by (symmetry; apply Z.ltb_ge; exact Hres).
    rewrite Hwb. stream_post Hs.
    exists f, w'. cbv zeta. repeat split; auto.
    intros w'' Hv. now apply run_task_ReadAsync.
  - rewrite WriteAllAsync_eq. cbv zeta.
    replace (0 <? _) with false by (symmetry; apply Z.ltb_ge; exact Hres).
    rewrite Hwb. stream_post Hs.
    exists f, w'. cbv zeta. repeat split; auto.
    intros w'' Hv. now apply run_task_WriteAllAsync.
Qed.

Lemma would_block_is_retried_witness :
  exists f w',
    SSLStream.ReadAsync 0 0 16 1%nat 2%nat None
      (Scenario.with_stream Scenario.established)
    = Ok (true, None) w'
    /\ TaskRunner.pending (runner w')
       = [(1000000, Stream_ReadAsync (mkWeakPtr f 0) 0 16 1%nat 2%nat None)].
Proof.
  destruct (proj1 (would_block_is_retried
                     (Scenario.with_stream Scenario.established) 0
                     (SSLStreamState.mk 0 0 None) 0 16 1%nat 2%nat None
                     eq_refl (or_introl eq_refl)))
    as (f & w' & E & Hp & _).
  - cbn. lia.
  - exists f, w'. split; [exact E|exact Hp].
Defined.

(** ** Init *)

(** The handshake loop never comes round: whatever [SSL_do_handshake]
    answers, the first iteration returns. *)
Lemma handshake_loop_eq (fuel : nat) (this : nat) (w : World) :
  SSLStream.handshake_loop (S fuel) this w
  = let res := SSL_do_handshake (env w) (queries w) in
    if negb (res =? 0) then Ok true (asked 1 [EvSSL this OpHandshake] w)
    else Ok false (asked 2 [EvSSL this OpHandshake; EvSSL this (OpGetError res)] w).
Proof.
  cbn [SSLStream.handshake_loop].
  unfold bind at 1. cbn [emit modify]. unfold bind at 1. cbn [extern].
  cbn [env queries set_trace set_queries]. cbv zeta.
  destruct (negb _); [reflexivity|].
  unfold bind at 1. cbn [emit modify]. unfold bind at 1. cbn [extern].
  cbn [env queries set_trace set_queries trace].
  unfold asked. cbn [set_trace trace Nat.add]. rewrite <- app_assoc. cbn [app].
  set (err := SSL_get_error _ _).
  assert (Hor : negb (err =? SSL_ERROR_WANT_READ)
                || negb (err =? SSL_ERROR_WANT_WRITE) = true).
  { destruct (Z.eqb_spec err SSL_ERROR_WANT_READ) as [->|]; reflexivity. }
  rewrite Hor. reflexivity.
Qed.

Lemma retried_0 this end_point (w : World) : retried 0 this end_point w = w.
Proof.
  destruct w as [e [c p] q t f n s]. unfold retried, asked, set_runner,
    set_queries, set_trace, TimeDelta.FromSeconds; cbn.
  rewrite app_nil_r. do 2 f_equal. lia.
Qed.

Lemma connect_loop_retry (fuel : nat) this end_point (w : World) :
  BIO_do_connect (env w) (queries w) <> 1 ->
  BIO_should_retry (env w) (S (queries w)) <> 0 ->
  SSLStream.connect_loop (S fuel) this end_point w
  = SSLStream.connect_loop fuel this end_point (retried 1 this end_point w).
Proof.
  intros Hc Hr. cbn [SSLStream.connect_loop].
  unfold bind at 1. cbn [emit modify]. unfold bind at 1. cbn [extern].
  cbn [env queries set_trace set_queries].
  apply Z.eqb_neq in Hc. rewrite Hc. cbn [negb].
  unfold bind at 1. cbn [extern env queries set_trace set_queries].
  apply Z.eqb_neq in Hr. rewrite Hr. cbn [negb CHECK].
  unfold bind at 1. cbn [ret]. unfold sleep, bind at 1, bind at 1.
  cbn [emit modify].
  f_equal. destruct w as [e [c p] q t f n s].
  unfold retried, asked, set_runner, set_queries, set_trace, TaskRunner.sleep; cbn.
  now rewrite <- app_assoc.
Qed.

Lemma retried_S k this end_point (w : World) :
  retried k this end_point (retried 1 this end_point w)
  = retried (S k) this end_point w.
Proof.
  destruct w as [e [c p] q t f n s].
  unfold retried, asked, set_runner, set_queries, set_trace,
    TimeDelta.FromSeconds; cbn -[Z.of_nat Nat.add Nat.mul].
  f_equal.
  - f_equal. lia.
  - lia.
  - rewrite <- !app_assoc. reflexivity.
Qed.

Lemma connect_loop_retries (k fuel : nat) this end_point (w : World) :
  (forall i, (i < k)%nat ->
     BIO_do_connect (env w) (queries w + 2 * i) <> 1
     /\ BIO_should_retry (env w) (queries w + 2 * i + 1) <> 0) ->
  SSLStream.connect_loop (k + fuel) this end_point w
  = SSLStream.connect_loop fuel this end_point (retried k this end_point w).
Proof.
  revert w. induction k as [|k IH]; intros w H.
  - now rewrite retried_0.
  - cbn [Nat.add]. rewrite connect_loop_retry.
    + rewrite IH; [now rewrite retried_S|].
      intros i Hi. specialize (H (S i) ltac:(lia)).
      cbn [retried asked env queries set_runner set_queries set_trace].
      replace (2 * 1 + queries w + 2 * i)%nat with (queries w + 2 * S i)%nat by lia.
      exact H.
    + specialize (H 0%nat ltac:(lia)).
      now replace (queries w + 2 * 0)%nat with (queries w) in H by lia.
    + specialize (H 0%nat ltac:(lia)).
      now replace (queries w + 2 * 0 + 1)%nat with (S (queries w)) in H by lia.
Qed.

Lemma connect_loop_done (fuel : nat) this end_point (w : World) :
  BIO_do_connect (env w) (queries w) = 1 ->
  SSLStream.connect_loop (S fuel) this end_point w
  = Ok tt (asked 1 [EvSSL this (OpConnect end_point)] w).
Proof.
  intros Hc. cbn [SSLStream.connect_loop].
  unfold bind at 1. cbn [emit modify]. unfold bind at 1. cbn [extern].
  cbn [env queries set_trace set_queries]. rewrite Hc. reflexivity.
Qed.

Lemma connect_loop_refused (fuel : nat) this end_point (w : World) :
  BIO_do_connect (env w) (queries w) <> 1 ->
  BIO_should_retry (env w) (S (queries w)) = 0 ->
  SSLStream.connect_loop (S fuel) this end_point w
  = Crash (asked 2 [EvSSL this (OpConnect end_point)] w).
Proof.
  intros Hc Hr. cbn [SSLStream.connect_loop].
  unfold bind at 1. cbn [emit modify]. unfold bind at 1. cbn [extern].
  cbn [env queries set_trace set_queries].
  apply Z.eqb_neq in Hc. rewrite Hc. cbn [negb].
  unfold bind at 1. cbn [extern env queries set_trace set_queries].
  rewrite Hr. reflexivity.
Qed.

Lemma Init_eq (fuel : nat) this s host port (w : World) :
  streams w !! this = Some (Some s) ->
  SSL_CTX_new (env w) (queries w) <> 0 ->
  BIO_new_connect (env w) (2 + queries w) <> 0 ->
  SSLStream.Init fuel this host port w
  = (SSLStream.connect_loop fuel this (end_point_of host port) ;;
     SSLStream.handshake_loop fuel this) (prepared this s w).
Proof.
  intros Hs Hctx Hbio. unfold SSLStream.Init.
  unfold bind at 1. unfold SSLStream.this_ at 1. rewrite Hs.
  unfold bind at 1. cbn [extern].
  unfold bind at 1. cbn [SSLStream.store modify].
  apply Z.eqb_neq in Hctx. rewrite Hctx. cbn [negb CHECK].
  unfold bind at 1. cbn [ret].
  unfold bind at 1. cbn [extern queries env set_streams set_queries].
  unfold bind at 1. cbn [SSLStream.store modify].
  cbv zeta.
  unfold bind at 1. cbn [extern queries env set_streams set_queries].
  apply Z.eqb_neq in Hbio. change (2 + queries w)%nat with (S (S (queries w))) in Hbio.
  rewrite Hbio. cbn [negb CHECK].
  unfold bind at 1. cbn [ret].
  reflexivity.
Qed.

(** C3 does not hold as stated.  When the connect step fails and may not be
    retried, [Init] does not return [false]: the process aborts.  When the
    first handshake step would block, [Init] returns [true] after that one
    step, without retrying it and without the session being established. *)
Lemma Init_not_as_claimed :
  (BIO_do_connect Scenario.refused 3 <> 1
   /\ BIO_should_retry Scenario.refused 4 = 0
   /\ exists w',
       SSLStream.Init 5 0 "cloud" 443 (Scenario.with_stream Scenario.refused)
       = Crash w')
  /\ (SSL_do_handshake Scenario.handshaking 4 = -1
      /\ would_block (SSL_get_error Scenario.handshaking 5)
      /\ exists w',
          SSLStream.Init 5 0 "cloud" 443
            (Scenario.with_stream Scenario.handshaking)
          = Ok true w'
          /\ trace w' = [EvSSL 0 (OpConnect "cloud:443"); EvSSL 0 OpHandshake]
          /\ TaskRunner.clock (runner w') = 0).
Proof.
  split.
  - split; [discriminate|]. split; [reflexivity|].
    vm_compute. eexists. reflexivity.
  - split; [reflexivity|]. split; [now left|].
    vm_compute. eexists. split; [reflexivity|]. split; reflexivity.
Qed.

(** C3, as the code has it by design: [Init] repeats the connect step once a
    second for as long as it fails retryably; when it then succeeds and the
    handshake step reports the session established, [Init] returns [true];
    when it then fails and may not be retried, the [CHECK] aborts the process
    and [Init] returns nothing. *)
Theorem Init_retries_connect_each_second (w : World) (this : nat)
    (s : SSLStreamState.t) (host : string) (port : Z) (k fuel : nat) :
  streams w !! this = Some (Some s) ->
  SSL_CTX_new (env w) (queries w) <> 0 ->
  BIO_new_connect (env w) (2 + queries w) <> 0 ->
  (forall i, (i < k)%nat ->
     BIO_do_connect (env w) (3 + queries w + 2 * i) <> 1
     /\ BIO_should_retry (env w) (3 + queries w + 2 * i + 1) <> 0) ->
  (k < fuel)%nat ->
  let last := (3 + queries w + 2 * k)%nat in
  let connect := EvSSL this (OpConnect (end_point_of host port)) in
  let rounds := concat (repeat [connect; EvSleep 1] k) in
  (BIO_do_connect (env w) last = 1 ->
   SSL_do_handshake (env w) (S last) = 1 ->
   exists w',
     SSLStream.Init fuel this host port w = Ok true w'
     /\ TaskRunner.clock (runner w')
        = TaskRunner.clock (runner w) + TimeDelta.FromSeconds (Z.of_nat k)
     /\ trace w' = trace w ++ rounds ++ [connect; EvSSL this OpHandshake])
  /\ (BIO_do_connect (env w) last <> 1 ->
      BIO_should_retry (env w) (S last) = 0 ->
      exists w',
        SSLStream.Init fuel this host port w = Crash w'
        /\ TaskRunner.clock (runner w')
           = TaskRunner.clock (runner w) + TimeDelta.FromSeconds (Z.of_nat k)
        /\ trace w' = trace w ++ rounds ++ [connect]).
Proof.
  intros Hs Hctx Hbio Hretry Hfuel last connect rounds.
  rewrite (Init_eq fuel this s) by assumption.
  replace fuel with (k + S (fuel - S k))%nat by lia.
  unfold bind.
  rewrite !connect_loop_retries
    by (intros i Hi; exact (Hretry i Hi)).
  set (w1 := retried k this (end_point_of host port) (prepared this s w)).
  assert (Hq : queries w1 = last) by (subst w1 last; cbn; lia).
  split; intros Hc Hh.
  - rewrite connect_loop_done by (rewrite Hq; exact Hc).
    rewrite Nat.add_succ_r, handshake_loop_eq. cbv zeta.
    cbn [asked env queries set_trace set_queries Nat.add].
    rewrite Hq. change (env w1) with (env w). rewrite Hh. cbn [Z.eqb negb].
    eexists. split; [reflexivity|]. split; [reflexivity|].
    subst w1. cbn [asked trace set_trace set_queries retried set_runner prepared
                   set_streams]. cbn [Nat.mul].
    rewrite <- !app_assoc. reflexivity.
  - rewrite connect_loop_refused by (rewrite Hq; assumption).
    eexists. split; [reflexivity|]. split; [reflexivity|].
    subst w1. cbn [asked trace set_trace set_queries retried set_runner prepared
                   set_streams].
    rewrite <- !app_assoc. reflexivity.
Qed.

Lemma Init_retries_connect_each_second_witness :
  exists w',
    SSLStream.Init 3 0 "cloud" 443 (Scenario.with_stream Scenario.slow)
    = Ok true w'
    /\ TaskRunner.clock (runner w') = 2000000.
Proof.
  destruct (Init_retries_connect_each_second
              (Scenario.with_stream Scenario.slow) 0 (SSLStreamState.mk 0 0 None)
              "cloud" 443 2 3) as [H _].
  - reflexivity.
  - discriminate.
  - discriminate.
  - intros i Hi. destruct i as [|[|i]]; [split; discriminate..|lia].
  - lia.
  - destruct H as (w' & E & Hc & _); [reflexivity..|].
    exists w'. split; [exact E|exact Hc].
Defined.

Lemma untouched_refl (w : World) : untouched w w.
Proof. repeat split. exists []. now rewrite app_nil_r. Qed.

Lemma untouched_asked n evs (w w' : World) :
  Forall ssl_or_sleep evs -> untouched (asked n evs w) w' -> untouched w w'.
Proof.
  intros He (Hp & Hs & evs' & Ht & He'). repeat split; auto.
  exists (evs ++ evs'). rewrite Ht. cbn. rewrite app_assoc. split; auto.
  apply Forall_app; auto.
Qed.

Lemma untouched_retried k this end_point (w w' : World) :
  untouched (retried k this end_point w) w' -> untouched w w'.
Proof.
  intros (Hp & Hs & evs' & Ht & He'). repeat split; auto.
  eexists. rewrite Ht. cbn. rewrite <- app_assoc. split; [reflexivity|].
  apply Forall_app; split; auto.
  clear. induction k; cbn; repeat constructor; auto.
Qed.

Lemma connect_loop_untouched (fuel : nat) this end_point (w : World) :
  untouched w (final (SSLStream.connect_loop fuel this end_point w)).
Proof.
  revert w. induction fuel as [|fuel IH]; intros w; [apply untouched_refl|].
  destruct (Z.eq_dec (BIO_do_connect (env w) (queries w)) 1) as [Hc|Hc].
  { rewrite connect_loop_done by assumption. cbn [final].
    eapply untouched_asked; [|apply untouched_refl]. repeat constructor. }
  destruct (Z.eq_dec (BIO_should_retry (env w) (S (queries w))) 0) as [Hr|Hr].
  { rewrite connect_loop_refused by assumption. cbn [final].
    eapply untouched_asked; [|apply untouched_refl]. repeat constructor. }
  rewrite connect_loop_retry by assumption.
  eapply untouched_retried, IH.
Qed.

Lemma handshake_loop_untouched (fuel : nat) this (w : World) :
  untouched w (final (SSLStream.handshake_loop fuel this w)).
Proof.
  destruct fuel as [|fuel]; [apply untouched_refl|].
  rewrite handshake_loop_eq. cbv zeta.
  destruct (negb _); cbn [final];
    (eapply untouched_asked; [|apply untouched_refl]); repeat constructor.
Qed.

Lemma Init_keeps (fuel : nat) this s host port (w : World) :
  streams w !! this = Some (Some s) ->
  let w' := final (SSLStream.Init fuel this host port w) in
  TaskRunner.pending (runner w') = TaskRunner.pending (runner w)
  /\ flags w' = flags w
  /\ (exists s', streams w' !! this = Some (Some s')
                 /\ SSLStreamState.weak_ptr_factory_ s'
                    = SSLStreamState.weak_ptr_factory_ s)
  /\ exists evs, trace w' = trace w ++ evs /\ Forall ssl_or_sleep evs.
Proof.
  intros Hs.
  assert (Hlt : (this < length (streams w))%nat) by (eapply lookup_lt_Some; eauto).
  destruct (Z.eq_dec (SSL_CTX_new (env w) (queries w)) 0) as [Hctx|Hctx].
  { unfold SSLStream.Init, bind, SSLStream.this_. rewrite Hs. cbn [extern].
    cbn [SSLStream.store modify set_streams set_queries]. rewrite Hctx.
    cbn. repeat split.
    - rewrite list_lookup_insert_eq by assumption. eauto.
    - exists []. now rewrite app_nil_r. }
  destruct (Z.eq_dec (BIO_new_connect (env w) (2 + queries w)) 0) as [Hbio|Hbio].
  { unfold SSLStream.Init, bind, SSLStream.this_. rewrite Hs. cbn [extern].
    cbn [SSLStream.store modify set_streams set_queries].
    apply Z.eqb_neq in Hctx. rewrite Hctx.
    cbn [negb CHECK ret extern queries env set_streams set_queries
         SSLStream.store modify].
    change (S (S (queries w))) with (2 + queries w)%nat. rewrite Hbio.
    cbn. repeat split.
    - rewrite list_lookup_insert_eq by (now rewrite length_insert). eauto.
    - exists []. now rewrite app_nil_r. }
  rewrite (Init_eq fuel this s) by assumption. unfold bind.
  pose proof (connect_loop_untouched fuel this (end_point_of host port)
                (prepared this s w)) as Hc.
  assert (Hprep : forall w1, untouched (prepared this s w) w1 ->
            TaskRunner.pending (runner w1) = TaskRunner.pending (runner w)
            /\ (exists s', streams w1 !! this = Some (Some s')
                 /\ SSLStreamState.weak_ptr_factory_ s'
                    = SSLStreamState.weak_ptr_factory_ s)
            /\ exists evs, trace w1 = trace w ++ evs /\ Forall ssl_or_sleep evs).
  { intros w1 (Hp & Hst & He). repeat split; auto.
    rewrite Hst. cbn. rewrite list_lookup_insert_eq by (now rewrite length_insert).
    eauto. }
  assert (Hflags : forall fuel' w0,
            flags (final (SSLStream.connect_loop fuel' this
                            (end_point_of host port) w0)) = flags w0).
  { clear. induction fuel' as [|fuel' IH]; intros w0; [reflexivity|].
    destruct (Z.eq_dec (BIO_do_connect (env w0) (queries w0)) 1) as [Hc|Hc].
    { now rewrite connect_loop_done. }
    destruct (Z.eq_dec (BIO_should_retry (env w0) (S (queries w0))) 0) as [Hr|Hr].
    { now rewrite connect_loop_refused. }
    rewrite connect_loop_retry by assumption. now rewrite IH. }
  specialize (Hflags fuel (prepared this s w)).
  destruct (SSLStream.connect_loop fuel this _ _) as [[] w1|w1|w1|w1];
    cbn [final] in *.
  2-4: destruct (Hprep _ Hc) as (? & ? & ?); auto.
  pose proof (handshake_loop_untouched fuel this w1) as Hh.
  assert (Hfl : flags (final (SSLStream.handshake_loop fuel this w1)) = flags w1).
  { destruct fuel; [reflexivity|]. rewrite handshake_loop_eq. cbv zeta.
    now destruct (negb _). }
  destruct Hc as (Hp1 & Hs1 & evs1 & Ht1 & He1).
  destruct Hh as (Hp2 & Hs2 & evs2 & Ht2 & He2).
  destruct (Hprep (final (SSLStream.handshake_loop fuel this w1))) as (? & ? & ?).
  { repeat split; try congruence.
    exists (evs1 ++ evs2). rewrite Ht2, Ht1, app_assoc. split; auto.
    apply Forall_app; auto. }
  repeat split; auto. now rewrite Hfl, Hflags.
Qed.

(** ** OpenSslSocket *)

Lemma run_idle (n : nat) (w : World) : idle w -> run n w = Ok tt w.
Proof.
  intros Hi. destruct n; [reflexivity|].
  cbn [run]. unfold step, TaskRunner.dispatch. now rewrite Hi.
Qed.

Lemma InvalidateWeakPtrs_none (w : World) this s :
  streams w !! this = Some (Some s) ->
  SSLStreamState.weak_ptr_factory_ s = None ->
  SSLStream.InvalidateWeakPtrs this w = Ok tt w.
Proof.
  intros Hs Hf. unfold SSLStream.InvalidateWeakPtrs, bind, SSLStream.this_.
  now rewrite Hs, Hf.
Qed.

(** C8: when [Init] fails, [OpenSslSocket] returns having built an error
    that goes nowhere: nothing is posted to the task runner, [error_callback]
    is not run, the stream is destroyed, and an idle run loop stays idle.
    When [Init] succeeds, exactly one task is posted, with no delay:
    [success_callback] bound to the stream, which stays alive; running that
    task is running the callback. *)
Theorem OpenSslSocket_outcomes (w : World) (fuel : nat) (host : string)
    (port : Z) (success_callback error_callback : Callback) :
  let tls_stream := length (streams w) in
  (forall w1,
      SSLStream.Init fuel tls_stream host port (final (SSLStream.new w))
      = Ok false w1 ->
      exists w',
        NetworkImpl.OpenSslSocket fuel host port success_callback error_callback w
        = Ok tt w'
        /\ TaskRunner.pending (runner w') = TaskRunner.pending (runner w)
        /\ (exists evs, trace w' = trace w ++ evs /\ Forall ssl_or_sleep evs)
        /\ streams w' !! tls_stream = Some None
        /\ (idle w -> forall n, run n w' = Ok tt w'))
  /\ (forall w1,
      SSLStream.Init fuel tls_stream host port (final (SSLStream.new w))
      = Ok true w1 ->
      let task := Run (BindStream success_callback tls_stream) in
      exists w',
        NetworkImpl.OpenSslSocket fuel host port success_callback error_callback w
        = Ok tt w'
        /\ TaskRunner.pending (runner w')
           = TaskRunner.enqueue (TaskRunner.clock (runner w1) + TimeDelta.Zero)
               task (TaskRunner.pending (runner w))
        /\ (exists evs, trace w' = trace w ++ evs /\ Forall ssl_or_sleep evs)
        /\ (exists s', streams w' !! tls_stream = Some (Some s'))
        /\ forall w'',
             run_task task w''
             = Ok tt (set_trace
                        (trace w'' ++ [EvRun (BindStream success_callback tls_stream)])
                        w'')).
Proof.
  intros tls_stream.
  set (w0 := final (SSLStream.new w)).
  assert (Hs0 : streams w0 !! tls_stream = Some (Some (SSLStreamState.mk 0 0 None))).
  { subst w0 tls_stream. cbn. now apply list_lookup_middle. }
  pose proof (Init_keeps fuel tls_stream _ host port w0 Hs0)
    as (Hp & Hf & (s' & Hs' & Hfac) & Hevs).
  split; intros w1 HInit; cbv zeta in *; fold w0 in HInit; rewrite HInit in *;
    cbn [final] in *.
  - unfold NetworkImpl.OpenSslSocket. unfold bind at 1.
    change (SSLStream.new w) with (Ok (W := World) tls_stream w0).
    cbv iota beta. unfold bind at 1. rewrite HInit. cbv iota beta zeta.
    unfold SSLStream.destroy, SSLStream.CancelPendingAsyncOperations, bind.
    rewrite (InvalidateWeakPtrs_none w1 tls_stream s') by assumption.
    rewrite (InvalidateWeakPtrs_none w1 tls_stream s') by assumption.
    cbn [modify]. eexists. split; [reflexivity|].
    cbn [runner trace streams set_streams]. repeat split; auto.
    + apply list_lookup_insert_eq. eapply lookup_lt_Some; eauto.
    + intros Hi n. apply run_idle. unfold idle in *. cbn. now rewrite Hp.
  - unfold NetworkImpl.OpenSslSocket. unfold bind at 1.
    change (SSLStream.new w) with (Ok (W := World) tls_stream w0).
    cbv iota beta. unfold bind at 1. rewrite HInit. cbv iota beta.
    cbn [PostDelayedTask modify]. eexists. split; [reflexivity|].
    cbn [runner trace streams set_runner TaskRunner.PostDelayedTask
         TaskRunner.pending]. rewrite Hp. repeat split; eauto.
Qed.

Lemma OpenSslSocket_outcomes_witness :
  exists w',
    NetworkImpl.OpenSslSocket 1 "cloud" 443 1%nat 2%nat
      (boot Scenario.rejected)
    = Ok tt w'
    /\ TaskRunner.pending (runner w') = []
    /\ streams w' !! 0%nat = Some None.
Proof.
  edestruct (proj1 (OpenSslSocket_outcomes (boot Scenario.rejected) 1
                      "cloud" 443 1%nat 2%nat))
    as (w' & E & Hp & _ & Hs & _).
  { vm_compute. reflexivity. }
  exists w'. split; [exact E|]. split; [exact Hp|exact Hs].
Defined.

(** ** ConnectToService and TryToConnect *)

Lemma ConnectToService_aborts (w : World) ssid passphrase on_success error :
  NetworkImplState.hostapd_started_ (net w) = true ->
  NetworkImpl.ConnectToService ssid passphrase on_success error w = Crash w.
Proof.
  intros H. unfold NetworkImpl.ConnectToService, bind, get. now rewrite H.
Qed.

(** C1: with the access point running, [ConnectToService] does not return
    [Busy]: the [CHECK] in front of the test for [hostapd_started_] aborts
    the process, in the world in which it was called. *)
Theorem ConnectToService_while_hosting_aborts :
  NetworkImplState.hostapd_started_ (net Scenario.hosting) = true
  /\ NetworkImpl.ConnectToService "home" "secret" (Plain 1%nat) (Some [])
       Scenario.hosting
     = Crash Scenario.hosting.
Proof. split; reflexivity. Qed.

Lemma poll_join_never (w : World) ssid pid on_success :
  never_matches (env w) ssid ->
  exists pid' w1,
    NetworkImpl.poll_join ssid pid on_success w = Ok (Some pid') w1
    /\ frame w w1 /\ trace w1 = trace w.
Proof.
  intros H. unfold NetworkImpl.poll_join.
  destruct (negb (pid =? 0)); [|repeat eexists].
  unfold bind at 1. cbn [extern].
  destruct (pid =? _); [|repeat eexists].
  unfold bind at 1. cbn [extern queries set_queries env].
  destruct (H (S (queries w))) as (_ & Hsock & _).
  apply Z.leb_le in Hsock. rewrite Hsock. cbn [CHECK].
  unfold bind at 1. cbn [ret]. unfold bind at 1.
  cbn [extern queries set_queries env].
  destruct (H (S (S (queries w)))) as (_ & _ & Hio & Hne).
  apply Z.leb_le in Hio. rewrite Hio. cbn [CHECK].
  unfold bind at 1. cbn [ret]. cbv zeta.
  assert (Hneq : String.eqb ssid (snd (ioctl (env w) (S (S (queries w))))) = false).
  { apply String.eqb_neq. congruence. }
  rewrite Hneq. repeat eexists.
Qed.

Lemma join_spec (w : World) ssid passphrase pid :
  never_matches (env w) ssid ->
  exists pid' w1 pre,
    NetworkImpl.join ssid passphrase pid w = Ok pid' w1
    /\ frame w w1 /\ trace w1 = trace w ++ pre /\ Forall is_fork pre.
Proof.
  intros H. unfold NetworkImpl.join.
  destruct (pid =? 0).
  - unfold ForkCmd. unfold bind at 1. cbn [emit modify]. unfold bind at 1.
    cbn [extern queries set_queries set_trace env].
    destruct (H (queries w)) as (Hf & _).
    apply Z.eqb_neq in Hf. rewrite Hf. cbn [negb ret].
    do 3 eexists. split; [reflexivity|]. split; [repeat split|].
    split; [reflexivity|]. repeat constructor.
  - exists pid, w, []. repeat split; auto. now rewrite app_nil_r.
Qed.

Lemma net_GetWeakPtr_spec (w : World) :
  net_bound w = true ->
  exists f w1,
    NetworkImpl.GetWeakPtr w = Ok (mkWeakPtr f 0) w1
    /\ IsValid (mkWeakPtr f 0) w1 = true
    /\ net_bound w1 = true
    /\ env w1 = env w /\ runner w1 = runner w /\ trace w1 = trace w
    /\ NetworkImplState.callbacks_ (net w1) = NetworkImplState.callbacks_ (net w).
Proof.
  intros Hb. unfold NetworkImpl.GetWeakPtr, bind, get. unfold net_bound in *.
  destruct (NetworkImplState.weak_ptr_factory_ (net w)) as [f|] eqn:Hf.
  - exists f, w. cbn [ret]. rewrite Hf. repeat split; auto.
  - exists (length (flags w)). eexists. cbn [new_flag modify ret].
    split; [reflexivity|]. cbn. unfold IsValid; cbn.
    rewrite lookup_app_r by lia. rewrite Nat.sub_diag. cbn. repeat split.
Qed.

Lemma TryToConnect_step (w : World) ssid passphrase pid until on_success :
  never_matches (env w) ssid -> net_bound w = true -> idle w ->
  exists wp w1 pid' pre,
    NetworkImpl.TryToConnect ssid passphrase pid until on_success w = Ok tt w1
    /\ IsValid wp w1 = true /\ net_bound w1 = true /\ env w1 = env w
    /\ NetworkImplState.callbacks_ (net w1) = NetworkImplState.callbacks_ (net w)
    /\ trace w1 = trace w ++ pre /\ Forall is_fork pre
    /\ TaskRunner.clock (runner w1) = TaskRunner.clock (runner w)
    /\ TaskRunner.pending (runner w1)
       = if until <=? TaskRunner.clock (runner w)
         then [(TaskRunner.clock (runner w) + TimeDelta.Zero,
                Net_NotifyNetworkChanged wp)]
         else [(TaskRunner.clock (runner w) + TimeDelta.FromSeconds 1,
                Net_TryToConnect wp ssid passphrase pid' until on_success)].
Proof.
  intros Hnm Hb Hi. unfold NetworkImpl.TryToConnect.
  destruct (poll_join_never w ssid pid on_success Hnm)
    as (pid1 & w1 & E1 & (He1 & Hr1 & Hf1 & Hn1) & Ht1).
  unfold bind at 1. rewrite E1.
  assert (Hnm1 : never_matches (env w1) ssid) by now rewrite He1.
  destruct (join_spec w1 ssid passphrase pid1 Hnm1)
    as (pid2 & w2 & pre & E2 & (He2 & Hr2 & Hf2 & Hn2) & Ht2 & Hpre).
  unfold bind at 1. rewrite E2.
  assert (Hb2 : net_bound w2 = true).
  { unfold net_bound, IsValid in *. now rewrite Hn2, Hf2, Hn1, Hf1. }
  destruct (net_GetWeakPtr_spec w2 Hb2)
    as (f & w3 & E3 & Hv3 & Hb3 & He3 & Hr3 & Ht3 & Hc3).
  assert (Hi3 : TaskRunner.pending (runner w3) = []).
  { unfold idle in Hi. now rewrite Hr3, Hr2, Hr1. }
  assert (Hclock : TaskRunner.clock (runner w3) = TaskRunner.clock (runner w))
    by now rewrite Hr3, Hr2, Hr1.
  assert (Hclock2 : TaskRunner.clock (runner w2) = TaskRunner.clock (runner w))
    by now rewrite Hr2, Hr1.
  exists (mkWeakPtr f 0).
  unfold NetworkImpl.expire_or_retry, Now. unfold bind at 1. cbn [get].
  rewrite Hclock2.
  destruct (until <=? TaskRunner.clock (runner w)).
  - unfold NetworkImpl.post_NotifyNetworkChanged. unfold bind at 1. rewrite E3.
    cbn [PostDelayedTask modify]. eexists. exists pid2, pre.
    split; [reflexivity|].
    cbn [runner set_runner TaskRunner.PostDelayedTask TaskRunner.clock
         TaskRunner.pending env net trace].
    rewrite Hi3, Hclock. cbn [TaskRunner.enqueue].
    repeat split; auto; try congruence.
  - unfold bind at 1. rewrite E3.
    cbn [PostDelayedTask modify]. eexists. exists pid2, pre.
    split; [reflexivity|].
    cbn [runner set_runner TaskRunner.PostDelayedTask TaskRunner.clock
         TaskRunner.pending env net trace].
    rewrite Hi3, Hclock. cbn [TaskRunner.enqueue].
    repeat split; auto; try congruence.
Qed.

Lemma step_single (w : World) due t :
  TaskRunner.pending (runner w) = [(due, t)] ->
  step w = Some (run_task t (dispatched due w)).
Proof. intros H. unfold step, TaskRunner.dispatch. now rewrite H. Qed.

Lemma attempt_expires ssid passphrase until on_success (n : nat) :
  forall (w : World) pid,
    never_matches (env w) ssid -> net_bound w = true -> idle w ->
    until - TaskRunner.clock (runner w) < Z.of_nat n * 1000000 ->
    exists w1 fuel w' pre,
      NetworkImpl.TryToConnect ssid passphrase pid until on_success w = Ok tt w1
      /\ run fuel w1 = Ok tt w'
      /\ idle w'
      /\ trace w'
         = trace w ++ pre
           ++ map (fun cb => EvListener cb false)
                  (NetworkImplState.callbacks_ (net w))
      /\ Forall is_fork pre
      /\ until <= TaskRunner.clock (runner w').
Proof.
  induction n as [|n IH]; intros w pid Hnm Hb Hi Hlt;
    destruct (TryToConnect_step w ssid passphrase pid until on_success Hnm Hb Hi)
      as (wp & w1 & pid' & pre & E & Hv & Hb1 & He & Hc & Ht & Hpre & Hck & Hp);
    destruct (Z.leb_spec until (TaskRunner.clock (runner w))) as [Hle|Hgt];
    try lia.
  1,2: exists w1, 1%nat; eexists; exists pre;
    (split; [exact E|]); cbn [run]; rewrite (step_single _ _ _ Hp);
    cbn [run_task]; unfold when_valid, bind, get;
    change (IsValid wp (dispatched _ w1)) with (IsValid wp w1); rewrite Hv;
    rewrite NotifyNetworkChanged_spec;
    (split; [reflexivity|]);
    cbn [trace set_trace dispatched set_queries set_runner net runner
         TaskRunner.clock];
    rewrite Hc, Ht, <- app_assoc;
    repeat split; auto; lia.
  set (w2 := dispatched (TaskRunner.clock (runner w) + TimeDelta.FromSeconds 1) w1).
  destruct (IH w2 pid') as (w3 & fuel & w' & pre' & E' & Hrun & Hi' & Ht' & Hpre' & Hu).
  - change (env w2) with (env w1). now rewrite He.
  - exact Hb1.
  - reflexivity.
  - subst w2. cbn [dispatched runner set_queries set_runner TaskRunner.clock].
    unfold TimeDelta.FromSeconds. lia.
  - exists w1, (S fuel), w', (pre ++ pre').
    split; [exact E|]. cbn [run]. rewrite (step_single _ _ _ Hp).
    cbn [run_task]. unfold when_valid. unfold bind at 1. unfold get.
    change (IsValid wp (dispatched _ w1)) with (IsValid wp w1). rewrite Hv.
    fold w2. rewrite E'. split; [exact Hrun|].
    split; [exact Hi'|]. split.
    + rewrite Ht'. change (trace w2) with (trace w1).
      change (net w2) with (net w1). rewrite Ht, Hc, <- !app_assoc. reflexivity.
    + split; [apply Forall_app; auto|exact Hu].
Qed.

(** C4: a connect attempt whose ssid the operating system never reports
    ends by itself.  The attempt is [TryToConnect] with a deadline one minute
    from now, as [ConnectToService] calls it (with no process yet, [pid = 0];
    the same holds with a process under way).  The call returns; the run loop
    then comes to rest, not before the deadline; on the way only join
    commands are started; no [CHECK] fails; [on_success] is never run; and at
    the end every listener is notified once, with [false]. *)
Theorem connect_attempt_expires_silently (w : World) (ssid passphrase : string)
    (pid : Z) (on_success : Closure) :
  idle w ->
  net_bound w = true ->
  never_matches (env w) ssid ->
  let until := TaskRunner.clock (runner w) + TimeDelta.FromMinutes 1 in
  exists w1 fuel w' pre,
    NetworkImpl.TryToConnect ssid passphrase pid until on_success w = Ok tt w1
    /\ run fuel w1 = Ok tt w'
    /\ idle w'
    /\ trace w'
       = trace w ++ pre
         ++ map (fun cb => EvListener cb false)
                (NetworkImplState.callbacks_ (net w))
    /\ Forall is_fork pre
    /\ until <= TaskRunner.clock (runner w').
Proof.
  intros Hi Hb Hnm until.
  apply (attempt_expires ssid passphrase until on_success 61 w pid Hnm Hb Hi).
  subst until. unfold TimeDelta.FromMinutes. lia.
Qed.

Lemma connect_attempt_expires_silently_witness :
  exists w1 fuel w' pre,
    NetworkImpl.TryToConnect "home" "secret" 0 60000000 (Plain 1%nat)
      Scenario.listening
    = Ok tt w1
    /\ run fuel w1 = Ok tt w'
    /\ idle w'
    /\ trace w' = pre ++ [EvListener 5%nat false; EvListener 6%nat false]
    /\ Forall is_fork pre
    /\ 60000000 <= TaskRunner.clock (runner w').
Proof.
  destruct (connect_attempt_expires_silently Scenario.listening
              "home" "secret" 0 (Plain 1%nat))
    as (w1 & fuel & w' & pre & E & Hrun & Hi & Ht & Hpre & Hu).
  - reflexivity.
  - reflexivity.
  - intros n. cbn. repeat split; try lia; discriminate.
  - exists w1, fuel, w', pre. repeat split; auto.
Defined.

(** ** StreamCopier over MemoryStreams *)

Module CopierFacts.
Import Streams.
Import StreamCopierState.
Import CopierSpec.

Lemma chunks_upto_enough (B : nat) :
  (0 < B)%nat ->
  forall n data, (length data <= n)%nat ->
    chunks_upto n B data = chunks B data.
Proof.
  intros HB. unfold chunks.
  induction n as [n IH] using lt_wf_ind. intros data Hn.
  destruct data as [|b data]; [now destruct n|].
  destruct n as [|n]; [cbn in Hn; lia|].
  cbn [chunks_upto length]. f_equal.
  assert (Hd : (length (drop B (b :: data)) <= length data)%nat).
  { rewrite length_drop. cbn. lia. }
  rewrite (IH n) by (lia || (etransitivity; [exact Hd|cbn in Hn; lia])).
  symmetry. apply (IH (length data)); [cbn in Hn; lia|exact Hd].
Qed.

Lemma chunks_nil (B : nat) : chunks B [] = [].
Proof. reflexivity. Qed.

Lemma chunks_cons (B : nat) (data : list Byte.byte) :
  (0 < B)%nat -> data <> [] ->
  chunks B data = take B data :: chunks B (drop B data).
Proof.
  intros HB Hne. destruct data as [|b data]; [congruence|].
  unfold chunks at 1. cbn [length chunks_upto]. f_equal.
  apply chunks_upto_enough; auto. rewrite length_drop. cbn. lia.
Qed.

(** The number of non-empty reads: the length of the source divided by the
    size of the buffer, rounded up. *)
Lemma chunks_length (B : nat) :
  (0 < B)%nat ->
  forall data, length (chunks B data) = ((length data + B - 1) / B)%nat.
Proof.
  intros HB data.
  remember (length data) as n eqn:Hn. revert data Hn.
  induction n as [n IH] using lt_wf_ind. intros data Hn.
  destruct data as [|b data].
  - cbn in Hn. subst n. cbn [chunks chunks_upto length].
    symmetry. apply Nat.div_small. lia.
  - rewrite chunks_cons by (auto; discriminate). cbn [length].
    rewrite (IH (length (drop B (b :: data)))); [|rewrite length_drop; cbn in *; lia|reflexivity].
    rewrite length_drop, <- Hn.
    destruct (Nat.le_gt_cases n B) as [Hle|Hgt].
    + replace (n - B)%nat with 0%nat by lia.
      rewrite (Nat.div_small (0 + B - 1)) by lia.
      assert (Hn0 : (0 < n)%nat) by (subst n; cbn; lia).
      replace (n + B - 1)%nat with (n - 1 + 1 * B)%nat by lia.
      rewrite Nat.div_add by lia. rewrite Nat.div_small by lia. reflexivity.
    + replace (n + B - 1)%nat with (n - B + B - 1 + 1 * B)%nat by lia.
      rewrite Nat.div_add by lia. lia.
Qed.

Lemma chunks_nonempty (B : nat) :
  (0 < B)%nat -> forall data, Forall (fun c => c <> []) (chunks B data).
Proof.
  intros HB data.
  remember (length data) as n eqn:Hn. revert data Hn.
  induction n as [n IH] using lt_wf_ind. intros data Hn.
  destruct data as [|b data]; [constructor|].
  rewrite chunks_cons by (auto; discriminate). constructor.
  - destruct B; [lia|discriminate].
  - apply (IH (length (drop B (b :: data)))); [|reflexivity].
    rewrite length_drop. cbn in *. lia.
Qed.

Lemma size_t_small (z : Z) : 0 <= z < 2 ^ 64 -> size_t z = z.
Proof. intros H. unfold size_t. now apply Z.mod_small. Qed.

Lemma GetWeakPtr_spec (w : World) :
  match weak_ptr_factory_ (copier w) with
  | Some f => IsValid f w = true
  | None => True
  end ->
  exists f w',
    StreamCopier.GetWeakPtr w = Ok f w'
    /\ IsValid f w' = true
    /\ weak_ptr_factory_ (copier w') = Some f
    /\ same_copy w w'.
Proof.
  intros Hf. unfold StreamCopier.GetWeakPtr, bind, get.
  destruct (weak_ptr_factory_ (copier w)) as [f|] eqn:E.
  - exists f, w. repeat split; auto.
  - exists (length (flags w)). eexists. split; [reflexivity|].
    unfold IsValid; cbn. rewrite lookup_app_r by lia.
    rewrite Nat.sub_diag. repeat split.
Qed.

Lemma slice_rest (done rest : list Byte.byte) (n : nat) :
  slice (done ++ rest) (Z.of_nat (length done)) (Z.of_nat n) = take n rest.
Proof.
  unfold slice. rewrite !Nat2Z.id. now rewrite drop_app_length.
Qed.

Lemma take_length_min (B : nat) (l : list Byte.byte) :
  Z.min (Z.of_nat B) (Z.of_nat (length l)) = Z.of_nat (length (take B l)).
Proof. rewrite length_take. lia. Qed.

Lemma take_chunk (n : nat) (l : list Byte.byte) :
  take (length (take n l)) l = take n l.
Proof.
  rewrite length_take. destruct (Nat.le_gt_cases n (length l)).
  - now rewrite Nat.min_l by lia.
  - rewrite Nat.min_r by lia. now rewrite !take_ge by lia.
Qed.

Lemma Read_spec (w : World) src done rest cb ec :
  streams w !! src
  = Some (MemoryStreamState.mk (done ++ rest) (Z.of_nat (length done))) ->
  Z.of_nat (length (done ++ rest)) < 2 ^ 64 ->
  Z.of_nat (length (buffer_ (copier w))) < 2 ^ 64 ->
  let chunk := take (length (buffer_ (copier w))) rest in
  exists w',
    MemoryStream.Read src 0 (size_t (Z.of_nat (length (buffer_ (copier w)))))
      cb ec w = Ok tt w'
    /\ TaskRunner.pending (runner w')
       = TaskRunner.enqueue (TaskRunner.clock (runner w) + TimeDelta.Zero)
           (RunRead cb (Z.of_nat (length chunk)))
           (TaskRunner.pending (runner w))
    /\ trace w' = trace w ++ [EvRead src chunk]
    /\ flags w' = flags w
    /\ streams w'
       = <[src := MemoryStreamState.mk (done ++ rest)
                    (Z.of_nat (length (done ++ chunk)))]> (streams w)
    /\ buffer_ (copier w') = chunk ++ drop (length chunk) (buffer_ (copier w))
    /\ source_ (copier w') = source_ (copier w)
    /\ destination_ (copier w') = destination_ (copier w)
    /\ size_done_ (copier w') = size_done_ (copier w)
    /\ weak_ptr_factory_ (copier w') = weak_ptr_factory_ (copier w).
Proof.
  intros Hsrc Hsize HB chunk.
  assert (Hsr : Z.min (size_t (Z.of_nat (length (buffer_ (copier w)))))
                  (size_t (Z.of_nat (length (done ++ rest))
                           - Z.of_nat (length done)))
                = Z.of_nat (length chunk)).
  { rewrite !size_t_small by (rewrite ?length_app in *; lia).
    rewrite length_app.
    replace (Z.of_nat (length done + length rest) - Z.of_nat (length done))
      with (Z.of_nat (length rest)) by lia.
    apply take_length_min. }
  unfold MemoryStream.Read, bind, MemoryStream.this_. rewrite Hsrc.
  cbn [MemoryStreamState.data_ MemoryStreamState.read_position_].
  replace (Z.of_nat (length done) <=? Z.of_nat (length (done ++ rest)))
    with true by (symmetry; apply Z.leb_le; rewrite length_app; lia).
  cbn [CHECK ret]. rewrite Hsr, slice_rest.
  assert (Htc : take (length chunk) rest = chunk) by apply take_chunk.
  rewrite !Htc.
  assert (Hlen : (length chunk <= length rest)%nat)
    by (subst chunk; rewrite length_take; lia).
  rewrite size_t_small by (rewrite length_app in *; lia).
  replace (Z.of_nat (length done) + Z.of_nat (length chunk))
    with (Z.of_nat (length (done ++ chunk))) by (rewrite length_app; lia).
  destruct (0 <? Z.of_nat (length chunk)) eqn:Hpos.
  - eexists. split; [reflexivity|]. cbn. repeat split.
  - assert (Hnil : chunk = []).
    { apply Z.ltb_ge in Hpos. destruct chunk; [reflexivity|cbn in Hpos; lia]. }
    eexists. split; [reflexivity|]. cbn. rewrite Hnil. repeat split.
Qed.

Lemma Write_spec (w : World) dst md chunk tail cb ec :
  streams w !! dst = Some md ->
  buffer_ (copier w) = chunk ++ tail ->
  exists w',
    MemoryStream.Write dst 0 (Z.of_nat (length chunk)) cb ec w = Ok tt w'
    /\ TaskRunner.pending (runner w')
       = TaskRunner.enqueue (TaskRunner.clock (runner w) + TimeDelta.Zero)
           (RunSuccess cb) (TaskRunner.pending (runner w))
    /\ trace w' = trace w ++ [EvWrite dst chunk]
    /\ flags w' = flags w
    /\ streams w'
       = <[dst := MemoryStreamState.mk (MemoryStreamState.data_ md ++ chunk)
                    (MemoryStreamState.read_position_ md)]> (streams w)
    /\ copier w' = copier w.
Proof.
  intros Hdst Hbuf. unfold MemoryStream.Write, bind, MemoryStream.this_, get.
  rewrite Hdst, Hbuf. unfold slice. rewrite Nat2Z.id.
  change (Z.to_nat 0) with 0%nat. rewrite drop_0, take_app_length. eexists. split; [reflexivity|]. cbn. repeat split.
Qed.

Lemma copier_step_single (w : World) due t :
  TaskRunner.pending (runner w) = [(due, t)] ->
  step w = Some (run_task t (popped due w)).
Proof. intros H. unfold step, TaskRunner.dispatch. now rewrite H. Qed.

Lemma when_valid_true (wp : nat) (m : Prog unit) (w : World) :
  IsValid wp w = true -> when_valid (IsValid wp) m w = m w.
Proof. intros H. unfold when_valid, bind, get. now rewrite H. Qed.

Lemma GetWeakPtr_some (w : World) f :
  weak_ptr_factory_ (copier w) = Some f ->
  StreamCopier.GetWeakPtr w = Ok f w.
Proof. intros H. unfold StreamCopier.GetWeakPtr, bind, get. now rewrite H. Qed.

(** One round of a copy: a non-empty read, its write, and the world in
    which [Copy] is entered again. *)
Lemma round (w : World) src dst done rest sc ec :
  copying src dst done rest w -> rest <> [] ->
  let B := length (buffer_ (copier w)) in
  let chunk := take B rest in
  exists w1 w3,
    StreamCopier.Copy sc ec w = Ok tt w1
    /\ (forall fuel,
          run (S (S fuel)) w1
          = match StreamCopier.Copy sc ec w3 with
            | Ok _ w4 => run fuel w4
            | o => o
            end)
    /\ copying src dst (done ++ chunk) (drop B rest) w3
    /\ trace w3 = trace w ++ [EvRead src chunk; EvWrite dst chunk]
    /\ (forall md, streams w !! dst = Some md ->
          exists md', streams w3 !! dst = Some md'
            /\ MemoryStreamState.data_ md' = MemoryStreamState.data_ md ++ chunk)
    /\ size_done_ (copier w3) = size_done_ (copier w) + Z.of_nat (length chunk)
    /\ length (buffer_ (copier w3)) = B.
Proof.
  intros [Hidle Hsrc_ Hdst_ Hne Hsrc [md Hdst] [HB0 HB] Hsize [Hd0 Hd] Hfac] Hrest
         B chunk.
  unfold idle in Hidle.
  assert (Hchunk : (0 < length chunk <= B)%nat /\ (length chunk <= length rest)%nat).
  { subst chunk. rewrite length_take. destruct rest; [congruence|]. cbn. lia. }
  destruct (GetWeakPtr_spec w Hfac)
    as (f & w0 & E0 & Hv0 & Hf0 & Hr0 & Ht0 & Hs0 & Hso0 & Hde0 & Hb0 & Hsd0).
  destruct (Read_spec w0 src done rest (Bind_OnSuccessRead f sc ec) ec)
    as (w1 & E1 & Hp1 & Ht1 & Hfl1 & Hs1 & Hb1 & Hso1 & Hde1 & Hsd1 & Hf1);
    try (rewrite ?Hs0, ?Hb0; assumption).
  rewrite Hb0 in *. fold B in E1, Hp1, Ht1, Hs1, Hb1. fold chunk in Hp1, Ht1, Hs1, Hb1.
  rewrite Hr0, Hidle in Hp1. cbn [TaskRunner.enqueue] in Hp1.
  (* the task posted by the read *)
  set (w1' := popped (TaskRunner.clock (runner w) + TimeDelta.Zero) w1).
  assert (Hv1 : IsValid f w1' = true).
  { unfold IsValid in *. cbn. now rewrite Hfl1. }
  set (w1s := set_copier
                (mk (source_ (copier w1')) (destination_ (copier w1'))
                    (buffer_ (copier w1'))
                    (size_t (size_done_ (copier w1') + Z.of_nat (length chunk)))
                    (weak_ptr_factory_ (copier w1'))) w1').
  destruct (Write_spec w1s dst md chunk (drop (length chunk) (buffer_ (copier w)))
              (Bind_Copy f sc ec) ec)
    as (w2 & E2 & Hp2 & Ht2 & Hfl2 & Hs2 & Hc2).
  { subst w1s w1'. cbn. rewrite Hs1, Hs0. now rewrite list_lookup_insert_ne. }
  { subst w1s w1'. cbn. exact Hb1. }
  assert (Hstep1 : step w1 = Some (Ok tt w2)).
  { rewrite (copier_step_single _ _ _ Hp1). fold w1'. cbn [run_task Run_read].
    rewrite when_valid_true by exact Hv1.
    unfold StreamCopier.OnSuccessRead. unfold bind at 1. cbn [modify].
    fold w1s.
    replace (negb (Z.of_nat (length chunk) =? 0)) with true
      by (symmetry; apply negb_true_iff, Z.eqb_neq; lia).
    unfold bind at 1. cbn [get]. unfold bind at 1.
    rewrite (GetWeakPtr_some w1s f)
      by (subst w1s w1'; cbn; now rewrite Hf1).
    replace (destination_ (copier w1s)) with dst
      by (subst w1s w1'; cbn; congruence).
    now rewrite E2. }
  set (w3 := popped (TaskRunner.clock (runner w1s) + TimeDelta.Zero) w2).
  assert (Hp2' : TaskRunner.pending (runner w2)
                 = [(TaskRunner.clock (runner w1s) + TimeDelta.Zero,
                     RunSuccess (Bind_Copy f sc ec))]).
  { rewrite Hp2. subst w1s w1'. reflexivity. }
  assert (Hv3 : IsValid f w3 = true).
  { unfold IsValid in *. subst w3. cbn. rewrite Hfl2. exact Hv1. }
  exists w1, w3. split; [|split].
  - unfold StreamCopier.Copy. unfold bind at 1. cbn [get]. unfold bind at 1.
    rewrite E0. rewrite Hsrc_. exact E1.
  - intros fuel. cbn [run]. rewrite Hstep1.
    rewrite (copier_step_single _ _ _ Hp2'). fold w3. cbn [run_task Run_success].
    rewrite when_valid_true by exact Hv3.
    now destruct (StreamCopier.Copy sc ec w3) as [[]| | |].
  - assert (Hcop : copier w3 = copier w1s) by (subst w3; cbn; exact Hc2).
    assert (Hstr : streams w3
                   = <[dst := MemoryStreamState.mk
                                (MemoryStreamState.data_ md ++ chunk)
                                (MemoryStreamState.read_position_ md)]>
                       (<[src := MemoryStreamState.mk (done ++ rest)
                                   (Z.of_nat (length (done ++ chunk)))]>
                          (streams w))).
    { subst w3. cbn. rewrite Hs2. subst w1s w1'. cbn. now rewrite Hs1, Hs0. }
    assert (Hsd3 : size_done_ (copier w3)
                   = size_done_ (copier w) + Z.of_nat (length chunk)).
    { rewrite Hcop. subst w1s w1'. cbn. rewrite Hsd1, Hsd0.
      apply size_t_small. lia. }
    assert (Hbuf3 : buffer_ (copier w3)
                    = chunk ++ drop (length chunk) (buffer_ (copier w))).
    { rewrite Hcop. subst w1s w1'. cbn. exact Hb1. }
    assert (Hlen3 : length (buffer_ (copier w3)) = B).
    { rewrite Hbuf3, length_app, length_drop. fold B. lia. }
    assert (Hsplit : chunk ++ drop B rest = rest) by apply take_drop.
    split; [|split; [|split; [|split]]].
    + constructor.
      * reflexivity.
      * rewrite Hcop. subst w1s w1'. cbn. congruence.
      * rewrite Hcop. subst w1s w1'. cbn. congruence.
      * exact Hne.
      * rewrite Hstr. rewrite list_lookup_insert_ne by auto.
        rewrite list_lookup_insert_eq by (eapply lookup_lt_Some; eauto).
        now rewrite <- app_assoc, Hsplit.
      * rewrite Hstr. rewrite list_lookup_insert_eq; [eauto|].
        rewrite length_insert. eapply lookup_lt_Some; eauto.
      * rewrite Hlen3. fold B in HB0, HB. auto.
      * now rewrite <- app_assoc, Hsplit.
      * rewrite Hsd3. rewrite <- Hsplit, length_app in Hd. lia.
      * rewrite Hcop. subst w1s w1'. cbn. rewrite Hf1, Hf0. exact Hv3.
    + subst w3. cbn. rewrite Ht2. subst w1s w1'. cbn.
      rewrite Ht1, Ht0, <- app_assoc. reflexivity.
    + intros md0 Hmd0. rewrite Hdst in Hmd0. injection Hmd0 as <-.
      rewrite Hstr. rewrite list_lookup_insert_eq; [eauto|].
      rewrite length_insert. eapply lookup_lt_Some; eauto.
    + exact Hsd3.
    + exact Hlen3.
Qed.

(** The last round: the read of nothing, and the client's callback. *)
Lemma last_round (w : World) src dst done cb ec :
  copying src dst done [] w ->
  exists w1 w',
    StreamCopier.Copy (ClientRead cb) ec w = Ok tt w1
    /\ run 1 w1 = Ok tt w'
    /\ idle w'
    /\ trace w'
       = trace w ++ [EvRead src []; EvReadSuccess cb (size_done_ (copier w))]
    /\ streams w' !! dst = streams w !! dst.
Proof.
  intros [Hidle Hsrc_ Hdst_ Hne Hsrc [md Hdst] [HB0 HB] Hsize [Hd0 Hd] Hfac].
  unfold idle in Hidle.
  destruct (GetWeakPtr_spec w Hfac)
    as (f & w0 & E0 & Hv0 & Hf0 & Hr0 & Ht0 & Hs0 & Hso0 & Hde0 & Hb0 & Hsd0).
  destruct (Read_spec w0 src done [] (Bind_OnSuccessRead f (ClientRead cb) ec) ec)
    as (w1 & E1 & Hp1 & Ht1 & Hfl1 & Hs1 & Hb1 & Hso1 & Hde1 & Hsd1 & Hf1);
    try (rewrite ?Hs0, ?Hb0; assumption).
  rewrite Hb0 in *. rewrite take_nil in *. cbn [length Z.of_nat] in *.
  rewrite Hr0, Hidle in Hp1. cbn [TaskRunner.enqueue] in Hp1.
  set (w1' := popped (TaskRunner.clock (runner w) + TimeDelta.Zero) w1).
  assert (Hv1 : IsValid f w1' = true).
  { unfold IsValid in *. cbn. now rewrite Hfl1. }
  exists w1. eexists. split; [|split].
  - unfold StreamCopier.Copy. unfold bind at 1. cbn [get]. unfold bind at 1.
    rewrite E0. rewrite Hsrc_. exact E1.
  - cbn [run]. rewrite (copier_step_single _ _ _ Hp1). fold w1'.
    cbn [run_task Run_read]. rewrite when_valid_true by exact Hv1.
    unfold StreamCopier.OnSuccessRead. unfold bind at 1. cbn [modify].
    cbn [Z.eqb negb]. unfold bind at 1. cbn [get emit modify]. reflexivity.
  - cbn. split; [reflexivity|]. split.
    + rewrite Ht1, Ht0, <- app_assoc. cbn [app].
      rewrite Hsd1, Hsd0, Z.add_0_r. rewrite size_t_small by lia. reflexivity.
    + rewrite Hs1, Hs0. now apply list_lookup_insert_ne.
Qed.

Lemma copy_all src dst cb ec (n : nat) :
  forall (w : World) done rest,
    (length rest <= n)%nat ->
    copying src dst done rest w ->
    exists w1 fuel w',
      StreamCopier.Copy (ClientRead cb) ec w = Ok tt w1
      /\ run fuel w1 = Ok tt w'
      /\ idle w'
      /\ trace w'
         = trace w
           ++ flat_map (fun c => [EvRead src c; EvWrite dst c])
                       (chunks (length (buffer_ (copier w))) rest)
           ++ [EvRead src [];
               EvReadSuccess cb (size_done_ (copier w) + Z.of_nat (length rest))]
      /\ forall md, streams w !! dst = Some md ->
           exists md', streams w' !! dst = Some md'
             /\ MemoryStreamState.data_ md' = MemoryStreamState.data_ md ++ rest.
Proof.
  induction n as [|n IH]; intros w done rest Hn Hc.
  - destruct rest; [|cbn in Hn; lia].
    destruct (last_round w src dst done cb ec Hc) as (w1 & w' & E & Hrun & Hi & Ht & Hs).
    exists w1, 1%nat, w'. rewrite chunks_nil. cbn [flat_map app length Z.of_nat].
    rewrite Z.add_0_r. repeat split; auto.
    intros md Hmd. exists md. rewrite Hs, app_nil_r. auto.
  - assert (Hcase : rest = [] \/ rest <> [])
      by (destruct rest; [now left|now right]).
    destruct Hcase as [->|Hne].
    { apply (IH w done []); [cbn; lia|exact Hc]. }
    destruct (round w src dst done rest (ClientRead cb) ec Hc Hne)
      as (w1 & w3 & E & Hrun & Hc3 & Ht3 & Hd3 & Hsd3 & Hb3).
    assert (Hn3 : (length (drop (length (buffer_ (copier w))) rest) <= n)%nat).
    { rewrite length_drop. destruct (c_buffer _ _ _ _ _ Hc).
      destruct rest; [congruence|]. cbn in *. lia. }
    destruct (IH w3 _ _ Hn3 Hc3)
      as (w4 & fuel & w' & E4 & Hrun4 & Hi & Ht & Hd).
    exists w1, (S (S fuel)), w'. split; [exact E|]. split.
    { rewrite Hrun, E4. exact Hrun4. }
    split; [exact Hi|]. split.
    + rewrite Ht, Ht3, Hb3, Hsd3.
      rewrite (chunks_cons _ rest) by (destruct (c_buffer _ _ _ _ _ Hc); auto).
      cbn [flat_map]. rewrite <- !app_assoc. cbn [app].
      replace (size_done_ (copier w)
               + Z.of_nat (length (take (length (buffer_ (copier w))) rest))
               + Z.of_nat (length (drop (length (buffer_ (copier w))) rest)))
        with (size_done_ (copier w) + Z.of_nat (length rest));
        [reflexivity|].
      rewrite length_drop, length_take. lia.
    + intros md Hmd. destruct (Hd3 md Hmd) as (md3 & Hmd3 & Hdata3).
      destruct (Hd md3 Hmd3) as (md' & Hmd' & Hdata').
      exists md'. split; [exact Hmd'|].
      now rewrite Hdata', Hdata3, <- app_assoc, take_drop.
Qed.

Lemma chunks_concat (B : nat) :
  (0 < B)%nat -> forall data, concat (chunks B data) = data.
Proof.
  intros HB data.
  remember (length data) as n eqn:Hn. revert data Hn.
  induction n as [n IH] using lt_wf_ind. intros data Hn.
  destruct data as [|b data]; [reflexivity|].
  rewrite chunks_cons by (auto; discriminate). cbn [concat].
  rewrite (IH (length (drop B (b :: data)))); [apply take_drop| |reflexivity].
  rewrite length_drop. cbn in *. lia.
Qed.

(** C6: copying a memory stream of [N] bytes that has not been read from,
    through a copier with a scratch buffer of [B] bytes, into another
    stream.  The job runs to the end; what happens, in order, is: for each
    of the ceil(N/B) non-empty pieces of the source, one read of that piece
    followed by the write of the same bytes to the destination; then one
    read of nothing; then the client's callback with [N].  The destination
    has grown by the source's bytes. *)
Theorem copy_reads_in_chunks (w : World) (src dst : nat)
    (data : list Byte.byte) (md : MemoryStreamState.t)
    (cb : Callback) (ec : ErrorCallback) :
  idle w ->
  source_ (copier w) = src ->
  destination_ (copier w) = dst ->
  src <> dst ->
  streams w !! src = Some (MemoryStream.constructor data) ->
  streams w !! dst = Some md ->
  size_done_ (copier w) = 0 ->
  weak_ptr_factory_ (copier w) = None ->
  let B := length (buffer_ (copier w)) in
  let N := length data in
  (0 < B)%nat -> Z.of_nat B < 2 ^ 64 -> Z.of_nat N < 2 ^ 64 ->
  exists w1 fuel w' md',
    StreamCopier.Copy (ClientRead cb) ec w = Ok tt w1
    /\ run fuel w1 = Ok tt w'
    /\ idle w'
    /\ trace w'
       = trace w
         ++ flat_map (fun c => [EvRead src c; EvWrite dst c]) (chunks B data)
         ++ [EvRead src []; EvReadSuccess cb (Z.of_nat N)]
    /\ length (chunks B data) = ((N + B - 1) / B)%nat
    /\ Forall (fun c => c <> []) (chunks B data)
    /\ concat (chunks B data) = data
    /\ streams w' !! dst = Some md'
    /\ MemoryStreamState.data_ md' = MemoryStreamState.data_ md ++ data.
Proof.
  intros Hi Hs Hd Hne Hsrc Hdst Hdone Hfac B N HB0 HB HN.
  assert (Hc : copying src dst [] data w).
  { constructor; auto;
      try (now rewrite Hfac); try (rewrite Hdone; fold N; lia). }
  destruct (copy_all src dst cb ec N w [] data (le_n _) Hc)
    as (w1 & fuel & w' & E & Hrun & Hi' & Ht & Hdd).
  destruct (Hdd md Hdst) as (md' & Hmd' & Hdata).
  exists w1, fuel, w', md'. rewrite Hdone, Z.add_0_l in Ht.
  repeat split; auto.
  - now apply chunks_length.
  - now apply chunks_nonempty.
  - now apply chunks_concat.
Qed.
End CopierFacts.

Lemma copy_reads_in_chunks_witness :
  exists w1 fuel w',
    Streams.StreamCopier.Copy (Streams.ClientRead 7%nat) (Streams.ClientError 8%nat)
      Scenario.copy_job
    = Ok tt w1
    /\ Streams.run fuel w1 = Ok tt w'
    /\ Streams.idle w'
    /\ length (Streams.chunks 4096 Scenario.source) = 2%nat.
Proof.
  destruct (CopierFacts.copy_reads_in_chunks Scenario.copy_job 0 1
              Scenario.source (Streams.MemoryStream.constructor [])
              7%nat (Streams.ClientError 8%nat))
    as (w1 & fuel & w' & md' & E & Hrun & Hi & _ & Hlen & _);
    try reflexivity.
  - discriminate.
  - vm_compute. lia.
  - exists w1, fuel, w'. repeat split; auto.
Defined.

(** * Further properties *)

(** ** A connect attempt, step by step *)

Lemma step_cons (w : World) due t q :
  TaskRunner.pending (runner w) = (due, t) :: q ->
  step w
  = Some (run_task t
            (set_queries (S (queries w))
               (set_runner
                  (TaskRunner.mk
                     (Z.max (TaskRunner.clock (runner w)) due
                      + Z.max 0 (lateness (env w) (queries w))) q) w))).
Proof. intros H. unfold step, TaskRunner.dispatch. now rewrite H. Qed.

Lemma net_GetWeakPtr_eq (w : World) :
  NetworkImpl.GetWeakPtr w = Ok (net_ptr w) (with_net_flag w).
Proof.
  unfold NetworkImpl.GetWeakPtr, net_ptr, net_flag, with_net_flag, bind, get.
  destruct w as [e r q tr fl [hs cbs [f|]] ss]; reflexivity.
Qed.

Lemma post_NotifyNetworkChanged_eq (w : World) :
  NetworkImpl.post_NotifyNetworkChanged w
  = Ok tt (net_posted Net_NotifyNetworkChanged TimeDelta.Zero w).
Proof.
  unfold NetworkImpl.post_NotifyNetworkChanged, bind.
  now rewrite net_GetWeakPtr_eq.
Qed.

Lemma with_net_flag_valid (w : World) :
  net_bound w = true -> IsValid (net_ptr w) (with_net_flag w) = true.
Proof.
  unfold net_bound, IsValid, net_ptr, net_flag, with_net_flag.
  destruct (NetworkImplState.weak_ptr_factory_ (net w)) as [f|]; cbn; auto.
  intros _. rewrite lookup_app_r by lia. now rewrite Nat.sub_diag.
Qed.

Lemma expire_or_retry_eq (w : World) ssid passphrase pid until on_success :
  NetworkImpl.expire_or_retry ssid passphrase pid until on_success w
  = Ok tt
      (if until <=? TaskRunner.clock (runner w)
       then net_posted Net_NotifyNetworkChanged TimeDelta.Zero w
       else net_posted
              (fun wp => Net_TryToConnect wp ssid passphrase pid until on_success)
              (TimeDelta.FromSeconds 1) w).
Proof.
  unfold NetworkImpl.expire_or_retry, Now. unfold bind at 1. cbn [get].
  destruct (until <=? _).
  - apply post_NotifyNetworkChanged_eq.
  - unfold bind. now rewrite net_GetWeakPtr_eq.
Qed.

Lemma TryToConnect_running (w : World) ssid passphrase pid until on_success :
  pid <> 0 -> waitpid (env w) (queries w) <> pid ->
  NetworkImpl.TryToConnect ssid passphrase pid until on_success w
  = NetworkImpl.expire_or_retry ssid passphrase pid until on_success
      (set_queries (S (queries w)) w).
Proof.
  intros Hpid Hw. unfold NetworkImpl.TryToConnect, NetworkImpl.poll_join.
  apply Z.eqb_neq in Hpid. rewrite Hpid. cbn [negb].
  unfold bind at 1. unfold bind at 1. cbn [extern].
  assert (Hne : (pid =? waitpid (env w) (queries w)) = false)
    by (apply Z.eqb_neq; congruence).
  rewrite Hne. cbn [ret]. unfold NetworkImpl.join. rewrite Hpid.
  unfold bind at 1. reflexivity.
Qed.

Lemma TryToConnect_elsewhere (w : World) ssid passphrase pid until on_success :
  pid <> 0 -> waitpid (env w) (queries w) = pid ->
  0 <= socket (env w) (1 + queries w) ->
  0 <= fst (ioctl (env w) (2 + queries w)) ->
  snd (ioctl (env w) (2 + queries w)) <> ssid ->
  fork (env w) (3 + queries w) <> 0 ->
  NetworkImpl.TryToConnect ssid passphrase pid until on_success w
  = NetworkImpl.expire_or_retry ssid passphrase
      (fork (env w) (3 + queries w)) until on_success
      (asked 4 [nmcli_connect ssid passphrase] w).
Proof.
  intros Hpid Hw Hs Hio Hss Hf.
  unfold NetworkImpl.TryToConnect, NetworkImpl.poll_join.
  apply Z.eqb_neq in Hpid. rewrite Hpid. cbn [negb].
  unfold bind at 1. unfold bind at 1. cbn [extern]. rewrite Hw, Z.eqb_refl.
  unfold bind at 1. cbn [extern env queries set_queries].
  apply Z.leb_le in Hs, Hio. cbn [Nat.add] in *.
  rewrite Hs. cbn [CHECK]. unfold bind at 1. cbn [ret].
  unfold bind at 1. cbn [extern env queries set_queries]. rewrite Hio. cbn [CHECK].
  unfold bind at 1. cbn [ret]. cbv zeta.
  assert (Hne : String.eqb ssid (snd (ioctl (env w) (S (S (queries w))))) = false)
    by (apply String.eqb_neq; congruence).
  rewrite Hne. cbn [ret]. unfold NetworkImpl.join. cbn [Z.eqb].
  unfold ForkCmd. unfold bind at 1. unfold bind at 1. cbn [emit modify].
  unfold bind at 1. cbn [extern env queries set_queries set_trace].
  apply Z.eqb_neq in Hf. rewrite Hf. cbn [negb ret]. reflexivity.
Qed.

Lemma TryToConnect_matched (w : World) ssid passphrase pid until on_success :
  pid <> 0 -> waitpid (env w) (queries w) = pid ->
  0 <= socket (env w) (1 + queries w) ->
  0 <= fst (ioctl (env w) (2 + queries w)) ->
  snd (ioctl (env w) (2 + queries w)) = ssid ->
  NetworkImpl.TryToConnect ssid passphrase pid until on_success w
  = Ok tt
      (set_runner
         (TaskRunner.PostDelayedTask (Run on_success) TimeDelta.Zero
            (TaskRunner.PostDelayedTask (Net_NotifyNetworkChanged (net_ptr w))
               TimeDelta.Zero (runner w)))
         (with_net_flag (set_queries (3 + queries w) w))).
Proof.
  intros Hpid Hw Hs Hio Hss.
  unfold NetworkImpl.TryToConnect, NetworkImpl.poll_join.
  apply Z.eqb_neq in Hpid. rewrite Hpid. cbn [negb].
  unfold bind at 1. unfold bind at 1. cbn [extern]. rewrite Hw, Z.eqb_refl.
  unfold bind at 1. cbn [extern env queries set_queries].
  apply Z.leb_le in Hs, Hio. cbn [Nat.add] in *.
  rewrite Hs. cbn [CHECK]. unfold bind at 1. cbn [ret].
  unfold bind at 1. cbn [extern env queries set_queries]. rewrite Hio. cbn [CHECK].
  unfold bind at 1. cbn [ret]. cbv zeta. rewrite Hss, String.eqb_refl.
  unfold bind at 1. rewrite post_NotifyNetworkChanged_eq. reflexivity.
Qed.

Lemma TryToConnect_start (w : World) ssid passphrase until on_success :
  fork (env w) (queries w) <> 0 ->
  TaskRunner.clock (runner w) < until ->
  NetworkImpl.TryToConnect ssid passphrase 0 until on_success w
  = Ok tt
      (net_posted
         (fun wp =>
            Net_TryToConnect wp ssid passphrase (fork (env w) (queries w))
              until on_success)
         (TimeDelta.FromSeconds 1)
         (asked 1 [nmcli_connect ssid passphrase] w)).
Proof.
  intros Hf Hu. unfold NetworkImpl.TryToConnect. unfold bind at 1.
  cbn [NetworkImpl.poll_join Z.eqb negb ret NetworkImpl.join].
  unfold bind at 1. unfold ForkCmd. unfold bind at 1. cbn [emit modify].
  unfold bind at 1. cbn [extern env queries set_queries set_trace].
  apply Z.eqb_neq in Hf. rewrite Hf. cbn [negb ret].
  rewrite expire_or_retry_eq.
  cbn [runner set_queries set_trace TaskRunner.clock].
  replace (_ <=? _) with false; [reflexivity|].
  symmetry. apply Z.leb_gt. exact Hu.
Qed.

Lemma ConnectToService_eq (w : World) ssid passphrase on_success error :
  NetworkImplState.hostapd_started_ (net w) = false ->
  fork (env w) (queries w) <> 0 ->
  NetworkImpl.ConnectToService ssid passphrase on_success error w
  = Undefined
      (net_posted
         (fun wp =>
            Net_TryToConnect wp ssid passphrase (fork (env w) (queries w))
              (TaskRunner.clock (runner w) + TimeDelta.FromMinutes 1) on_success)
         (TimeDelta.FromSeconds 1)
         (asked 1 [nmcli_connect ssid passphrase] w)).
Proof.
  intros Hs Hf. unfold NetworkImpl.ConnectToService, Now.
  unfold bind at 1. cbn [get]. rewrite Hs. cbn [negb CHECK].
  unfold bind at 1. cbn [ret]. unfold bind at 1. cbn [get].
  unfold bind at 1. rewrite TryToConnect_start; [reflexivity|exact Hf|].
  unfold TimeDelta.FromMinutes. lia.
Qed.

(** X1: without the access point, [ConnectToService] starts an attempt and
    then has nothing to return.  Whatever is already pending (an earlier
    attempt included), it passes its [CHECK] and calls [TryToConnect] with
    no process yet and a deadline one minute from now; that call starts one
    join command, carrying the ssid and the passphrase, posts the first poll
    for one second later, and returns.  Behind it control flows off the end
    of [ConnectToService]: the function, declared to return [bool], returns
    no value, and the behaviour of the program is undefined from there. *)
Theorem ConnectToService_starts_attempt (w : World) (ssid passphrase : string)
    (on_success : Closure) (error : option ErrorPtr) :
  NetworkImplState.hostapd_started_ (net w) = false ->
  fork (env w) (queries w) <> 0 ->
  let until := TaskRunner.clock (runner w) + TimeDelta.FromMinutes 1 in
  exists w1,
    NetworkImpl.TryToConnect ssid passphrase 0 until on_success w = Ok tt w1
    /\ NetworkImpl.ConnectToService ssid passphrase on_success error w
       = Undefined w1
    /\ trace w1 = trace w ++ [nmcli_connect ssid passphrase]
    /\ TaskRunner.pending (runner w1)
       = TaskRunner.enqueue
           (TaskRunner.clock (runner w) + TimeDelta.FromSeconds 1)
           (Net_TryToConnect (net_ptr w) ssid passphrase
              (fork (env w) (queries w)) until on_success)
           (TaskRunner.pending (runner w))
    /\ (net_bound w = true -> IsValid (net_ptr w) w1 = true).
Proof.
  intros Hs Hf until. eexists.
  split; [apply TryToConnect_start;
          [exact Hf|subst until; unfold TimeDelta.FromMinutes; lia]|].
  split; [now apply ConnectToService_eq|].
  repeat split. intros Hb. now apply with_net_flag_valid in Hb.
Qed.

Lemma ConnectToService_starts_attempt_witness :
  exists w1,
    NetworkImpl.ConnectToService "home" "secret" (Plain 1%nat) None
      Scenario.listening
    = Undefined w1
    /\ trace w1
       = [EvFork "nmcli" ["dev"; "wifi"; "connect"; "home"; "password"; "secret"]%string]
    /\ TaskRunner.pending (runner w1)
       = [(1000000,
           Net_TryToConnect (mkWeakPtr 0 0) "home" "secret" 1234 60000000
             (Plain 1%nat))].
Proof.
  destruct (ConnectToService_starts_attempt Scenario.listening "home" "secret"
              (Plain 1%nat) None) as (w1 & _ & E & Ht & Hp & _).
  - reflexivity.
  - discriminate.
  - exists w1. split; [exact E|]. split; [exact Ht|exact Hp].
Defined.

(** X2: a poll that finds the join command still running starts nothing and
    leaves the command alone: before the deadline the same attempt, with the
    same process, is posted again for one second later; at the deadline the
    attempt ends with the notification of the listeners. *)
Theorem running_join_is_left_alone (w : World) (ssid passphrase : string)
    (pid until : Z) (on_success : Closure) :
  pid <> 0 -> waitpid (env w) (queries w) <> pid ->
  exists w1,
    NetworkImpl.TryToConnect ssid passphrase pid until on_success w = Ok tt w1
    /\ trace w1 = trace w
    /\ TaskRunner.pending (runner w1)
       = if until <=? TaskRunner.clock (runner w)
         then TaskRunner.enqueue (TaskRunner.clock (runner w) + TimeDelta.Zero)
                (Net_NotifyNetworkChanged (net_ptr w))
                (TaskRunner.pending (runner w))
         else TaskRunner.enqueue
                (TaskRunner.clock (runner w) + TimeDelta.FromSeconds 1)
                (Net_TryToConnect (net_ptr w) ssid passphrase pid until on_success)
                (TaskRunner.pending (runner w)).
Proof.
  intros Hpid Hw. rewrite TryToConnect_running, expire_or_retry_eq by assumption.
  eexists. split; [reflexivity|].
  cbn [runner set_queries TaskRunner.clock].
  destruct (until <=? _); split; reflexivity.
Qed.

Lemma running_join_is_left_alone_witness :
  exists w1,
    NetworkImpl.TryToConnect "home" "secret" 77 60000000 (Plain 1%nat)
      Scenario.listening = Ok tt w1
    /\ trace w1 = []
    /\ TaskRunner.pending (runner w1)
       = [(1000000,
           Net_TryToConnect (mkWeakPtr 0 0) "home" "secret" 77 60000000
             (Plain 1%nat))].
Proof.
  destruct (running_join_is_left_alone Scenario.listening "home" "secret"
              77 60000000 (Plain 1%nat)) as (w1 & E & Ht & Hp).
  - discriminate.
  - discriminate.
  - exists w1. split; [exact E|]. split; [exact Ht|exact Hp].
Defined.

(** X3: a poll that finds the join command concluded on another network
    than the one asked for starts the join command again, in the same step
    and before it looks at the deadline: the command is started even when the
    deadline has passed.  Before the deadline the attempt is posted again
    with the new process. *)
Theorem concluded_join_is_restarted (w : World) (ssid passphrase : string)
    (pid until : Z) (on_success : Closure) :
  pid <> 0 -> waitpid (env w) (queries w) = pid ->
  0 <= socket (env w) (1 + queries w) ->
  0 <= fst (ioctl (env w) (2 + queries w)) ->
  snd (ioctl (env w) (2 + queries w)) <> ssid ->
  fork (env w) (3 + queries w) <> 0 ->
  exists w1,
    NetworkImpl.TryToConnect ssid passphrase pid until on_success w = Ok tt w1
    /\ trace w1 = trace w ++ [nmcli_connect ssid passphrase]
    /\ TaskRunner.pending (runner w1)
       = if until <=? TaskRunner.clock (runner w)
         then TaskRunner.enqueue (TaskRunner.clock (runner w) + TimeDelta.Zero)
                (Net_NotifyNetworkChanged (net_ptr w))
                (TaskRunner.pending (runner w))
         else TaskRunner.enqueue
                (TaskRunner.clock (runner w) + TimeDelta.FromSeconds 1)
                (Net_TryToConnect (net_ptr w) ssid passphrase
                   (fork (env w) (3 + queries w)) until on_success)
                (TaskRunner.pending (runner w)).
Proof.
  intros Hpid Hw Hs Hio Hss Hf.
  rewrite TryToConnect_elsewhere, expire_or_retry_eq by assumption.
  eexists. split; [reflexivity|].
  cbn [runner asked set_queries set_trace TaskRunner.clock].
  destruct (until <=? _); split; reflexivity.
Qed.

Lemma concluded_join_is_restarted_witness :
  exists w1,
    NetworkImpl.TryToConnect "home" "secret" 1234 0 (Plain 1%nat)
      Scenario.listening = Ok tt w1
    /\ trace w1
       = [EvFork "nmcli" ["dev"; "wifi"; "connect"; "home"; "password"; "secret"]%string]
    /\ TaskRunner.pending (runner w1)
       = [(0, Net_NotifyNetworkChanged (mkWeakPtr 0 0))].
Proof.
  destruct (concluded_join_is_restarted Scenario.listening "home" "secret"
              1234 0 (Plain 1%nat)) as (w1 & E & Ht & Hp).
  - discriminate.
  - reflexivity.
  - cbn. lia.
  - cbn. lia.
  - discriminate.
  - discriminate.
  - exists w1. split; [exact E|]. split; [exact Ht|exact Hp].
Defined.

Lemma run_matched (w : World) (on_success : Closure) :
  idle w -> net_bound w = true ->
  let w1 :=
    set_runner
      (TaskRunner.PostDelayedTask (Run on_success) TimeDelta.Zero
         (TaskRunner.PostDelayedTask (Net_NotifyNetworkChanged (net_ptr w))
            TimeDelta.Zero (runner w)))
      (with_net_flag w) in
  TaskRunner.pending (runner w1)
  = [(TaskRunner.clock (runner w), Net_NotifyNetworkChanged (net_ptr w));
     (TaskRunner.clock (runner w), Run on_success)]
  /\ exists w',
       run 2 w1 = Ok tt w' /\ idle w'
       /\ trace w' = trace w ++ told w ++ [EvRun on_success]
       /\ TaskRunner.clock (runner w) <= TaskRunner.clock (runner w').
Proof.
  intros Hi Hb w1.
  assert (Hp : TaskRunner.pending (runner w1)
               = [(TaskRunner.clock (runner w), Net_NotifyNetworkChanged (net_ptr w));
                  (TaskRunner.clock (runner w), Run on_success)]).
  { subst w1. unfold idle in Hi.
    cbn [runner set_runner TaskRunner.PostDelayedTask TaskRunner.pending
         TaskRunner.clock].
    rewrite Hi. unfold TimeDelta.Zero. rewrite Z.add_0_r.
    cbn [TaskRunner.enqueue]. now rewrite Z.leb_refl. }
  split; [exact Hp|].
  cbn [run]. rewrite (step_cons _ _ _ _ Hp).
  cbn [run_task]. unfold when_valid. unfold bind at 1. unfold get.
  match goal with |- context [IsValid ?p ?x] =>
    change (IsValid p x) with (IsValid (net_ptr w) (with_net_flag w)) end.
  rewrite (with_net_flag_valid w Hb), NotifyNetworkChanged_spec.
  match goal with |- context [step ?x] =>
    rewrite (step_cons x (TaskRunner.clock (runner w)) (Run on_success) [] eq_refl) end.
  cbn [run_task emit modify]. eexists. split; [reflexivity|].
  split; [reflexivity|].
  cbn [trace set_trace set_queries set_runner runner TaskRunner.clock].
  split.
  - unfold told. now rewrite <- app_assoc.
  - lia.
Qed.

(** X4: a poll that finds the join command concluded on the network asked
    for ends the attempt with success, whether or not the deadline has
    passed: it starts nothing, posts the notification of the listeners and,
    behind it, [on_success], and does not post itself again; the run loop
    then tells every listener once and runs [on_success] once, in this
    order. *)
Theorem matched_join_notifies_then_calls_back (w : World)
    (ssid passphrase : string) (pid until : Z) (on_success : Closure) :
  idle w -> net_bound w = true ->
  pid <> 0 -> waitpid (env w) (queries w) = pid ->
  0 <= socket (env w) (1 + queries w) ->
  0 <= fst (ioctl (env w) (2 + queries w)) ->
  snd (ioctl (env w) (2 + queries w)) = ssid ->
  exists w1 w',
    NetworkImpl.TryToConnect ssid passphrase pid until on_success w = Ok tt w1
    /\ trace w1 = trace w
    /\ TaskRunner.pending (runner w1)
       = [(TaskRunner.clock (runner w), Net_NotifyNetworkChanged (net_ptr w));
          (TaskRunner.clock (runner w), Run on_success)]
    /\ run 2 w1 = Ok tt w'
    /\ idle w'
    /\ trace w' = trace w ++ told w ++ [EvRun on_success].
Proof.
  intros Hi Hb Hpid Hw Hs Hio Hss.
  rewrite TryToConnect_matched by assumption.
  destruct (run_matched (set_queries (3 + queries w) w) on_success Hi Hb)
    as (Hp & w' & Hrun & Hi' & Ht & _).
  eexists. exists w'. split; [reflexivity|]. split; [reflexivity|].
  split; [exact Hp|]. split; [exact Hrun|]. split; [exact Hi'|exact Ht].
Qed.

Lemma matched_join_notifies_then_calls_back_witness :
  exists w1 w',
    NetworkImpl.TryToConnect "guest" "secret" 1234 0 (Plain 1%nat)
      Scenario.listening = Ok tt w1
    /\ run 2 w1 = Ok tt w'
    /\ trace w' = [EvListener 5%nat false; EvListener 6%nat false;
                   EvRun (Plain 1%nat)].
Proof.
  destruct (matched_join_notifies_then_calls_back Scenario.listening
              "guest" "secret" 1234 0 (Plain 1%nat))
    as (w1 & w' & E & _ & _ & Hrun & _ & Ht).
  - reflexivity.
  - reflexivity.
  - discriminate.
  - reflexivity.
  - cbn. lia.
  - cbn. lia.
  - reflexivity.
  - exists w1, w'. split; [exact E|]. split; [exact Hrun|exact Ht].
Defined.

(** X5: a connect attempt that succeeds at its first poll, from its start.
    [TryToConnect] with no process yet and a deadline still ahead starts one
    join command and returns; when at the poll one second later [waitpid]
    answers with the process of that command and the operating system
    reports the essid asked for, every listener is told once and then
    [on_success] is run once; after that nothing is pending. *)
Theorem connect_attempt_succeeds (w : World) (ssid passphrase : string)
    (until : Z) (on_success : Closure) :
  idle w ->
  net_bound w = true ->
  TaskRunner.clock (runner w) < until ->
  fork (env w) (queries w) <> 0 ->
  waitpid (env w) (2 + queries w) = fork (env w) (queries w) ->
  0 <= socket (env w) (3 + queries w) ->
  0 <= fst (ioctl (env w) (4 + queries w)) ->
  snd (ioctl (env w) (4 + queries w)) = ssid ->
  exists w1 w',
    NetworkImpl.TryToConnect ssid passphrase 0 until on_success w = Ok tt w1
    /\ run 3 w1 = Ok tt w'
    /\ idle w'
    /\ trace w'
       = trace w ++ [nmcli_connect ssid passphrase] ++ told w ++ [EvRun on_success]
    /\ TaskRunner.clock (runner w) + TimeDelta.FromSeconds 1
       <= TaskRunner.clock (runner w').
Proof.
  intros Hi Hb Hu Hf Hw Hsock Hio Hss.
  rewrite TryToConnect_start by assumption.
  match goal with |- context [Ok tt ?x = _] => set (w1 := x) end.
  exists w1.
  assert (Hp : TaskRunner.pending (runner w1)
               = [(TaskRunner.clock (runner w) + TimeDelta.FromSeconds 1,
                   Net_TryToConnect (net_ptr w) ssid passphrase
                     (fork (env w) (queries w)) until on_success)]).
  { subst w1. unfold idle in Hi.
    cbn [net_posted runner set_runner TaskRunner.PostDelayedTask
         TaskRunner.pending TaskRunner.clock asked set_queries set_trace].
    now rewrite Hi. }
  set (w2 := dispatched (TaskRunner.clock (runner w) + TimeDelta.FromSeconds 1) w1).
  assert (Hv : IsValid (net_ptr w) w2 = true).
  { change (IsValid (net_ptr w) w2)
      with (IsValid (net_ptr (asked 1 [nmcli_connect ssid passphrase] w))
              (with_net_flag (asked 1 [nmcli_connect ssid passphrase] w))).
    now apply with_net_flag_valid. }
  assert (Hb2 : net_bound w2 = true).
  { unfold net_bound. exact Hv. }
  destruct (run_matched (set_queries (3 + queries w2) w2) on_success eq_refl Hb2)
    as (_ & w' & Hrun & Hi' & Ht & Hc).
  exists w'. split; [reflexivity|].
  change (run 3 w1) with
    (match step w1 with
     | None => Ok tt w1
     | Some (Ok _ w') => run 2 w'
     | Some o => o
     end).
  rewrite (step_single _ _ _ Hp). fold w2.
  cbn [run_task]. unfold when_valid. unfold bind at 1. unfold get. rewrite Hv.
  rewrite TryToConnect_matched by assumption.
  split; [exact Hrun|]. split; [exact Hi'|]. split.
  - rewrite Ht. subst w2 w1. unfold told.
    cbn [trace net set_queries dispatched set_runner net_posted with_net_flag
         set_net set_flags asked set_trace NetworkImplState.callbacks_].
    now rewrite <- app_assoc.
  - etransitivity; [|exact Hc]. subst w2 w1.
    cbn [runner TaskRunner.clock set_queries dispatched set_runner net_posted
         with_net_flag set_net set_flags asked set_trace
         TaskRunner.PostDelayedTask].
    lia.
Qed.

Lemma connect_attempt_succeeds_witness :
  exists w1 w',
    NetworkImpl.TryToConnect "guest" "secret" 0 60000000 (Plain 1%nat)
      Scenario.listening
    = Ok tt w1
    /\ run 3 w1 = Ok tt w'
    /\ trace w'
       = [EvFork "nmcli" ["dev"; "wifi"; "connect"; "guest"; "password"; "secret"]%string;
          EvListener 5%nat false; EvListener 6%nat false; EvRun (Plain 1%nat)].
Proof.
  destruct (connect_attempt_succeeds Scenario.listening "guest" "secret"
              60000000 (Plain 1%nat)) as (w1 & w' & E & Hrun & _ & Ht & _).
  - reflexivity.
  - reflexivity.
  - reflexivity.
  - discriminate.
  - reflexivity.
  - cbn. lia.
  - cbn. lia.
  - reflexivity.
  - exists w1, w'. split; [exact E|]. split; [exact Hrun|exact Ht].
Defined.

(** ** The access point *)

Lemma world_eq (w w' : World) :
  env w' = env w -> runner w' = runner w -> queries w' = queries w ->
  trace w' = trace w -> flags w' = flags w -> net w' = net w ->
  streams w' = streams w -> w' = w.
Proof. destruct w, w'; cbn; intros; now subst. Qed.

Lemma asked_asked n m evs evs' (w : World) :
  asked n evs (asked m evs' w) = asked (n + m) (evs' ++ evs) w.
Proof.
  apply world_eq; cbn; auto; [lia|now rewrite app_assoc].
Qed.

Lemma checked_system {A} (cmd : string) (k : Prog A) (w : World) :
  (r <- std_system cmd ;; CHECK (0 =? r) ;; k) w
  = if 0 =? system (env w) (queries w)
    then k (asked 1 [EvSystem cmd] w)
    else Crash (asked 1 [EvSystem cmd] w).
Proof.
  unfold std_system. unfold bind at 1. unfold bind at 1. cbn [emit modify extern].
  cbn [env queries set_trace]. destruct (0 =? _); reflexivity.
Qed.

Lemma ignored_system {A} (cmd : string) (k : Prog A) (w : World) :
  (std_system cmd ;; k) w = k (asked 1 [EvSystem cmd] w).
Proof.
  unfold std_system. unfold bind at 1. unfold bind at 1. reflexivity.
Qed.

Lemma ifconfig_failures_le (e : Env) (n : nat) :
  forall q, (ifconfig_failures e q n <= n)%nat.
Proof.
  induction n as [|n IH]; intros q; cbn [ifconfig_failures]; [lia|].
  destruct (0 =? system e q); [lia|]. specialize (IH (S q)). lia.
Qed.

Lemma configure_interface_eq (n : nat) :
  forall w : World,
    let j := ifconfig_failures (env w) (queries w) n in
    NetworkImpl.configure_interface n w
    = Ok tt (later (Z.of_nat j)
               (asked (ifconfig_commands j n) (ifconfig_events j n) w)).
Proof.
  induction n as [|n IH]; intros w; cbv zeta.
  - cbn. unfold ret. f_equal. symmetry. apply world_eq; cbn; auto.
    + destruct (runner w); unfold TaskRunner.sleep, TimeDelta.FromSeconds; cbn.
      f_equal. lia.
    + now rewrite app_nil_r.
  - cbn [NetworkImpl.configure_interface ifconfig_failures].
    unfold std_system. unfold bind at 1. unfold bind at 1.
    cbn [emit modify extern env queries set_trace].
    destruct (0 =? system (env w) (queries w)).
    + cbn [ret]. f_equal. symmetry. apply world_eq; cbn; auto.
      destruct (runner w); unfold TaskRunner.sleep, TimeDelta.FromSeconds; cbn.
      f_equal. lia.
    + unfold sleep. unfold bind at 1. unfold bind at 1. cbn [emit modify].
      rewrite IH. cbv zeta. f_equal.
      cbn [env queries set_queries set_trace set_runner].
      set (j := ifconfig_failures (env w) (S (queries w)) n).
      unfold ifconfig_commands, ifconfig_events.
      change (S j <? S n)%nat with (j <? n)%nat.
      apply world_eq; cbn -[Z.of_nat Nat.ltb]; auto.
      * destruct (runner w); unfold TaskRunner.sleep, TimeDelta.FromSeconds;
          cbn -[Z.of_nat]. f_equal. clearbody j. lia.
      * clearbody j. destruct (j <? n)%nat; lia.
      * rewrite <- !app_assoc. reflexivity.
Qed.

(** X6: [EnableAccessPoint] brings the access point up whenever the four
    commands it checks succeed, however the configuration of the interface
    fares: that one is tried at most ten times, a second apart, until it
    succeeds, and its failure is not fatal.  The configuration files are
    written before the services that read them are started, the ssid goes
    into the one of [hostapd], [hostapd_started_] is set, and one
    notification of the listeners is posted. *)
Theorem EnableAccessPoint_brings_up (w : World) (ssid : string) :
  NetworkImplState.hostapd_started_ (net w) = false ->
  system (env w) (queries w) = 0 ->
  system (env w) (1 + queries w) = 0 ->
  system (env w) (2 + queries w) = 0 ->
  let j := ifconfig_failures (env w) (3 + queries w) 10 in
  system (env w) (3 + queries w + ifconfig_commands j 10) = 0 ->
  exists w',
    NetworkImpl.EnableAccessPoint ssid w = Ok tt w'
    /\ NetworkImplState.hostapd_started_ (net w') = true
    /\ NetworkImplState.callbacks_ (net w') = NetworkImplState.callbacks_ (net w)
    /\ (j <= 10)%nat
    /\ trace w'
       = trace w ++ hostapd_events ssid ++ ifconfig_events j 10 ++ dnsmasq_events
    /\ TaskRunner.clock (runner w')
       = TaskRunner.clock (runner w) + TimeDelta.FromSeconds (1 + Z.of_nat j)
    /\ TaskRunner.pending (runner w')
       = TaskRunner.enqueue (TaskRunner.clock (runner w') + TimeDelta.Zero)
           (Net_NotifyNetworkChanged (net_ptr w))
           (TaskRunner.pending (runner w)).
Proof.
  intros Hs H0 H1 H2 j H3. cbn [Nat.add] in H1, H2, j.
  unfold NetworkImpl.EnableAccessPoint. unfold bind at 1. cbn [get]. rewrite Hs.
  rewrite checked_system, H0. cbn [Z.eqb].
  rewrite checked_system. cbn [asked env queries set_queries set_trace Nat.add].
  rewrite H1. cbn [Z.eqb].
  unfold sleep. unfold bind at 1. unfold bind at 1. cbn [emit modify].
  cbv zeta. unfold NetworkImpl.write_file at 1. unfold bind at 1. cbn [emit modify].
  rewrite checked_system.
  cbn [asked env queries set_queries set_trace set_runner Nat.add].
  rewrite H2. cbn [Z.eqb].
  unfold bind at 1. cbn [NetworkImpl.set_hostapd_started_ modify].
  unfold bind at 1. rewrite configure_interface_eq. cbv zeta.
  cbn [asked env queries set_queries set_trace set_runner set_net Nat.add].
  fold j.
  unfold NetworkImpl.write_file. unfold bind at 1. cbn [emit modify].
  rewrite checked_system.
  cbn [later asked env queries set_queries set_trace set_runner set_net Nat.add].
  replace (ifconfig_commands j 10 + S (S (S (queries w))))%nat
    with (3 + queries w + ifconfig_commands j 10)%nat by lia.
  rewrite H3. cbn [Z.eqb].
  rewrite post_NotifyNetworkChanged_eq.
  eexists. split; [reflexivity|].
  split; [reflexivity|]. split; [reflexivity|].
  split; [apply ifconfig_failures_le|].
  split; [|split].
  - cbn [trace net_posted with_net_flag set_runner set_net set_flags later asked
         set_queries set_trace hostapd_events dnsmasq_events].
    rewrite <- !app_assoc. reflexivity.
  - cbn [runner net_posted with_net_flag set_runner set_net set_flags later asked
         set_queries set_trace TaskRunner.PostDelayedTask TaskRunner.clock
         TaskRunner.sleep].
    unfold TimeDelta.FromSeconds. lia.
  - reflexivity.
Qed.

Lemma EnableAccessPoint_brings_up_witness :
  exists w',
    NetworkImpl.EnableAccessPoint "weave" (boot Scenario.established) = Ok tt w'
    /\ NetworkImplState.hostapd_started_ (net w') = true
    /\ trace w' = hostapd_events "weave" ++ [ifconfig] ++ dnsmasq_events
    /\ TaskRunner.pending (runner w')
       = [(1000000, Net_NotifyNetworkChanged (mkWeakPtr 0 0))].
Proof.
  destruct (EnableAccessPoint_brings_up (boot Scenario.established) "weave")
    as (w' & E & Hs & _ & _ & Ht & Hc & Hp); try reflexivity.
  exists w'. split; [exact E|]. split; [exact Hs|]. split; [exact Ht|].
  rewrite Hp, Hc. reflexivity.
Defined.

Lemma EnableAccessPoint_started (w w1 : World) (ssid : string) :
  NetworkImpl.EnableAccessPoint ssid w = Ok tt w1 ->
  NetworkImplState.hostapd_started_ (net w1) = true.
Proof.
  unfold NetworkImpl.EnableAccessPoint. unfold bind at 1. cbn [get].
  destruct (NetworkImplState.hostapd_started_ (net w)) eqn:Hs.
  { now intros [= <-]. }
  rewrite checked_system. destruct (0 =? _); [|discriminate].
  rewrite checked_system. destruct (0 =? _); [|discriminate].
  unfold sleep. unfold bind at 1. unfold bind at 1. cbn [emit modify].
  cbv zeta. unfold NetworkImpl.write_file at 1. unfold bind at 1. cbn [emit modify].
  rewrite checked_system. destruct (0 =? _); [|discriminate].
  unfold bind at 1. cbn [NetworkImpl.set_hostapd_started_ modify].
  unfold bind at 1. rewrite configure_interface_eq. cbv zeta.
  unfold NetworkImpl.write_file. unfold bind at 1. cbn [emit modify].
  rewrite checked_system. destruct (0 =? _); [|discriminate].
  rewrite post_NotifyNetworkChanged_eq. now intros [= <-].
Qed.

(** X7: [EnableAccessPoint] is idempotent.  A call that returns leaves
    [hostapd_started_] set, and a call made in that state, with whatever
    ssid, returns at once: it runs no command, writes no file, posts
    nothing and asks the outside world nothing. *)
Theorem EnableAccessPoint_twice (w w1 : World) (ssid ssid' : string) :
  NetworkImpl.EnableAccessPoint ssid w = Ok tt w1 ->
  NetworkImplState.hostapd_started_ (net w1) = true
  /\ NetworkImpl.EnableAccessPoint ssid' w1 = Ok tt w1.
Proof.
  intros H. apply EnableAccessPoint_started in H. split; [exact H|].
  unfold NetworkImpl.EnableAccessPoint. unfold bind at 1. cbn [get].
  now rewrite H.
Qed.

Lemma EnableAccessPoint_twice_witness :
  NetworkImpl.EnableAccessPoint "other" Scenario.hosting = Ok tt Scenario.hosting.
Proof.
  refine (proj2 (EnableAccessPoint_twice (boot Scenario.established)
                   Scenario.hosting "weave" "other" _)).
  vm_compute. reflexivity.
Defined.

Lemma DisableAccessPoint_eq (w : World) :
  NetworkImpl.DisableAccessPoint w
  = if 0 =? system (env w) (2 + queries w)
    then Ok tt (net_posted Net_NotifyNetworkChanged TimeDelta.Zero
                  (started false (asked 3 teardown_events w)))
    else Crash (asked 3 teardown_events w).
Proof.
  unfold NetworkImpl.DisableAccessPoint.
  rewrite !ignored_system, checked_system.
  cbn [asked env queries set_queries set_trace trace Nat.add].
  rewrite !asked_asked. cbn [app Nat.add]. fold teardown_events.
  destruct (0 =? _); [|reflexivity].
  unfold bind at 1. cbn [NetworkImpl.set_hostapd_started_ modify].
  now rewrite post_NotifyNetworkChanged_eq.
Qed.

(** X8: [DisableAccessPoint] does not care whether the two services were
    running: whatever the two [pkill] commands answer, it goes on to hand
    the interface back.  When that succeeds, [hostapd_started_] is cleared,
    whatever it was, and one notification of the listeners is posted; when
    it fails, the process aborts with [hostapd_started_] as it was. *)
Theorem DisableAccessPoint_outcomes (w : World) :
  (system (env w) (2 + queries w) = 0 ->
   exists w',
     NetworkImpl.DisableAccessPoint w = Ok tt w'
     /\ NetworkImplState.hostapd_started_ (net w') = false
     /\ NetworkImplState.callbacks_ (net w') = NetworkImplState.callbacks_ (net w)
     /\ trace w' = trace w ++ teardown_events
     /\ TaskRunner.pending (runner w')
        = TaskRunner.enqueue (TaskRunner.clock (runner w) + TimeDelta.Zero)
            (Net_NotifyNetworkChanged (net_ptr w))
            (TaskRunner.pending (runner w)))
  /\ (system (env w) (2 + queries w) <> 0 ->
      exists w',
        NetworkImpl.DisableAccessPoint w = Crash w'
        /\ net w' = net w
        /\ TaskRunner.pending (runner w') = TaskRunner.pending (runner w)).
Proof.
  rewrite DisableAccessPoint_eq. split; intros H.
  - rewrite H. cbn [Z.eqb]. eexists. split; [reflexivity|]. repeat split.
  - apply Z.eqb_neq in H. rewrite Z.eqb_sym in H. rewrite H.
    eexists. split; [reflexivity|]. split; reflexivity.
Qed.

Lemma DisableAccessPoint_outcomes_witness :
  exists w',
    NetworkImpl.DisableAccessPoint Scenario.hosting = Ok tt w'
    /\ NetworkImplState.hostapd_started_ (net w') = false.
Proof.
  destruct (proj1 (DisableAccessPoint_outcomes Scenario.hosting))
    as (w' & E & Hs & _).
  - reflexivity.
  - exists w'. split; [exact E|exact Hs].
Defined.

(** X9: after [DisableAccessPoint] the [CHECK] of [ConnectToService] no
    longer fails.  Called once [DisableAccessPoint] has returned, also when
    the access point was running before, [ConnectToService] passes its
    [CHECK] and makes its call of [TryToConnect], which returns: the join
    command is started and the first poll is posted, behind the notification
    that [DisableAccessPoint] posted.  Behind that call control flows off the
    end of [ConnectToService], which returns no value. *)
Theorem DisableAccessPoint_then_ConnectToService (w : World)
    (ssid passphrase : string) (on_success : Closure) (error : option ErrorPtr) :
  system (env w) (2 + queries w) = 0 ->
  fork (env w) (3 + queries w) <> 0 ->
  let until := TaskRunner.clock (runner w) + TimeDelta.FromMinutes 1 in
  exists w1 w2,
    NetworkImpl.DisableAccessPoint w = Ok tt w1
    /\ NetworkImpl.TryToConnect ssid passphrase 0 until on_success w1 = Ok tt w2
    /\ NetworkImpl.ConnectToService ssid passphrase on_success error w1
       = Undefined w2
    /\ trace w2 = trace w ++ teardown_events ++ [nmcli_connect ssid passphrase]
    /\ exists poll,
         TaskRunner.pending (runner w2)
         = TaskRunner.enqueue
             (TaskRunner.clock (runner w) + TimeDelta.FromSeconds 1) poll
             (TaskRunner.enqueue (TaskRunner.clock (runner w) + TimeDelta.Zero)
                (Net_NotifyNetworkChanged (net_ptr w))
                (TaskRunner.pending (runner w)))
         /\ forall w'',
              IsValid (net_ptr w) w'' = true ->
              run_task poll w''
              = NetworkImpl.TryToConnect ssid passphrase
                  (fork (env w) (3 + queries w)) until on_success w''.
Proof.
  intros Hsys Hf until. rewrite DisableAccessPoint_eq, Hsys. cbn [Z.eqb].
  eexists. eexists. split; [reflexivity|].
  split; [apply TryToConnect_start;
          [exact Hf|subst until; unfold TimeDelta.FromMinutes; cbn; lia]|].
  split; [now apply ConnectToService_eq|]. split.
  - cbn [trace net_posted with_net_flag set_runner set_net set_flags started asked
         set_queries set_trace]. now rewrite <- app_assoc.
  - eexists. split; [reflexivity|]. intros w'' Hv.
    cbn [run_task]. unfold when_valid. unfold bind at 1. unfold get.
    match goal with |- context [IsValid ?p w''] =>
      change (IsValid p w'') with (IsValid (net_ptr w) w'') end.
    rewrite Hv. reflexivity.
Qed.

Lemma DisableAccessPoint_then_ConnectToService_witness :
  exists w1 w2,
    NetworkImpl.DisableAccessPoint Scenario.hosting = Ok tt w1
    /\ NetworkImpl.ConnectToService "home" "secret" (Plain 1%nat) None w1
       = Undefined w2
    /\ trace w2
       = trace Scenario.hosting ++ teardown_events
         ++ [nmcli_connect "home" "secret"].
Proof.
  destruct (DisableAccessPoint_then_ConnectToService Scenario.hosting
              "home" "secret" (Plain 1%nat) None)
    as (w1 & w2 & E1 & _ & E2 & Ht & _).
  - reflexivity.
  - discriminate.
  - exists w1, w2. split; [exact E1|]. split; [exact E2|exact Ht].
Defined.

(** ** Listeners *)

Lemma registered_spec (ls : list Callback) :
  forall w : World,
    NetworkImplState.callbacks_ (net (registered ls w))
    = NetworkImplState.callbacks_ (net w) ++ ls
    /\ trace (registered ls w) = trace w
    /\ runner (registered ls w) = runner w.
Proof.
  induction ls as [|cb ls IH]; intros w; cbn [registered fold_left].
  - now rewrite app_nil_r.
  - destruct (IH (final (NetworkImpl.AddOnConnectionChangedCallback cb w)))
      as (Hc & Ht & Hr).
    unfold registered in *. rewrite Hc, Ht, Hr. cbn.
    now rewrite <- app_assoc.
Qed.

(** X10: listeners are told in the order in which they were registered, those
    registered earlier first, and as many times as they were registered:
    [AddOnConnectionChangedCallback] appends and never looks for
    duplicates. *)
Theorem listeners_told_in_registration_order (w : World) (ls : list Callback) :
  NetworkImpl.NotifyNetworkChanged (registered ls w)
  = Ok tt (set_trace
             (trace w ++ told w ++ map (fun cb => EvListener cb false) ls)
             (registered ls w)).
Proof.
  rewrite NotifyNetworkChanged_spec.
  destruct (registered_spec ls w) as (Hc & Ht & _).
  rewrite Hc, Ht. unfold told. now rewrite map_app.
Qed.

(** ** ReadAsync and WriteAllAsync, to the end *)

Lemma live_stream (this : nat) (w : World) :
  live this w = true ->
  exists s, streams w !! this = Some (Some s)
    /\ forall f, SSLStreamState.weak_ptr_factory_ s = Some f ->
                 flags w !! f = Some true.
Proof.
  unfold live, IsValid.
  destruct (streams w !! this) as [[s|]|]; try discriminate.
  intros H. exists s. split; [reflexivity|]. intros f Hf. rewrite Hf in H.
  cbn in H. now destruct (flags w !! f) as [[]|].
Qed.

(** What every path of [ReadAsync] and [WriteAllAsync] ends with, on a
    stream that is alive. *)
Lemma stream_post_live {A} (w : World) (this : nat)
    (mk_task : WeakPtr -> Task) (delay : Z) (a : A) :
  live this w = true ->
  exists f w',
    (wp <- SSLStream.GetWeakPtr this ;;
     PostDelayedTask (mk_task wp) delay ;; ret a) w = Ok a w'
    /\ TaskRunner.pending (runner w')
       = TaskRunner.enqueue (TaskRunner.clock (runner w) + delay)
           (mk_task (mkWeakPtr f this)) (TaskRunner.pending (runner w))
    /\ IsValid (mkWeakPtr f this) w' = true
    /\ live this w' = true
    /\ trace w' = trace w /\ env w' = env w /\ queries w' = queries w
    /\ TaskRunner.clock (runner w') = TaskRunner.clock (runner w)
    /\ exists fl, flags w' = flags w ++ fl.
Proof.
  intros Hl. destruct (live_stream _ _ Hl) as (s & Hs & Hv).
  unfold SSLStream.GetWeakPtr, SSLStream.this_, bind. rewrite Hs.
  destruct (SSLStreamState.weak_ptr_factory_ s) as [f|] eqn:Hf; cbn.
  - exists f. eexists. split; [reflexivity|]. cbn.
    unfold IsValid, live; cbn. rewrite Hs, Hf. unfold IsValid; cbn.
    rewrite (Hv f eq_refl). repeat split. exists []. now rewrite app_nil_r.
  - exists (length (flags w)). eexists. split; [reflexivity|]. cbn.
    unfold IsValid, live; cbn.
    rewrite list_lookup_insert_eq by (eapply lookup_lt_Some; eauto). cbn.
    unfold IsValid; cbn.
    rewrite lookup_app_r by lia. rewrite Nat.sub_diag. repeat split. eauto.
Qed.

Lemma live_dispatched (this : nat) (due : Z) (w : World) :
  live this (dispatched due w) = live this w.
Proof. reflexivity. Qed.

Lemma run_task_RunDelayedTask (wp : WeakPtr) (c : Closure) (w : World) :
  IsValid wp w = true ->
  run_task (Stream_RunDelayedTask wp c) w
  = Ok tt (set_trace (trace w ++ [EvStream (ptr wp) c]) w).
Proof.
  intros Hv. cbn [run_task]. unfold when_valid, get. unfold bind at 1.
  now rewrite Hv.
Qed.

(** A callback posted for the next turn of an idle loop is delivered by
    that turn, and by nothing else. *)
Lemma delivered (w w1 : World) (f this : nat) (c : Closure) (evs : list Event) :
  idle w ->
  TaskRunner.pending (runner w1)
  = TaskRunner.enqueue (TaskRunner.clock (runner w) + TimeDelta.Zero)
      (Stream_RunDelayedTask (mkWeakPtr f this) c) (TaskRunner.pending (runner w)) ->
  IsValid (mkWeakPtr f this) w1 = true ->
  trace w1 = trace w ++ evs ->
  TaskRunner.clock (runner w1) = TaskRunner.clock (runner w) ->
  exists w',
    run 1 w1 = Ok tt w' /\ idle w'
    /\ trace w' = trace w ++ evs ++ [EvStream this c]
    /\ TaskRunner.clock (runner w) <= TaskRunner.clock (runner w').
Proof.
  intros Hi Hp Hv Ht Hc. unfold idle in Hi. rewrite Hi in Hp.
  cbn [TaskRunner.enqueue] in Hp.
  cbn [run]. rewrite (step_single _ _ _ Hp).
  rewrite run_task_RunDelayedTask by exact Hv.
  eexists. split; [reflexivity|]. split; [reflexivity|].
  cbn [trace set_trace dispatched set_queries set_runner runner TaskRunner.clock ptr].
  rewrite Ht, Hc, <- app_assoc. split; [reflexivity|lia].
Qed.

Lemma not_would_block_test (err : Z) :
  ~ would_block err ->
  (err =? SSL_ERROR_WANT_READ) || (err =? SSL_ERROR_WANT_WRITE) = false.
Proof.
  intros H. apply orb_false_intro; apply Z.eqb_neq; intros ->; apply H;
    [now left|now right].
Qed.

(** X11: an error of the read or write primitive that is not a would-block
    condition is reported through the error callback, and only there: the
    call itself returns [true] and leaves the [ErrorPtr] of the caller as it
    was; the next turn of the loop runs the error callback once, with the
    error ["ssl"]/["socket_read_failed"] or ["socket_write_failed"]; the
    success callback is not run and nothing is tried again. *)
Theorem fatal_error_reaches_error_callback (w : World) (this : nat)
    (buffer size : Z) (success_callback error_callback : Callback)
    (error : option ErrorPtr) :
  idle w -> live this w = true ->
  ~ would_block (SSL_get_error (env w) (S (queries w))) ->
  (SSL_read (env w) (queries w) <= 0 ->
   exists w1 w',
     SSLStream.ReadAsync this buffer size success_callback error_callback error w
     = Ok (true, error) w1
     /\ run 1 w1 = Ok tt w' /\ idle w'
     /\ trace w'
        = trace w
          ++ [EvSSL this (OpRead buffer (to_int size));
              EvSSL this (OpGetError (SSL_read (env w) (queries w)));
              EvStream this
                (BindError error_callback
                   [mkError "ssl" "socket_read_failed" "SSL error"])])
  /\ (SSL_write (env w) (queries w) <= 0 ->
      exists w1 w',
        SSLStream.WriteAllAsync this buffer size success_callback error_callback
          error w
        = Ok (true, error) w1
        /\ run 1 w1 = Ok tt w' /\ idle w'
        /\ trace w'
           = trace w
             ++ [EvSSL this (OpWrite buffer (to_int size));
                 EvSSL this (OpGetError (SSL_write (env w) (queries w)));
                 EvStream this
                   (BindError error_callback
                      [mkError "ssl" "socket_write_failed" "SSL error"])]).
Proof.
  intros Hi Hl Hnb. apply not_would_block_test in Hnb. split; intros Hres.
  - rewrite ReadAsync_eq. cbv zeta.
    replace (0 <? _) with false by (symmetry; apply Z.ltb_ge; exact Hres).
    rewrite Hnb.
    edestruct (stream_post_live (A := bool * option ErrorPtr)) 
      as (f & w1 & E & Hp & Hv & _ & Ht & _ & _ & Hc & _);
      [|rewrite E]; [exact Hl|].
    destruct (delivered w w1 f this _ _ Hi Hp Hv Ht Hc) as (w' & Hr & Hi' & Ht' & _).
    exists w1, w'. auto.
  - rewrite WriteAllAsync_eq. cbv zeta.
    replace (0 <? _) with false by (symmetry; apply Z.ltb_ge; exact Hres).
    rewrite Hnb.
    edestruct (stream_post_live (A := bool * option ErrorPtr)) 
      as (f & w1 & E & Hp & Hv & _ & Ht & _ & _ & Hc & _);
      [|rewrite E]; [exact Hl|].
    destruct (delivered w w1 f this _ _ Hi Hp Hv Ht Hc) as (w' & Hr & Hi' & Ht' & _).
    exists w1, w'. auto.
Qed.

Lemma fatal_error_reaches_error_callback_witness :
  exists w1 w',
    SSLStream.ReadAsync 0 0 16 1%nat 2%nat None
      (Scenario.with_stream Traffic.broken)
    = Ok (true, None) w1
    /\ run 1 w1 = Ok tt w'
    /\ trace w'
       = [EvSSL 0 (OpRead 0 16); EvSSL 0 (OpGetError (-1));
          EvStream 0
            (BindError 2%nat [mkError "ssl" "socket_read_failed" "SSL error"])].
Proof.
  destruct (fatal_error_reaches_error_callback
              (Scenario.with_stream Traffic.broken) 0 0 16 1%nat 2%nat None)
    as [H _].
  - reflexivity.
  - reflexivity.
  - intros [H|H]; discriminate H.
  - destruct H as (w1 & w' & E & Hr & _ & Ht); [cbn; lia|].
    exists w1, w'. split; [exact E|]. split; [exact Hr|exact Ht].
Defined.

(** X12: a read that would block is tried again until it makes progress, and
    then delivers: when the first [k] attempts would block and the next one
    reads [res > 0] bytes, the loop, after [k] seconds at the earliest, runs
    the success callback once, with [res]; the error callback is not run;
    and every attempt is the same call of [SSL_read], with the buffer and
    the size the client gave. *)
Theorem read_delivers_after_waiting (k : nat) :
  forall (w : World) (this : nat) (buffer size : Z)
         (success_callback error_callback : Callback) (error : option ErrorPtr),
    idle w -> live this w = true ->
    (forall i, (i < k)%nat ->
       SSL_read (env w) (queries w + 3 * i) <= 0
       /\ would_block (SSL_get_error (env w) (queries w + 3 * i + 1))) ->
    0 < SSL_read (env w) (queries w + 3 * k) ->
    exists w1 w',
      SSLStream.ReadAsync this buffer size success_callback error_callback error w
      = Ok (true, error) w1
      /\ run (S k) w1 = Ok tt w'
      /\ idle w'
      /\ trace w'
         = trace w
           ++ read_waits (env w) this buffer size (queries w) k
           ++ [EvSSL this (OpRead buffer (to_int size));
               EvStream this
                 (BindSize success_callback
                    (SSL_read (env w) (queries w + 3 * k)))]
      /\ TaskRunner.clock (runner w) + TimeDelta.FromSeconds (Z.of_nat k)
         <= TaskRunner.clock (runner w').
Proof.
  induction k as [|k IH]; intros w this buffer size sc ec error Hi Hl Hwait Hres.
  - rewrite Nat.mul_0_r, Nat.add_0_r in *.
    rewrite ReadAsync_eq. cbv zeta.
    replace (0 <? _) with true by (symmetry; apply Z.ltb_lt; exact Hres).
    edestruct (stream_post_live (A := bool * option ErrorPtr))
      as (f & w1 & E & Hp & Hv & _ & Ht & _ & _ & Hc & _);
      [|rewrite E]; [exact Hl|].
    destruct (delivered w w1 f this _ _ Hi Hp Hv Ht Hc) as (w' & Hr & Hi' & Ht' & Hc').
    exists w1, w'. repeat split; auto. unfold TimeDelta.FromSeconds. lia.
  - destruct (Hwait 0%nat ltac:(lia)) as [Hres0 Hwb].
    rewrite Nat.mul_0_r, Nat.add_0_r in Hres0, Hwb.
    rewrite Nat.add_1_r in Hwb. apply would_block_test in Hwb.
    rewrite ReadAsync_eq. cbv zeta.
    replace (0 <? _) with false by (symmetry; apply Z.ltb_ge; exact Hres0).
    rewrite Hwb.
    edestruct (stream_post_live (A := bool * option ErrorPtr))
      as (f & w1 & E & Hp & Hv & Hl1 & Ht & He & Hq & Hc & _);
      [|rewrite E]; [exact Hl|].
    unfold idle in Hi. cbn [asked runner set_queries set_trace] in Hp.
    rewrite Hi in Hp. cbn [TaskRunner.enqueue] in Hp.
    set (w2 := dispatched (TaskRunner.clock (runner w) + TimeDelta.FromSeconds 1) w1).
    destruct (IH w2 this buffer size sc ec None) as (w3 & w' & E' & Hr & Hi' & Ht' & Hc').
    + reflexivity.
    + exact Hl1.
    + intros i Hlt. specialize (Hwait (S i) ltac:(lia)).
      change (env w2) with (env w1). change (queries w2) with (S (queries w1)).
      rewrite He, Hq. cbn [asked env queries set_queries set_trace].
      replace (S (2 + queries w) + 3 * i)%nat with (queries w + 3 * S i)%nat by lia.
      exact Hwait.
    + change (env w2) with (env w1). change (queries w2) with (S (queries w1)).
      rewrite He, Hq. cbn [asked env queries set_queries set_trace].
      replace (S (2 + queries w) + 3 * k)%nat with (queries w + 3 * S k)%nat by lia.
      exact Hres.
    + exists w1, w'. split; [reflexivity|].
      change (run (S (S k)) w1) with
        (match step w1 with
         | None => Ok tt w1
         | Some (Ok _ w') => run (S k) w'
         | Some o => o
         end).
      rewrite (step_single _ _ _ Hp). fold w2.
      rewrite run_task_ReadAsync by exact Hv. cbn [ptr].
      unfold IgnoreResult. unfold bind at 1. rewrite E'. cbn [ret].
      split; [exact Hr|]. split; [exact Hi'|]. split.
      * rewrite Ht'. change (trace w2) with (trace w1).
        change (env w2) with (env w1). change (queries w2) with (S (queries w1)).
        rewrite Ht, He, Hq. cbn [asked env queries set_queries set_trace trace].
        cbn [read_waits]. rewrite <- !app_assoc. cbn [app].
        replace (S (2 + queries w) + 3 * k)%nat with (queries w + 3 * S k)%nat by lia.
        reflexivity.
      * etransitivity; [|exact Hc']. subst w2.
        cbn [dispatched runner set_queries set_runner TaskRunner.clock].
        rewrite Hc. cbn [asked runner set_queries set_trace].
        unfold TimeDelta.FromSeconds. lia.
Qed.

Lemma read_delivers_after_waiting_witness :
  exists w1 w',
    SSLStream.ReadAsync 0 0 16 1%nat 2%nat None
      (Scenario.with_stream Traffic.trickle)
    = Ok (true, None) w1
    /\ run 3 w1 = Ok tt w'
    /\ trace w'
       = [EvSSL 0 (OpRead 0 16); EvSSL 0 (OpGetError (-1));
          EvSSL 0 (OpRead 0 16); EvSSL 0 (OpGetError (-1));
          EvSSL 0 (OpRead 0 16); EvStream 0 (BindSize 1%nat 7)]
    /\ 2000000 <= TaskRunner.clock (runner w').
Proof.
  destruct (read_delivers_after_waiting 2
              (Scenario.with_stream Traffic.trickle) 0 0 16 1%nat 2%nat None)
    as (w1 & w' & E & Hr & _ & Ht & Hc).
  - reflexivity.
  - reflexivity.
  - intros i Hi. destruct i as [|[|i]]; [split; [cbn; lia|now left]..|lia].
  - cbn. lia.
  - exists w1, w'. split; [exact E|]. split; [exact Hr|]. split; [exact Ht|exact Hc].
Defined.

Lemma total_pos (accepted : list Z) :
  Forall (fun r => 0 < r) accepted -> accepted <> [] -> 0 < total accepted.
Proof.
  induction 1 as [|r rest Hr _ IH]; [congruence|]. intros _. cbn.
  destruct rest as [|r' rest]; [cbn; lia|].
  specialize (IH ltac:(discriminate)). unfold total in IH. lia.
Qed.

Lemma accepts_pos (e : Env) (accepted : list Z) :
  forall q, accepts e q accepted -> Forall (fun r => 0 < r) accepted.
Proof.
  induction accepted as [|r rest IH]; intros q H; [constructor|].
  destruct H as (_ & Hr & H). constructor; eauto.
Qed.

(** X13: [WriteAllAsync] writes the whole buffer.  When [SSL_write] accepts
    the bytes in pieces, some each time, every attempt starts where the one
    before stopped and asks for what is left; the attempts are a second
    apart; and once the last byte is accepted the loop runs the success
    callback once.  The error callback is not run. *)
Theorem write_all_writes_everything (accepted : list Z) :
  forall (w : World) (this : nat) (buffer size : Z)
         (success_callback error_callback : Callback) (error : option ErrorPtr),
    idle w -> live this w = true ->
    accepted <> [] ->
    accepts (env w) (queries w) accepted ->
    size = total accepted -> size < 2 ^ 64 ->
    exists w1 w',
      SSLStream.WriteAllAsync this buffer size success_callback error_callback
        error w
      = Ok (true, error) w1
      /\ run (length accepted) w1 = Ok tt w'
      /\ idle w'
      /\ trace w'
         = trace w ++ writes this buffer size accepted
           ++ [EvStream this (Plain success_callback)]
      /\ TaskRunner.clock (runner w)
         + TimeDelta.FromSeconds (Z.of_nat (length accepted) - 1)
         <= TaskRunner.clock (runner w').
Proof.
  induction accepted as [|r rest IH];
    intros w this buffer size sc ec error Hi Hl Hne Hacc Hsize Hlt;
    [congruence|].
  destruct Hacc as (Hw & Hr & Hacc).
  pose proof (accepts_pos _ _ _ Hacc) as Hpos.
  rewrite WriteAllAsync_eq. cbv zeta. rewrite Hw.
  replace (0 <? r) with true by (symmetry; apply Z.ltb_lt; exact Hr).
  destruct rest as [|r' rest].
  - cbn in Hsize. replace (size - r) with 0 by lia.
    change (size_t 0 =? 0) with true. cbv iota.
    edestruct (stream_post_live (A := bool * option ErrorPtr))
      as (f & w1 & E & Hp & Hv & _ & Ht & _ & _ & Hc & _);
      [|rewrite E]; [exact Hl|].
    destruct (delivered w w1 f this _ _ Hi Hp Hv Ht Hc) as (w' & Hrun & Hi' & Ht' & Hc').
    exists w1, w'. repeat split; auto. cbn. unfold TimeDelta.FromSeconds. lia.
  - pose proof (total_pos (r' :: rest) Hpos ltac:(discriminate)) as Hrest.
    assert (Hleft : size - r = total (r' :: rest)) by (subst size; cbn; lia).
    assert (Hst : size_t (size - r) = size - r).
    { unfold size_t. apply Z.mod_small. lia. }
    rewrite Hst.
    replace (size - r =? 0) with false by (symmetry; apply Z.eqb_neq; lia).
    edestruct (stream_post_live (A := bool * option ErrorPtr))
      as (f & w1 & E & Hp & Hv & Hl1 & Ht & He & Hq & Hc & _);
      [|rewrite E]; [exact Hl|].
    unfold idle in Hi. cbn [asked runner set_queries set_trace] in Hp.
    rewrite Hi in Hp. cbn [TaskRunner.enqueue] in Hp.
    set (w2 := dispatched (TaskRunner.clock (runner w) + TimeDelta.FromSeconds 1) w1).
    destruct (IH w2 this (buffer + r) (size - r) sc ec None)
      as (w3 & w' & E' & Hrun & Hi' & Ht' & Hc').
    + reflexivity.
    + exact Hl1.
    + discriminate.
    + change (env w2) with (env w1). change (queries w2) with (S (queries w1)).
      rewrite He, Hq. exact Hacc.
    + exact Hleft.
    + lia.
    + exists w1, w'. split; [reflexivity|].
      change (run (length (r :: r' :: rest)) w1) with
        (match step w1 with
         | None => Ok tt w1
         | Some (Ok _ w') => run (length (r' :: rest)) w'
         | Some o => o
         end).
      rewrite (step_single _ _ _ Hp). fold w2.
      rewrite run_task_WriteAllAsync by exact Hv. cbn [ptr].
      unfold IgnoreResult. unfold bind at 1. rewrite E'. cbn [ret].
      split; [exact Hrun|]. split; [exact Hi'|]. split.
      * rewrite Ht'. change (trace w2) with (trace w1).
        rewrite Ht. cbn [asked set_queries set_trace trace].
        cbn [writes]. rewrite <- !app_assoc. reflexivity.
      * etransitivity; [|exact Hc']. subst w2.
        cbn [dispatched runner set_queries set_runner TaskRunner.clock].
        rewrite Hc. cbn [asked runner set_queries set_trace].
        cbn [length]. unfold TimeDelta.FromSeconds. lia.
Qed.

Lemma write_all_writes_everything_witness :
  exists w1 w',
    SSLStream.WriteAllAsync 0 100 30 1%nat 2%nat None
      (Scenario.with_stream Traffic.narrow)
    = Ok (true, None) w1
    /\ run 3 w1 = Ok tt w'
    /\ trace w'
       = [EvSSL 0 (OpWrite 100 30); EvSSL 0 (OpWrite 110 20);
          EvSSL 0 (OpWrite 120 10); EvStream 0 (Plain 1%nat)]
    /\ 2000000 <= TaskRunner.clock (runner w').
Proof.
  destruct (write_all_writes_everything [10; 10; 10]
              (Scenario.with_stream Traffic.narrow) 0 100 30 1%nat 2%nat None)
    as (w1 & w' & E & Hr & _ & Ht & Hc).
  - reflexivity.
  - reflexivity.
  - discriminate.
  - cbn. repeat split; lia.
  - reflexivity.
  - reflexivity.
  - exists w1, w'. split; [exact E|]. split; [exact Hr|]. split; [exact Ht|exact Hc].
Defined.

(** ** Tasks and the life of a stream *)

Lemma valid_not_dead (w : World) wp :
  IsValid wp w = true -> deadb w wp = false.
Proof.
  unfold IsValid, deadb. now destruct (flags w !! flag wp) as [[]|].
Qed.

Lemma boundb_stream (w : World) wp :
  boundb w wp = true -> exists s, streams w !! ptr wp = Some (Some s).
Proof.
  unfold boundb. destruct (streams w !! ptr wp) as [[s|]|]; try discriminate.
  eauto.
Qed.

(** X14: no task of a stream outlives its stream.  Whatever the client
    called and in whatever order, cancellations and destructions included
    (the hypothesis holds in every world the program can be in:
    [reachable_well_bound]), the turn of the loop that dispatches a task of
    a stream returns: the task either finds its weak pointer invalid and
    does nothing, or finds the stream alive. *)
Theorem stream_task_never_aborts (w : World) (due : Z) (t : Task)
    (q : list (Z * Task)) (wp : WeakPtr) :
  well_bound w = true ->
  TaskRunner.pending (runner w) = (due, t) :: q ->
  task_stream t = Some wp ->
  exists w', step w = Some (Ok tt w').
Proof.
  intros Hr Hp Ht.
  pose proof (well_bound_task w due t wp Hr) as Hok.
  rewrite Hp in Hok. specialize (Hok (or_introl eq_refl) Ht).
  rewrite (step_cons _ _ _ _ Hp).
  match goal with |- context [run_task t ?x] => set (w0 := x) end.
  assert (Halive : IsValid wp w0 = true ->
                   exists s, streams w0 !! ptr wp = Some (Some s)).
  { intros Hv. apply valid_not_dead in Hv.
    change (deadb w0 wp) with (deadb w wp) in Hv. rewrite Hv in Hok.
    apply boundb_stream in Hok. exact Hok. }
  clear Hok.
  destruct t; try discriminate; injection Ht as ->; cbn [run_task];
    unfold when_valid; unfold bind at 1; unfold get;
    destruct (IsValid wp w0) eqn:Hv; try (eexists; reflexivity);
    destruct (Halive eq_refl) as (s & Hs).
  - unfold IgnoreResult, bind. rewrite ReadAsync_eq. cbv zeta.
    destruct (0 <? _); [|destruct (_ || _)]; stream_post Hs;
      eexists; reflexivity.
  - unfold IgnoreResult, bind. rewrite WriteAllAsync_eq. cbv zeta.
    destruct (0 <? _); [destruct (_ =? 0)|destruct (_ || _)];
      stream_post Hs; eexists; reflexivity.
Qed.

Lemma stream_task_never_aborts_witness :
  exists w', step Scenario.reading = Some (Ok tt w').
Proof.
  apply (stream_task_never_aborts Scenario.reading 1000000
           (Stream_ReadAsync (mkWeakPtr 0 0) 0 16 1%nat 2%nat None) []
           (mkWeakPtr 0 0)); reflexivity.
Defined.

(** ** The handshake of [Init] *)

(** X15: [Init] decides on the first handshake step.  Once the connect step
    has succeeded (after [k] retries, a second apart), [SSL_do_handshake] is
    called once and [Init] returns at once, without sleeping: [false] when
    the step answered [0], and [true] for every other answer, whatever
    [SSL_get_error] would say about it. *)
Theorem Init_decides_on_first_handshake_step (w : World) (this : nat)
    (s : SSLStreamState.t) (host : string) (port : Z) (k fuel : nat) :
  streams w !! this = Some (Some s) ->
  SSL_CTX_new (env w) (queries w) <> 0 ->
  BIO_new_connect (env w) (2 + queries w) <> 0 ->
  (forall i, (i < k)%nat ->
     BIO_do_connect (env w) (3 + queries w + 2 * i) <> 1
     /\ BIO_should_retry (env w) (3 + queries w + 2 * i + 1) <> 0) ->
  (k < fuel)%nat ->
  let last := (3 + queries w + 2 * k)%nat in
  let connect := EvSSL this (OpConnect (end_point_of host port)) in
  let rounds := concat (repeat [connect; EvSleep 1] k) in
  let answer := SSL_do_handshake (env w) (S last) in
  BIO_do_connect (env w) last = 1 ->
  exists w',
    SSLStream.Init fuel this host port w = Ok (negb (answer =? 0)) w'
    /\ TaskRunner.clock (runner w')
       = TaskRunner.clock (runner w) + TimeDelta.FromSeconds (Z.of_nat k)
    /\ trace w'
       = trace w ++ rounds
         ++ [connect; EvSSL this OpHandshake]
         ++ (if answer =? 0 then [EvSSL this (OpGetError answer)] else []).
Proof.
  intros Hs Hctx Hbio Hretry Hfuel last connect rounds answer Hc.
  rewrite (Init_eq fuel this s) by assumption.
  replace fuel with (k + S (fuel - S k))%nat by lia.
  unfold bind.
  rewrite !connect_loop_retries
    by (intros i Hi; exact (Hretry i Hi)).
  set (w1 := retried k this (end_point_of host port) (prepared this s w)).
  assert (Hq : queries w1 = last) by (subst w1 last; cbn; lia).
  rewrite connect_loop_done by (rewrite Hq; exact Hc).
  rewrite Nat.add_succ_r, handshake_loop_eq. cbv zeta.
  cbn [asked env queries set_trace set_queries Nat.add].
  rewrite Hq. change (env w1) with (env w). fold answer.
  destruct (answer =? 0); cbn [negb];
    (eexists; split; [reflexivity|]; split; [reflexivity|]);
    subst w1;
    cbn [asked trace set_trace set_queries retried set_runner prepared
         set_streams]; cbn [Nat.mul];
    rewrite <- !app_assoc; reflexivity.
Qed.

Lemma Init_decides_on_first_handshake_step_witness :
  exists w',
    SSLStream.Init 1 0 "cloud" 443 (Scenario.with_stream Scenario.handshaking)
    = Ok true w'
    /\ TaskRunner.clock (runner w') = 0
    /\ trace w' = [EvSSL 0 (OpConnect "cloud:443"); EvSSL 0 OpHandshake].
Proof.
  destruct (Init_decides_on_first_handshake_step
              (Scenario.with_stream Scenario.handshaking) 0
              (SSLStreamState.mk 0 0 None) "cloud" 443 0 1)
    as (w' & E & Hc & Ht).
  - reflexivity.
  - discriminate.
  - discriminate.
  - intros i Hi. lia.
  - lia.
  - reflexivity.
  - exists w'. split; [exact E|]. split; [exact Hc|exact Ht].
Defined.

(** ** Cancelling and going on *)

Lemma InvalidateWeakPtrs_live (w : World) (this : nat) (s : SSLStreamState.t) :
  streams w !! this = Some (Some s) ->
  exists w1,
    SSLStream.InvalidateWeakPtrs this w = Ok tt w1
    /\ runner w1 = runner w /\ trace w1 = trace w
    /\ live this w1 = true.
Proof.
  intros Hs. unfold SSLStream.InvalidateWeakPtrs, SSLStream.this_, bind.
  rewrite Hs.
  destruct (SSLStreamState.weak_ptr_factory_ s) as [f|] eqn:Hf; cbn.
  - eexists. split; [reflexivity|]. repeat split. unfold live; cbn.
    now rewrite list_lookup_insert_eq by (eapply lookup_lt_Some; eauto).
  - exists w. repeat split. unfold live. now rewrite Hs, Hf.
Qed.

(** X16: cancelling ends what was in flight, not the stream.  After
    [CancelPendingAsyncOperations] a new [ReadAsync] or [WriteAllAsync] on
    the same stream is accepted: it posts its task bound to a weak pointer
    that is valid, while the weak pointer of every task of the stream that
    was pending before stays invalid, so that the loop will deliver the new
    operation and none of the old ones. *)
Theorem cancelled_stream_can_be_used_again (w : World) (this : nat)
    (s : SSLStreamState.t) (buffer size : Z)
    (success_callback error_callback : Callback) (error : option ErrorPtr) :
  well_bound w = true ->
  streams w !! this = Some (Some s) ->
  exists w1,
    SSLStream.CancelPendingAsyncOperations this w = Ok tt w1
    /\ forall op,
         op = SSLStream.ReadAsync \/ op = SSLStream.WriteAllAsync ->
         exists w2 due task wp,
           op this buffer size success_callback error_callback error w1
           = Ok (true, error) w2
           /\ TaskRunner.pending (runner w2)
              = TaskRunner.enqueue due task (TaskRunner.pending (runner w))
           /\ task_stream task = Some wp /\ ptr wp = this
           /\ IsValid wp w2 = true
           /\ forall due' t' wp',
                In (due', t') (TaskRunner.pending (runner w)) ->
                task_stream t' = Some wp' -> ptr wp' = this ->
                IsValid wp' w2 = false.
Proof.
  intros Hw Hs. unfold SSLStream.CancelPendingAsyncOperations.
  destruct (InvalidateWeakPtrs_live w this s Hs) as (w1 & E1 & Hr1 & Ht1 & Hl1).
  destruct (InvalidateWeakPtrs_quiet w this Hw) as (Hq & _ & _).
  rewrite E1 in Hq. cbn [final] in Hq.
  exists w1. split; [exact E1|]. intros op Hop.
  assert (Hold : forall w2 fl, flags w2 = flags w1 ++ fl ->
            forall due' t' wp',
              In (due', t') (TaskRunner.pending (runner w)) ->
              task_stream t' = Some wp' -> ptr wp' = this ->
              IsValid wp' w2 = false).
  { intros w2 fl Hfl due' t' wp' Hin Hts Hptr.
    rewrite <- Hr1 in Hin. destruct (Hq due' t' wp' Hin Hts) as [Hne|Hd];
      [congruence|].
    unfold dead in Hd. unfold IsValid. rewrite Hfl.
    now rewrite (lookup_app_l_Some _ _ _ _ Hd). }
  destruct Hop as [-> | ->].
  - rewrite ReadAsync_eq. cbv zeta.
    destruct (0 <? _); [|destruct (_ || _)];
      (edestruct (stream_post_live (A := bool * option ErrorPtr))
         as (f & w2 & E & Hp & Hv & _ & _ & _ & _ & _ & fl & Hfl);
       [|rewrite E]; [exact Hl1|]);
      exists w2; do 2 eexists; exists (mkWeakPtr f this);
      (split; [reflexivity|]);
      (split; [rewrite Hp; cbn [asked runner set_queries set_trace];
               rewrite Hr1; reflexivity|]);
      (split; [reflexivity|]); (split; [reflexivity|]);
      (split; [exact Hv|]); exact (Hold w2 fl Hfl).
  - rewrite WriteAllAsync_eq. cbv zeta.
    destruct (0 <? _); [destruct (_ =? 0)|destruct (_ || _)];
      (edestruct (stream_post_live (A := bool * option ErrorPtr))
         as (f & w2 & E & Hp & Hv & _ & _ & _ & _ & _ & fl & Hfl);
       [|rewrite E]; [exact Hl1|]);
      exists w2; do 2 eexists; exists (mkWeakPtr f this);
      (split; [reflexivity|]);
      (split; [rewrite Hp; cbn [asked runner set_queries set_trace];
               rewrite Hr1; reflexivity|]);
      (split; [reflexivity|]); (split; [reflexivity|]);
      (split; [exact Hv|]); exact (Hold w2 fl Hfl).
Qed.

Lemma cancelled_stream_can_be_used_again_witness :
  exists w1 w2,
    SSLStream.CancelPendingAsyncOperations 0 Scenario.reading = Ok tt w1
    /\ SSLStream.ReadAsync 0 0 16 1%nat 2%nat None w1 = Ok (true, None) w2
    /\ IsValid (mkWeakPtr 0 0) w2 = false.
Proof.
  destruct (cancelled_stream_can_be_used_again Scenario.reading 0
              (SSLStreamState.mk 0 0 (Some 0%nat)) 0 16 1%nat 2%nat None)
    as (w1 & E1 & H).
  - reflexivity.
  - reflexivity.
  - destruct (H SSLStream.ReadAsync (or_introl eq_refl))
      as (w2 & due & task & wp & E2 & _ & _ & _ & _ & Hold).
    exists w1, w2. split; [exact E1|]. split; [exact E2|].
    apply (Hold 1000000
             (Stream_ReadAsync (mkWeakPtr 0 0) 0 16 1%nat 2%nat None)).
    + left. reflexivity.
    + reflexivity.
    + reflexivity.
Defined.

(** ** Failures to allocate *)

(** X17: a failure to allocate is fatal.  When OpenSSL cannot create the
    context or the connect BIO, [Init] aborts the process at its [CHECK]
    instead of returning [false]; for [OpenSslSocket] that means that
    neither callback is posted or run, no connection is tried, and the call
    does not return. *)
Theorem allocation_failure_aborts (w : World) (fuel : nat) (host : string)
    (port : Z) (success_callback error_callback : Callback) :
  SSL_CTX_new (env w) (queries w) = 0
  \/ BIO_new_connect (env w) (2 + queries w) = 0 ->
  exists w',
    NetworkImpl.OpenSslSocket fuel host port success_callback error_callback w
    = Crash w'
    /\ TaskRunner.pending (runner w') = TaskRunner.pending (runner w)
    /\ trace w' = trace w.
Proof.
  intros H. unfold NetworkImpl.OpenSslSocket. unfold bind at 1.
  cbn [SSLStream.new]. unfold bind at 1. unfold SSLStream.Init.
  unfold bind at 1. unfold SSLStream.this_.
  cbn [streams set_streams]. rewrite list_lookup_middle by reflexivity.
  unfold bind at 1. cbn [extern env queries set_streams].
  unfold bind at 1. cbn [SSLStream.store modify].
  destruct (Z.eqb_spec (SSL_CTX_new (env w) (queries w)) 0) as [Hctx|Hctx].
  { cbn [negb CHECK]. unfold bind at 1. eexists. split; [reflexivity|].
    split; reflexivity. }
  destruct H as [H|H]; [contradiction|].
  cbn [negb CHECK]. unfold bind at 1. cbn [ret].
  unfold bind at 1. cbn [extern env queries set_streams set_queries].
  unfold bind at 1. cbn [SSLStream.store modify]. cbv zeta.
  unfold bind at 1. cbn [extern env queries set_streams set_queries].
  cbn [Nat.add] in H. rewrite H. cbn [Z.eqb negb CHECK]. unfold bind at 1.
  eexists. split; [reflexivity|]. split; reflexivity.
Qed.

Lemma allocation_failure_aborts_witness :
  exists w',
    NetworkImpl.OpenSslSocket 1 "cloud" 443 1%nat 2%nat (boot Traffic.exhausted)
    = Crash w'.
Proof.
  destruct (allocation_failure_aborts (boot Traffic.exhausted) 1 "cloud" 443
              1%nat 2%nat) as (w' & E & _).
  - left. reflexivity.
  - exists w'. exact E.
Defined.

(** ** MemoryStream *)

Module MemoryFacts.
Import Streams.
Import StreamCopierState.
Import MemorySpec.

Lemma slice_length (data : list Byte.byte) (pos n : Z) :
  0 <= pos -> 0 <= n -> pos + n <= Z.of_nat (length data) ->
  Z.of_nat (length (slice data pos n)) = n.
Proof.
  intros Hp Hn Hle. unfold slice. rewrite length_take, length_drop. lia.
Qed.

Lemma Read_eq (w : World) this data pos size_to_read cb ec :
  streams w !! this = Some (MemoryStreamState.mk data pos) ->
  0 <= pos <= Z.of_nat (length data) ->
  Z.of_nat (length data) < 2 ^ 64 ->
  let n := Z.min size_to_read (Z.of_nat (length data) - pos) in
  let bytes := slice data pos n in
  MemoryStream.Read this 0 size_to_read cb ec w
  = Ok tt
      (set_runner
         (TaskRunner.PostDelayedTask (RunRead cb n) TimeDelta.Zero (runner w))
         (set_trace (trace w ++ [EvRead this bytes])
            (set_streams
               (<[this := MemoryStreamState.mk data (size_t (pos + n))]>
                  (streams w))
               (if 0 <? n then copied_in bytes w else w)))).
Proof.
  intros Hs Hpos Hlen n bytes.
  unfold MemoryStream.Read, bind, MemoryStream.this_. rewrite Hs.
  cbn [MemoryStreamState.data_ MemoryStreamState.read_position_].
  replace (pos <=? Z.of_nat (length data)) with true
    by (symmetry; apply Z.leb_le; lia).
  cbn [CHECK ret].
  rewrite (CopierFacts.size_t_small (Z.of_nat (length data) - pos)) by lia.
  fold n. fold bytes.
  destruct (0 <? n); reflexivity.
Qed.

(** X18: [MemoryStream::Read] never reads past the end of the data nor more
    than it was asked for.  On a stream whose position is within its data it
    delivers the next [min(size_to_read, remaining)] bytes, in order, moves
    the position by that many, so that it stays within the data, and posts
    the success callback with that count; at the end of the data the count
    is [0] and the buffer of the caller is left as it was.  The [CHECK] on
    the position does not fire. *)
Theorem Read_stays_within_data (w : World) (this : nat)
    (data : list Byte.byte) (pos size_to_read : Z)
    (cb : ReadSuccessCallback) (ec : ErrorCallback) :
  streams w !! this = Some (MemoryStreamState.mk data pos) ->
  0 <= pos <= Z.of_nat (length data) ->
  Z.of_nat (length data) < 2 ^ 64 ->
  0 <= size_to_read ->
  let n := Z.min size_to_read (Z.of_nat (length data) - pos) in
  let bytes := slice data pos n in
  exists w',
    MemoryStream.Read this 0 size_to_read cb ec w = Ok tt w'
    /\ 0 <= n <= size_to_read
    /\ pos + n <= Z.of_nat (length data)
    /\ Z.of_nat (length bytes) = n
    /\ streams w' = <[this := MemoryStreamState.mk data (pos + n)]> (streams w)
    /\ trace w' = trace w ++ [EvRead this bytes]
    /\ TaskRunner.pending (runner w')
       = TaskRunner.enqueue (TaskRunner.clock (runner w) + TimeDelta.Zero)
           (RunRead cb n) (TaskRunner.pending (runner w))
    /\ buffer_ (copier w')
       = (if 0 <? n then bytes ++ drop (length bytes) (buffer_ (copier w))
          else buffer_ (copier w)).
Proof.
  intros Hs Hpos Hlen Hsize n bytes.
  rewrite (Read_eq w this data pos) by assumption. fold n. fold bytes.
  assert (Hn : 0 <= n <= size_to_read) by (subst n; lia).
  assert (Hle : pos + n <= Z.of_nat (length data)) by (subst n; lia).
  rewrite CopierFacts.size_t_small by lia.
  eexists. split; [reflexivity|]. split; [exact Hn|]. split; [exact Hle|].
  split; [apply slice_length; lia|].
  destruct (0 <? n); repeat split.
Qed.

(** X19: what is written to a [MemoryStream] is what is read back.  On a
    stream that has been read to its end, [Write] of [n] bytes followed by
    [Read] of [n] bytes gives back the bytes written, leaves the stream read
    to its end again, and posts the two callbacks in this order. *)
Theorem Write_then_Read_round_trip (w : World) (this : nat)
    (data chunk tail : list Byte.byte)
    (cbw : SuccessCallback) (cbr : ReadSuccessCallback) (ec : ErrorCallback) :
  streams w !! this
  = Some (MemoryStreamState.mk data (Z.of_nat (length data))) ->
  buffer_ (copier w) = chunk ++ tail ->
  Z.of_nat (length (data ++ chunk)) < 2 ^ 64 ->
  let n := Z.of_nat (length chunk) in
  exists w1 w2,
    MemoryStream.Write this 0 n cbw ec w = Ok tt w1
    /\ MemoryStream.Read this 0 n cbr ec w1 = Ok tt w2
    /\ buffer_ (copier w2) = chunk ++ tail
    /\ streams w2
       = <[this := MemoryStreamState.mk (data ++ chunk)
                    (Z.of_nat (length (data ++ chunk)))]> (streams w)
    /\ trace w2 = trace w ++ [EvWrite this chunk; EvRead this chunk]
    /\ TaskRunner.pending (runner w2)
       = TaskRunner.enqueue (TaskRunner.clock (runner w) + TimeDelta.Zero)
           (RunRead cbr n)
           (TaskRunner.enqueue (TaskRunner.clock (runner w) + TimeDelta.Zero)
              (RunSuccess cbw) (TaskRunner.pending (runner w))).
Proof.
  intros Hs Hbuf Hlen n.
  assert (Hlt : (this < length (streams w))%nat) by (eapply lookup_lt_Some; eauto).
  destruct (CopierFacts.Write_spec w this _ chunk tail cbw ec Hs Hbuf)
    as (w1 & E1 & Hp1 & Ht1 & _ & Hst1 & Hc1).
  cbn [MemoryStreamState.data_ MemoryStreamState.read_position_] in Hst1.
  assert (Hs1 : streams w1 !! this
                = Some (MemoryStreamState.mk (data ++ chunk)
                          (Z.of_nat (length data)))).
  { rewrite Hst1. now apply list_lookup_insert_eq. }
  exists w1. eexists. split; [exact E1|].
  rewrite (Read_eq w1 this _ _ n cbr ec Hs1)
    by (rewrite ?length_app in *; lia).
  cbv zeta.
  assert (Hmin : Z.min n (Z.of_nat (length (data ++ chunk)) - Z.of_nat (length data))
                 = n) by (rewrite length_app; lia).
  rewrite Hmin. subst n.
  rewrite CopierFacts.slice_rest, firstn_all.
  rewrite CopierFacts.size_t_small by (rewrite length_app in Hlen; lia).
  split; [reflexivity|].
  cbn [copier runner trace streams set_runner set_trace set_streams
       TaskRunner.PostDelayedTask TaskRunner.pending TaskRunner.clock].
  assert (Hclock : TaskRunner.clock (runner w1) = TaskRunner.clock (runner w)).
  { apply (f_equal (fun o => TaskRunner.clock (runner (final o)))) in E1.
    cbn [final] in E1. rewrite <- E1.
    unfold MemoryStream.Write, bind, MemoryStream.this_, get. now rewrite Hs. }
  split; [|split; [|split]].
  - destruct (0 <? Z.of_nat (length chunk)) eqn:Hpos.
    + cbn [copied_in copier set_copier buffer_]. rewrite Hc1, Hbuf.
      now rewrite drop_app_length.
    + rewrite Hc1, Hbuf. reflexivity.
  - replace (streams (if 0 <? Z.of_nat (length chunk) then copied_in chunk w1 else w1))
      with (streams w1) by (now destruct (0 <? _)).
    rewrite Hst1, list_insert_insert_eq.
    now rewrite length_app, Nat2Z.inj_add.
  - replace (trace (if 0 <? Z.of_nat (length chunk) then copied_in chunk w1 else w1))
      with (trace w1) by (now destruct (0 <? _)).
    rewrite Ht1, <- app_assoc. reflexivity.
  - replace (runner (if 0 <? Z.of_nat (length chunk) then copied_in chunk w1 else w1))
      with (runner w1) by (now destruct (0 <? _)).
    now rewrite Hp1, Hclock.
Qed.
End MemoryFacts.

Lemma Read_stays_within_data_witness :
  exists w' : Streams.World,
    Streams.MemoryStream.Read 0 0 4096 (Streams.ClientRead 1%nat) (Streams.ClientError 2%nat)
      Scenario.copy_job = Ok tt w'
    /\ Streams.streams w' !! 0%nat
       = Some (Streams.MemoryStreamState.mk Scenario.source 4096)
    /\ TaskRunner.pending (Streams.runner w') = [(0, Streams.RunRead (Streams.ClientRead 1%nat) 4096)].
Proof.
  destruct (MemoryFacts.Read_stays_within_data Scenario.copy_job 0 Scenario.source 0 4096
              (Streams.ClientRead 1%nat) (Streams.ClientError 2%nat))
    as (w' & E & _ & _ & _ & Hst & _ & Hp & _).
  - reflexivity.
  - vm_compute. split; discriminate.
  - reflexivity.
  - lia.
  - exists w'. split; [exact E|]. split; [|exact Hp]. rewrite Hst. reflexivity.
Defined.

Lemma Write_then_Read_round_trip_witness :
  exists w1 w2 : Streams.World,
    Streams.MemoryStream.Write 1 0 3 (Streams.ClientSuccess 1%nat)
      (Streams.ClientError 2%nat) Scenario.copy_job = Ok tt w1
    /\ Streams.MemoryStream.Read 1 0 3 (Streams.ClientRead 3%nat)
         (Streams.ClientError 2%nat) w1 = Ok tt w2
    /\ Streams.streams w2 !! 1%nat
       = Some (Streams.MemoryStreamState.mk (replicate 3 Byte.x00) 3)
    /\ Streams.trace w2
       = [Streams.EvWrite 1 (replicate 3 Byte.x00);
          Streams.EvRead 1 (replicate 3 Byte.x00)].
Proof.
  destruct (MemoryFacts.Write_then_Read_round_trip Scenario.copy_job 1 []
              (replicate 3 Byte.x00) (replicate 4093 Byte.x00)
              (Streams.ClientSuccess 1%nat) (Streams.ClientRead 3%nat)
              (Streams.ClientError 2%nat))
    as (w1 & w2 & E1 & E2 & _ & Hst & Ht & _).
  - reflexivity.
  - vm_compute. reflexivity.
  - reflexivity.
  - exists w1, w2. split; [exact E1|]. split; [exact E2|].
    split; [rewrite Hst; reflexivity|exact Ht].
Defined.
